(** * VideoWise backend: the job pipeline of [backend/video_processor.py]
      and [backend/app.py]

    The development embeds the frame sampler, the three analyzers, the
    summary composer and the job handlers of the Flask application as Rocq
    functions, and proves the properties the service's description states
    about them.

    Conventions.
    - A Python [str] is a [string]; its characters are code points below 256.
    - A Python [int] is a [Z]; a float (an OCR confidence, an audio sample)
      is a binary64 [float].
    - A Python [dict] used as a keyed store (the [jobs] registry, a table of
      the SQLite database, the upload folder) is a [gmap]; a dict with a
      fixed set of keys is a record.
    - A call that can raise returns a [result]; a model or a provider that
      lives outside the repository is a field of the processor, and its
      answer [None] stands for a raised exception. *)

From Stdlib Require Import ZArith Ascii Floats DecimalString Lia.
From Stdlib Require String.
From stdpp Require Import gmap strings list sorting.

Local Open Scope Z_scope.

(** ** Python built-ins used by the code *)

Module Py.

(** [c.isspace()]: the white space of [str.strip] and [str.split]. *)
Definition isspace (c : ascii) : bool :=
  let n := N_of_ascii c in
  (((9 <=? n) && (n <=? 13)) || ((28 <=? n) && (n <=? 32))
   || (n =? 133) || (n =? 160))%N.

Fixpoint lstrip (s : string) : string :=
  match s with
  | EmptyString => EmptyString
  | String c s' => if isspace c then lstrip s' else s
  end.

Fixpoint rstrip (s : string) : string :=
  match s with
  | EmptyString => EmptyString
  | String c s' =>
      match rstrip s' with
      | EmptyString => if isspace c then EmptyString else String c EmptyString
      | r => String c r
      end
  end.

(** [s.strip()] *)
Definition strip (s : string) : string := rstrip (lstrip s).

(** [s.split()]: the maximal runs of characters that are not white space. *)
Fixpoint split (s : string) : list string :=
  match s with
  | EmptyString => []
  | String c s' =>
      if isspace c then split s'
      else match s' with
           | EmptyString => [String c EmptyString]
           | String d _ =>
               if isspace d then String c EmptyString :: split s'
               else match split s' with
                    | w :: ws => String c w :: ws
                    | [] => [String c EmptyString]
                    end
           end
  end.

(** [sep.join(l)] *)
Fixpoint join (sep : string) (l : list string) : string :=
  match l with
  | [] => EmptyString
  | x :: l' =>
      match l' with
      | [] => x
      | _ :: _ => x +:+ sep +:+ join sep l'
      end
  end.

(** [s] without the prefix [p], when it starts with it. *)
Fixpoint strip_prefix (p s : string) : option string :=
  match p with
  | EmptyString => Some s
  | String a p' =>
      match s with
      | EmptyString => None
      | String b s' => if Ascii.eqb a b then strip_prefix p' s' else None
      end
  end.

(** The text before and after the first occurrence of [sep] in [s]
    ([str.partition] without its middle component); [None] when [sep] does
    not occur. *)
Fixpoint partition (sep s : string) : option (string * string) :=
  match strip_prefix sep s with
  | Some rest => Some (EmptyString, rest)
  | None =>
      match s with
      | EmptyString => None
      | String c s' =>
          match partition sep s' with
          | Some (before, rest) => Some (String c before, rest)
          | None => None
          end
      end
  end.

(** [sub in s] *)
Definition contains (sub s : string) : bool :=
  match partition sub s with Some _ => true | None => false end.

(** [s.split(sep, 1)[-1]]: what follows the first [sep], or [s] itself. *)
Definition split1_last (sep s : string) : string :=
  match partition sep s with Some (_, rest) => rest | None => s end.

(** [s.split(sep)[0]]: what precedes the first [sep], or [s] itself. *)
Definition split_first (sep s : string) : string :=
  match partition sep s with Some (before, _) => before | None => s end.

(** [s[:n]] for a literal [n >= 0]. *)
Fixpoint str_take (n : nat) (s : string) : string :=
  match n, s with
  | S n', String c s' => String c (str_take n' s')
  | _, _ => EmptyString
  end.

(** [l[:n]] for an [int] bound: a negative bound counts from the end. *)
Definition slice_to {A} (n : Z) (l : list A) : list A :=
  if 0 <=? n then take (Z.to_nat n) l
  else take (length l - Z.to_nat (- n))%nat l.

(** [str(n)] of a non-negative [int], as an f-string prints it. *)
Definition str_of_nat (n : nat) : string :=
  NilZero.string_of_uint (Nat.to_uint n).

(** Truth value of a [str] and of an [Optional[int]]. *)
Definition truthy (s : string) : bool :=
  match s with EmptyString => false | String _ _ => true end.

Definition truthy_int (n : option Z) : bool :=
  match n with Some k => negb (k =? 0) | None => false end.

(** [range(n)] *)
Definition range (n : Z) : list Z := Z.of_nat <$> seq 0 (Z.to_nat n).

(** The integer nearest to [a / b], the even one of two that are equally
    near, for [0 <= a] and [0 < b]. *)
Definition div_nearest_even (a b : Z) : Z :=
  let q := a / b in
  let r := a mod b in
  if 2 * r <? b then q
  else if b <? 2 * r then q + 1
  else if Z.even q then q else q + 1.

(** The binary exponent [e] of the quotient of two positive [int]s:
    [2^e <= a / b < 2^(e+1)]. *)
Definition quotient_exponent (a b : Z) : Z :=
  let d := Z.log2 a - Z.log2 b in
  if (if 0 <=? d then b * 2 ^ d <=? a else b <=? a * 2 ^ (- d))
  then d else d - 1.

(** [int(a / b)] for two [int]s. The true division gives the binary64
    number nearest to the quotient (53 significant bits, ties to even):
    the mantissa [m] of the quotient at the scale [2^-s]; [int] drops the
    fraction. A zero divisor raises [ZeroDivisionError] and a quotient of
    [2^1024] or more [OverflowError]; the sampler, the one caller, divides
    by a positive count a number below the frame count, which is the [int]
    of a double. *)
Definition int_true_div (a b : Z) : Z :=
  if (a =? 0) || (b =? 0) then 0
  else
    let x := Z.abs a in
    let y := Z.abs b in
    let s := 52 - quotient_exponent x y in
    let m := if 0 <=? s then div_nearest_even (x * 2 ^ s) y
             else div_nearest_even x (y * 2 ^ (- s)) in
    Z.sgn a * Z.sgn b * (if 0 <=? s then m / 2 ^ s else m * 2 ^ (- s)).

(** The exceptions the modelled code raises, and [str(e)]. *)
Inductive exn :=
  | ValueError (msg : string)
  | KeyError (key : string)
  | AttributeError (msg : string)
  | IntegrityError (msg : string)
  | TypeError (msg : string).

Definition str_exn (e : exn) : string :=
  match e with
  | ValueError msg | AttributeError msg | IntegrityError msg | TypeError msg =>
      msg
  | KeyError key => "'" +:+ key +:+ "'"
  end.

Inductive result (A : Type) :=
  | Ok (a : A)
  | Raise (e : exn).
Global Arguments Ok {A} a.
Global Arguments Raise {A} e.

(** [os.path.join(a, b)] on POSIX paths. *)
Definition path_join (a b : string) : string :=
  match strip_prefix "/" b with
  | Some _ => b
  | None =>
      match String.rev a with
      | EmptyString => b
      | String c _ => if Ascii.eqb c "/" then a +:+ b else a +:+ "/" +:+ b
      end
  end.

End Py.


(** ** Decoded JSON *)

Module Data.

(** A decoded JSON value ([json.loads]). *)
#[warnings="-register-all"]
Inductive Json :=
  | JNull
  | JBool (b : bool)
  | JInt (n : Z)
  | JFloat (x : float)
  | JString (s : string)
  | JArray (items : list Json)
  | JObject (fields : list (string * Json)).

(** [user_profile] as [upload_video] builds it. *)
Record UserProfile := {
  p_id : string;
  p_expertise : Json;
  p_summaryPreferences : Json }.

End Data.

(** ** The profile part of the prompt
    The [# Add user profile context if available] block of
    [generate_summary] in [backend/video_processor.py]. *)

Module Prompting.
Import Data.

(** Truth value of a decoded JSON value. *)
Definition truthy (v : Json) : bool :=
  match v with
  | JNull => false
  | JBool b => b
  | JInt n => negb (n =? 0)
  | JFloat x => negb (x =? 0)%float
  | JString s => Py.truthy s
  | JArray items => match items with [] => false | _ :: _ => true end
  | JObject fields => match fields with [] => false | _ :: _ => true end
  end.

(** [d.get(key, default)] on a decoded object; of a key that the text
    repeats, [json.loads] keeps the last value. *)
Definition dict_get (fields : list (string * Json)) (key : string)
    (default : Json) : Json :=
  match List.find (fun kv => String.eqb kv.1 key) (rev fields) with
  | Some kv => kv.2
  | None => default
  end.

(** The keys of a decoded object in iteration order: each key once, at the
    place of its first occurrence. *)
Definition dict_keys (fields : list (string * Json)) : list string :=
  rev (remove_dups (rev fields.*1)).

Definition str_item (v : Json) : option string :=
  match v with
  | JString s => Some s
  | _ => None
  end.

(** [sep.join(v)]: a [str] gives its characters, a [dict] its keys, a
    [list] its items when all of them are [str]; [None] when it raises
    [TypeError]. *)
Definition join_value (sep : string) (v : Json) : option string :=
  match v with
  | JString s =>
      Some (Py.join sep ((fun c => String c EmptyString) <$> String.list_ascii_of_string s))
  | JArray items => Py.join sep <$> mapM str_item items
  | JObject fields => Some (Py.join sep (dict_keys fields))
  | JNull | JBool _ | JInt _ | JFloat _ => None
  end.

(** The values that [join_value] accepts. *)
Definition joins (v : Json) : Prop :=
  match v with
  | JString _ | JObject _ => True
  | JArray items => Forall (fun item => exists s, item = JString s) items
  | JNull | JBool _ | JInt _ | JFloat _ => False
  end.

Definition nl : string := String "010" EmptyString.

Section Context.

(** [str(v)] of a decoded value, as the f-string formats it. *)
Variable str : Json -> string.

(** [profile_context] for a [user_profile] that is not [None], which is a
    dict of three keys and so true; [None] when building it raises
    ([TypeError] from [join], [AttributeError] from [prefs.get]). *)
Definition profile_context (user_profile : UserProfile) : option string :=
  let expertise := p_expertise user_profile in
  match (if truthy expertise
         then (fun s => "Expertise: " +:+ s +:+ nl) <$> join_value ", " expertise
         else Some "") with
  | None => None
  | Some expertise_line =>
      let prefs := p_summaryPreferences user_profile in
      match (if truthy prefs
             then match prefs with
                  | JObject fields =>
                      (fun focus =>
                         "Preferences: Length="
                         +:+ str (dict_get fields "length" (JString "medium"))
                         +:+ ", Focus=" +:+ focus +:+ nl)
                        <$> join_value ", " (dict_get fields "focus" (JArray []))
                  | _ => None
                  end
             else Some "") with
      | None => None
      | Some preferences_line =>
          Some ("USER PROFILE:" +:+ nl +:+ expertise_line +:+ preferences_line)
      end
  end.

End Context.

(** [type(v).__name__] *)
Definition type_name (v : Json) : string :=
  match v with
  | JNull => "NoneType"
  | JBool _ => "bool"
  | JInt _ => "int"
  | JFloat _ => "float"
  | JString _ => "str"
  | JArray _ => "list"
  | JObject _ => "dict"
  end.

(** The first item of a list that is not a [str], with its index. *)
Fixpoint first_non_str (i : nat) (items : list Json) : option (nat * Json) :=
  match items with
  | [] => None
  | JString _ :: rest => first_non_str (S i) rest
  | item :: _ => Some (i, item)
  end.

(** The [TypeError] of [sep.join(v)], when it raises. *)
Definition join_error (v : Json) : option Py.exn :=
  match v with
  | JString _ | JObject _ => None
  | JArray items =>
      match first_non_str 0 items with
      | Some (i, item) =>
          Some (Py.TypeError
                  ("sequence item " +:+ Py.str_of_nat i
                   +:+ ": expected str instance, " +:+ type_name item
                   +:+ " found"))
      | None => None
      end
  | JNull | JBool _ | JInt _ | JFloat _ =>
      Some (Py.TypeError "can only join an iterable")
  end.

(** What the rest of [generate_summary] sees of the profile block: the
    exception it raises, if any. The block stands outside the [try]
    statements, so the exception leaves [generate_summary]. The expertise
    line comes first, then [prefs.get], then the focus. *)
Definition profile_exception (user_profile : UserProfile) : option Py.exn :=
  let expertise := p_expertise user_profile in
  match (if truthy expertise then join_error expertise else None) with
  | Some e => Some e
  | None =>
      let prefs := p_summaryPreferences user_profile in
      if truthy prefs then
        match prefs with
        | JObject fields => join_error (dict_get fields "focus" (JArray []))
        | _ =>
            Some (Py.AttributeError
                    ("'" +:+ type_name prefs
                     +:+ "' object has no attribute 'get'"))
        end
      else None
  end.

End Prompting.

(** ** [video_processor.py] *)

Module VideoProcessor.
Import Data.

(** A decoded image: its pixels, three channels each. *)
Definition Frame : Type := list (Z * Z * Z).

(** [cv2.cvtColor(frame, cv2.COLOR_BGR2RGB)] *)
Definition cvtColor_BGR2RGB (frame : Frame) : Frame :=
  (fun p => match p with (b, g, r) => (r, g, b) end) <$> frame.

(** What [moviepy] and [librosa] make of a file's sound. *)
Inductive AudioProbe :=
  | ClipError                              (* a call of the try block raises *)
  | NoAudioTrack                           (* video_clip.audio is None *)
  | Waveform (audio_data : list float).    (* librosa.load(audio_path, sr=16000) *)

(** A media file as the decoding libraries see it: whether
    [cv2.VideoCapture] opens it, the frame count it reports (the [int] of
    the double that [cap.get] returns), what [cap.read()] gives after
    [cap.set(cv2.CAP_PROP_POS_FRAMES, idx)], and its sound. *)
Record Media := {
  isOpened : bool;
  CAP_PROP_FRAME_COUNT : Z;
  read_at : Z -> option Frame;
  clip : AudioProbe }.

(** One answer of a text-generation provider: the call raises, or the
    response carries [content]. *)
Inductive Call :=
  | Raises
  | Returns (content : string).

(** An entry of [ocr_reader.readtext]: bounding box, text, confidence. *)
Definition BBox : Type := list (Z * Z).
Definition Detection : Type := BBox * string * float.

(** [self]: the pretrained models and the provider clients. A model answers
    [None] when its call raises; a client is [None] when it was not
    configured. The prompt that [generate_summary] assembles reaches only
    the provider, so a provider is modelled by its answer. *)
Record Processor := {
  whisper : list float -> Z -> option string;
  blip : Frame -> option string;
  ocr_reader : Frame -> option (list Detection);
  groq_client : option Call;
  gemini_model : option Call }.

(** [frame_indices] of [extract_keyframes]. [i * total_frames /
    num_frames] is a true division: its result is a float, which [int]
    truncates. [range(num_frames)] is empty unless [num_frames >= 1], so
    no division by zero is evaluated. *)
Definition frame_indices (total_frames num_frames : Z) : list Z :=
  if total_frames <? num_frames then Py.range total_frames
  else (fun i => Py.int_true_div (i * total_frames) num_frames)
         <$> Py.range num_frames.

(** [extract_keyframes]: a file that is missing or that OpenCV cannot open
    raises; a position whose read fails ([ret] false) is skipped. *)
Definition extract_keyframes (disk : gmap string Media) (video_path : string)
    (num_frames : Z) : Py.result (list Frame) :=
  match disk !! video_path with
  | Some cap =>
      if isOpened cap then
        let total_frames := CAP_PROP_FRAME_COUNT cap in
        Py.Ok (omap (fun idx => cvtColor_BGR2RGB <$> read_at cap idx)
                 (frame_indices total_frames num_frames))
      else Py.Raise (Py.ValueError ("Could not open video: " +:+ video_path))
  | None => Py.Raise (Py.ValueError ("Could not open video: " +:+ video_path))
  end.

(** [extract_audio]: [(audio_data, sample_rate)], or [(None, None)] when the
    clip has no sound or anything in the try block raises. *)
Definition extract_audio (disk : gmap string Media) (video_path : string)
    : option (list float * Z) :=
  match disk !! video_path with
  | Some m =>
      match clip m with
      | Waveform audio_data => Some (audio_data, 16000)
      | NoAudioTrack => None
      | ClipError => None
      end
  | None => None
  end.

Definition transcribe_audio (self : Processor) (audio_data : option (list float))
    (sample_rate : Z) : string :=
  match audio_data with
  | None => "No audio content detected."
  | Some [] => "No audio content detected."
  | Some samples =>
      match whisper self samples sample_rate with
      | Some transcription =>
          if Py.truthy (Py.strip transcription) then Py.strip transcription
          else "No speech detected in audio."
      | None => "Audio transcription failed."
      end
  end.

Definition caption_frame (self : Processor) (frame : Frame) : string :=
  match blip self frame with
  | Some caption => caption
  | None => "Unable to describe this frame."
  end.

Definition extract_text_from_frame (self : Processor) (frame : Frame) : list string :=
  match ocr_reader self frame with
  | Some results =>
      (fun text => text.1.2) <$> List.filter (fun text => (0.5 <? text.2)%float) results
  | None => []
  end.

Record VisualAnalysis := {
  frame_captions : list string;
  ocr_texts : list string;
  visual_summary : string }.

(** The body of the loop of [analyze_visual_content] for frame [i]. *)
Definition caption_line (self : Processor) (i : nat) (frame : Frame) : string :=
  let caption := caption_frame self frame in
  let line := "Frame " +:+ Py.str_of_nat (i + 1) +:+ ": " +:+ caption in
  match extract_text_from_frame self frame with
  | [] => line
  | ocr => line +:+ " | On-screen text: " +:+ Py.join ", " ocr
  end.

Fixpoint analyze_loop (self : Processor) (i : nat) (frames : list Frame)
    (frame_captions all_ocr_texts : list string) : list string * list string :=
  match frames with
  | [] => (frame_captions, all_ocr_texts)
  | frame :: rest =>
      analyze_loop self (S i) rest
        (frame_captions ++ [caption_line self i frame])
        (all_ocr_texts ++ extract_text_from_frame self frame)
  end.

Definition analyze_visual_content (self : Processor) (frames : list Frame)
    : VisualAnalysis :=
  let '(captions, texts) := analyze_loop self 0 frames [] [] in
  {| frame_captions := captions;
     ocr_texts := texts;
     visual_summary := Py.join (String "010" EmptyString) captions |}.

(** The scene descriptions that [generate_summary] collects: each labelled
    caption without its label and without its on-screen-text suffix. *)
Definition visual_scenes (captions : list string) : list string :=
  omap (fun caption =>
          if Py.contains ": " caption then
            let scene_desc := Py.split1_last ": " caption in
            let scene_desc :=
              if Py.contains " | On-screen text:" scene_desc
              then Py.split_first " | On-screen text:" scene_desc
              else scene_desc in
            Some (Py.strip scene_desc)
          else None) captions.

(** [not summary], for [summary] that is [None] or a [str]. *)
Definition not_summary (summary : option string) : bool :=
  match summary with
  | Some s => negb (Py.truthy s)
  | None => true
  end.

(** The templated text of the [# Fallback] branch of [generate_summary]. *)
Definition template_summary (audio_transcription : string) (scenes : list string)
    : string :=
  let summary :=
    "This video contains: "
    +:+ (if Py.truthy audio_transcription then Py.str_take 200 audio_transcription
         else "visual content")
    +:+ ". " in
  match scenes with
  | [] => summary
  | _ :: _ => summary +:+ "Key scenes include: " +:+ Py.join ", " (take 3 scenes) +:+ "."
  end.

(** The summary [generate_summary] settles on before it trims: Groq's
    answer, else Gemini's, else the template. *)
Definition choose_summary (self : Processor) (audio_transcription : string)
    (scenes : list string) : string :=
  let summary : option string := None in
  let summary :=
    match groq_client self with
    | Some (Returns content) => Some (Py.strip content)
    | Some Raises => summary
    | None => summary
    end in
  let summary :=
    if not_summary summary then
      match gemini_model self with
      | Some (Returns text) => Some (Py.strip text)
      | Some Raises => summary
      | None => summary
      end
    else summary in
  match summary with
  | Some s => if Py.truthy s then s else template_summary audio_transcription scenes
  | None => template_summary audio_transcription scenes
  end.

(** [# Trim to approximate word count if specified] *)
Definition trim_summary (summary_length_words : option Z) (summary : string) : string :=
  if Py.truthy_int summary_length_words && Py.truthy summary then
    let words := Py.split summary in
    match summary_length_words with
    | Some n =>
        if Z.of_nat (length words) >? n
        then Py.join " " (Py.slice_to n words) +:+ "..."
        else summary
    | None => summary
    end
  else summary.

(** [generate_summary]. The arguments [ocr_texts], [summary_style] and
    [summary_format] only shape the prompt, which is assembled from strings
    and lists of strings and read by the providers alone; they are left out
    with it. So does [user_profile], but its block is built from values
    decoded from the database, and building it can raise: it does so
    before any provider is called. A [user_profile] that is not [None] is
    a dict of three keys, and so true. *)
Definition generate_summary (self : Processor) (audio_transcription : string)
    (visual_analysis : VisualAnalysis) (summary_length_words : option Z)
    (user_profile : option UserProfile) : Py.result string :=
  let scenes := visual_scenes (frame_captions visual_analysis) in
  match (match user_profile with
         | Some profile => Prompting.profile_exception profile
         | None => None
         end) with
  | Some e => Py.Raise e
  | None =>
      Py.Ok (trim_summary summary_length_words
               (choose_summary self audio_transcription scenes))
  end.

(** The dict [process_video] returns: the error dict of the empty-frames
    exit, or [results] with status "completed". *)
Inductive Results :=
  | ErrorResult (error : string)
  | Completed (audio_transcription : string) (visual_analysis : VisualAnalysis)
      (final_summary : string).

(** The [else] branch of [process_video], taken when no provider client is
    configured (or [use_llm] is false). *)
Definition offline_summary (audio_transcription : string)
    (visual_analysis : VisualAnalysis) : string :=
  let final_summary := "This video presents content covering multiple aspects. " in
  let final_summary :=
    if Py.truthy audio_transcription && negb (Py.contains "No audio" audio_transcription)
    then final_summary +:+ "Audio narration discusses: "
         +:+ Py.str_take 200 audio_transcription +:+ "... "
    else final_summary in
  match frame_captions visual_analysis with
  | [] => final_summary
  | captions =>
      let key_scenes :=
        omap (fun caption =>
                if Py.contains ": " caption
                then Some (Py.strip (Py.split_first " | " (Py.split1_last ": " caption)))
                else None) (take 3 captions) in
      match key_scenes with
      | [] => final_summary
      | _ :: _ => final_summary +:+ "Visually shows: " +:+ Py.join ", " key_scenes +:+ "."
      end
  end.

Definition configured (client : option Call) : bool :=
  match client with Some _ => true | None => false end.

Definition process_video (self : Processor) (disk : gmap string Media)
    (video_path : string) (num_frames : Z) (use_llm : bool)
    (summary_length_words : option Z) (user_profile : option UserProfile)
    : Py.result Results :=
  match extract_keyframes disk video_path num_frames with
  | Py.Raise e => Py.Raise e
  | Py.Ok [] => Py.Ok (ErrorResult "Could not extract frames from video")
  | Py.Ok frames =>
      let audio_transcription :=
        match extract_audio disk video_path with
        | Some (audio_data, sample_rate) =>
            transcribe_audio self (Some audio_data) sample_rate
        | None => "No audio track found in video."
        end in
      let visual_analysis := analyze_visual_content self frames in
      if use_llm && (configured (groq_client self) || configured (gemini_model self))
      then
        match generate_summary self audio_transcription visual_analysis
                summary_length_words user_profile with
        | Py.Ok final_summary =>
            Py.Ok (Completed audio_transcription visual_analysis final_summary)
        | Py.Raise e => Py.Raise e
        end
      else
        Py.Ok (Completed audio_transcription visual_analysis
                 (offline_summary audio_transcription visual_analysis))
  end.

End VideoProcessor.

(** ** [app.py] *)

Module App.
Import Data VideoProcessor.

(** An entry of the registry [jobs]: the dict literal of [upload_video],
    key ['k'] being field [j_k]; ['result'] is absent until the job is
    done. *)
Record JobEntry := {
  j_id : string;
  j_user_id : string;
  j_status : string;
  j_progress : Z;
  j_step : string;
  j_video_path : string;
  j_num_frames : Z;
  j_summary_style : string;
  j_summary_format : string;
  j_summary_length_words : option Z;
  j_metadata : Json;
  j_result : option Results }.

(** A row of table [jobs], column [k] being field [r_k]. The columns
    [metadata] and [result] hold [json.dumps] of a value and are modelled by
    that value; [None] is NULL. *)
Record JobRow := {
  r_id : string;
  r_user_id : string;
  r_status : string;
  r_progress : Z;
  r_step : string;
  r_video_path : string;
  r_num_frames : Z;
  r_summary_style : string;
  r_summary_format : string;
  r_summary_length_words : option Z;
  r_metadata : Json;
  r_result : option Results;
  r_created_at : Z;
  r_updated_at : Z }.

(** The columns of table [users] that the job handlers read. *)
Record UserRow := {
  u_expertise : option Json;
  u_summary_preferences : option Json }.

(** The live registry, the two tables (keyed by their primary key) and the
    files on disk. *)
Record State := {
  jobs : gmap string JobEntry;
  db_jobs : gmap string JobRow;
  db_users : gmap string UserRow;
  disk : gmap string Media }.

(** The four assignments [jobs[job_id][k] = v] of the worker. *)
Definition set_progress (status : string) (progress : Z) (step : string)
    (result : option Results) (e : JobEntry) : JobEntry :=
  {| j_id := j_id e; j_user_id := j_user_id e;
     j_status := status; j_progress := progress; j_step := step;
     j_video_path := j_video_path e; j_num_frames := j_num_frames e;
     j_summary_style := j_summary_style e; j_summary_format := j_summary_format e;
     j_summary_length_words := j_summary_length_words e;
     j_metadata := j_metadata e; j_result := result |}.

(** [UPDATE jobs SET status = ?, progress = ?, step = ?, result = ?,
    updated_at = CURRENT_TIMESTAMP WHERE id = ?] on the row it selects. *)
Definition update_done (results : Results) (now : Z) (r : JobRow) : JobRow :=
  {| r_id := r_id r; r_user_id := r_user_id r;
     r_status := "done"; r_progress := 100; r_step := "Complete";
     r_video_path := r_video_path r; r_num_frames := r_num_frames r;
     r_summary_style := r_summary_style r; r_summary_format := r_summary_format r;
     r_summary_length_words := r_summary_length_words r;
     r_metadata := r_metadata r; r_result := Some results;
     r_created_at := r_created_at r; r_updated_at := now |}.

(** [UPDATE jobs SET status = ?, step = ?, updated_at = CURRENT_TIMESTAMP
    WHERE id = ?] on the row it selects. *)
Definition update_failed (step : string) (now : Z) (r : JobRow) : JobRow :=
  {| r_id := r_id r; r_user_id := r_user_id r;
     r_status := "failed"; r_progress := r_progress r; r_step := step;
     r_video_path := r_video_path r; r_num_frames := r_num_frames r;
     r_summary_style := r_summary_style r; r_summary_format := r_summary_format r;
     r_summary_length_words := r_summary_length_words r;
     r_metadata := r_metadata r; r_result := r_result r;
     r_created_at := r_created_at r; r_updated_at := now |}.

(** [video_processor.process_video(..., use_llm=True, ...)] in the worker;
    the global [video_processor] is [None] when the models failed to load
    at start-up. *)
Definition run_pipeline (video_processor : option Processor)
    (disk : gmap string Media) (video_path : string) (num_frames : Z)
    (summary_length_words : option Z) (user_profile : option UserProfile)
    : Py.result Results :=
  match video_processor with
  | Some self =>
      process_video self disk video_path num_frames true summary_length_words
        user_profile
  | None =>
      Py.Raise (Py.AttributeError
                  "'NoneType' object has no attribute 'process_video'")
  end.

(** The [try] block of [process_video_job]: the state it leaves, and the
    exception that ended it, if any. *)
Definition try_block (video_processor : option Processor) (st : State)
    (job_id video_path : string) (num_frames : Z)
    (summary_length_words : option Z) (user_profile : option UserProfile)
    (now : Z) : State * option Py.exn :=
  match jobs st !! job_id with
  | None => (st, Some (Py.KeyError job_id))
  | Some e =>
      let e1 := set_progress "processing" 10 "Extracting frames" (j_result e) e in
      let st1 := {| jobs := <[job_id := e1]> (jobs st); db_jobs := db_jobs st;
                    db_users := db_users st; disk := disk st |} in
      match run_pipeline video_processor (disk st1) video_path num_frames
              summary_length_words user_profile with
      | Py.Raise ex => (st1, Some ex)
      | Py.Ok results =>
          let e2 := set_progress "done" 100 "Complete" (Some results) e1 in
          ({| jobs := <[job_id := e2]> (jobs st1);
              db_jobs := alter (update_done results now) job_id (db_jobs st1);
              db_users := db_users st1;
              disk := delete video_path (disk st1) |}, None)
      end
  end.

(** The [except Exception as e] block. *)
Definition except_block (st : State) (job_id : string) (e : Py.exn) (now : Z)
    : State * option Py.exn :=
  match jobs st !! job_id with
  | None => (st, Some (Py.KeyError job_id))
  | Some entry =>
      let step := "Error: " +:+ Py.str_exn e in
      ({| jobs := <[job_id := set_progress "failed" (j_progress entry) step
                                (j_result entry) entry]> (jobs st);
          db_jobs := alter (update_failed step now) job_id (db_jobs st);
          db_users := db_users st;
          disk := disk st |}, None)
  end.

(** [process_video_job]: the state when the worker thread ends, and the
    exception that escaped it, if any. The worker is the only writer of its
    job, so its steps are taken in one go. [summary_style] and
    [summary_format] are handed to [process_video], where they only shape
    the prompt. *)
Definition process_video_job (video_processor : option Processor) (st : State)
    (job_id video_path : string) (num_frames : Z)
    (summary_style summary_format : string) (summary_length_words : option Z)
    (user_profile : option UserProfile) (now : Z) : State * option Py.exn :=
  match try_block video_processor st job_id video_path num_frames
          summary_length_words user_profile now with
  | (st', None) => (st', None)
  | (st', Some e) => except_block st' job_id e now
  end.

(** *** The HTTP handlers *)

(** [sqlite3] binds an [int] parameter as a 64-bit integer and raises
    [OverflowError] on any other, before the statement runs. *)
Definition fits_int64 (n : Z) : bool :=
  (- 2 ^ 63 <=? n) && (n <? 2 ^ 63).

(** A JSON response body. *)
Inductive Body :=
  | ErrorBody (error : string)
  | AcceptedBody (jobId : string)
  | StatusBody (jobId status : string) (progress : Z) (step : string)
      (etaSeconds : Z)
  | ResultBody (jobId summary audio_transcription : string)
      (visualCaptions : list (Z * string)) (transcript : string)
      (highlights : list string) (videoUrl : option string)
      (summaryFormat : string).

Definition Response : Type := Body * Z.

(** An uploaded file: its client-side name and its content. *)
Record FileStorage := {
  filename : string;
  stream : Media }.

(** A request to [/videos/upload], after [jwt_required]. *)
Record UploadRequest := {
  files : gmap string FileStorage;
  form : gmap string string;
  jwt_identity : string }.

(** The arguments of the worker thread a handler starts. *)
Record ThreadArgs := {
  t_job_id : string;
  t_video_path : string;
  t_num_frames : Z;
  t_summary_style : string;
  t_summary_format : string;
  t_summary_length_words : option Z;
  t_user_profile : option UserProfile }.

Section Handlers.

(** Library functions and configuration: [json.loads] ([None] when it
    raises), [int] on a [str], werkzeug's [secure_filename] and
    [app.config['UPLOAD_FOLDER']]. *)
Variable json_loads : string -> option Json.
Variable int : string -> Py.result Z.
Variable secure_filename : string -> string.
Variable UPLOAD_FOLDER : string.

Definition str_default (field : option string) (default : string) : string :=
  match field with Some v => v | None => default end.

(** [upload_video]. [file_uuid] and [job_uuid] are the two [uuid.uuid4()]
    draws, [now] the database clock. The result is the response, the state
    the handler leaves and the worker thread it started. *)
Definition upload_video (st : State) (request : UploadRequest)
    (file_uuid job_uuid : string) (now : Z)
    : Response * State * option ThreadArgs :=
  match files request !! "file" with
  | None => ((ErrorBody "No file provided", 400), st, None)
  | Some file =>
      if negb (Py.truthy (filename file))
      then ((ErrorBody "No file selected", 400), st, None)
      else
        let user_id := jwt_identity request in
        match (match form request !! "num_frames" with
               | Some v => int v
               | None => Py.Ok 10
               end) with
        | Py.Raise e => ((ErrorBody (Py.str_exn e), 500), st, None)
        | Py.Ok num_frames =>
            let summary_style := str_default (form request !! "summary_style") "default" in
            let summary_format :=
              str_default (form request !! "summary_format") "paragraph" in
            let summary_length_words :=
              match form request !! "summary_length_words" with
              | Some v => match int v with Py.Ok n => Some n | Py.Raise _ => None end
              | None => None
              end in
            let metadata_json := str_default (form request !! "metadata") "{}" in
            let metadata :=
              match json_loads metadata_json with
              | Some v => v
              | None => JObject []
              end in
            let user_profile :=
              match db_users st !! user_id with
              | Some user_data =>
                  Some {| p_id := user_id;
                          p_expertise :=
                            match u_expertise user_data with
                            | Some v => v | None => JArray [] end;
                          p_summaryPreferences :=
                            match u_summary_preferences user_data with
                            | Some v => v | None => JObject [] end |}
              | None => None
              end in
            let video_path :=
              Py.path_join UPLOAD_FOLDER
                (file_uuid +:+ "_" +:+ secure_filename (filename file)) in
            let disk1 := <[video_path := stream file]> (disk st) in
            let job_id := job_uuid in
            let jobs1 :=
              <[job_id := {| j_id := job_id; j_user_id := user_id;
                             j_status := "queued"; j_progress := 0;
                             j_step := "Queued"; j_video_path := video_path;
                             j_num_frames := num_frames;
                             j_summary_style := summary_style;
                             j_summary_format := summary_format;
                             j_summary_length_words := summary_length_words;
                             j_metadata := metadata; j_result := None |}]>
                (jobs st) in
            if negb (fits_int64 num_frames
                     && match summary_length_words with
                        | Some n => fits_int64 n
                        | None => true
                        end)
            then
              ((ErrorBody "Python int too large to convert to SQLite INTEGER",
                500),
               {| jobs := jobs1; db_jobs := db_jobs st;
                  db_users := db_users st; disk := disk1 |}, None)
            else
            match db_jobs st !! job_id with
            | Some _ =>
                ((ErrorBody "UNIQUE constraint failed: jobs.id", 500),
                 {| jobs := jobs1; db_jobs := db_jobs st;
                    db_users := db_users st; disk := disk1 |}, None)
            | None =>
                let row :=
                  {| r_id := job_id; r_user_id := user_id;
                     r_status := "queued"; r_progress := 0; r_step := "Queued";
                     r_video_path := video_path; r_num_frames := num_frames;
                     r_summary_style := summary_style;
                     r_summary_format := summary_format;
                     r_summary_length_words := summary_length_words;
                     r_metadata := metadata; r_result := None;
                     r_created_at := now; r_updated_at := now |} in
                ((AcceptedBody job_id, 202),
                 {| jobs := jobs1; db_jobs := <[job_id := row]> (db_jobs st);
                    db_users := db_users st; disk := disk1 |},
                 Some {| t_job_id := job_id; t_video_path := video_path;
                         t_num_frames := num_frames;
                         t_summary_style := summary_style;
                         t_summary_format := summary_format;
                         t_summary_length_words := summary_length_words;
                         t_user_profile := user_profile |})
            end
        end
  end.

End Handlers.

(** [SELECT ... FROM jobs WHERE id = ? AND user_id = ?] *)
Definition select_job (st : State) (job_id user_id : string) : option JobRow :=
  match db_jobs st !! job_id with
  | Some r => if String.eqb (r_user_id r) user_id then Some r else None
  | None => None
  end.

(** [# Calculate ETA (rough estimate)] *)
Definition eta_seconds (status : string) (progress : Z) : Z :=
  if String.eqb status "processing" then (100 - progress) * 2 else 0.

(** [get_job_status]. An entry of [jobs] carries the keys ['status'],
    ['progress'] and ['step'] from its creation and no code removes a key,
    so [job_data.get(k, default)] is the entry's own value. *)
Definition get_job_status (st : State) (user_id job_id : string) : Response :=
  match select_job st job_id user_id with
  | None => (ErrorBody "Job not found", 404)
  | Some job =>
      let '(status, progress, step) :=
        match jobs st !! job_id with
        | Some job_data => (j_status job_data, j_progress job_data, j_step job_data)
        | None => (r_status job, r_progress job, r_step job)
        end in
      (StatusBody job_id status progress step (eta_seconds status progress), 200)
  end.

(** [result.get('visual_analysis', {}).get('frame_captions')] and the two
    string lookups of [get_job_result] on the decoded [result] column. *)
Definition result_frame_captions (result : option Results) : list string :=
  match result with
  | Some (Completed _ visual_analysis _) => frame_captions visual_analysis
  | Some (ErrorResult _) => []
  | None => []
  end.

Definition result_final_summary (result : option Results) : string :=
  match result with
  | Some (Completed _ _ final_summary) => final_summary
  | Some (ErrorResult _) => ""
  | None => ""
  end.

Definition result_audio_transcription (result : option Results) : string :=
  match result with
  | Some (Completed audio_transcription _ _) => audio_transcription
  | Some (ErrorResult _) => ""
  | None => ""
  end.

(** One entry of [visual_captions]. *)
Definition visual_caption (idx : nat) (caption : string) : Z * string :=
  (Z.of_nat idx + 1,
   if Py.contains ": " caption then Py.split1_last ": " caption else caption).

(** [get_job_result]. No result dict has the keys ['video_url'] and
    ['summary_format'], so their lookups give the defaults. *)
Definition get_job_result (st : State) (user_id job_id : string) : Response :=
  match select_job st job_id user_id with
  | None => (ErrorBody "Job not found", 404)
  | Some job =>
      if negb (String.eqb (r_status job) "done")
      then (ErrorBody "Job not completed yet", 400)
      else
        let result := r_result job in
        let visual_captions := imap visual_caption (result_frame_captions result) in
        (ResultBody job_id (result_final_summary result)
           (result_audio_transcription result) visual_captions
           (result_audio_transcription result) [] None "paragraph", 200)
  end.

End App.

(** * Sample inputs

    Concrete files, models and states on which the statements below are
    instantiated. *)

Module Sample.
Import Data VideoProcessor App.

(** A clip of five frames, frame [idx] being a single pixel that holds its
    position, without sound. *)
Definition five_frames : Media :=
  {| isOpened := true;
     CAP_PROP_FRAME_COUNT := 5;
     read_at := fun idx =>
       if (0 <=? idx) && (idx <? 5) then Some [(idx, 0, 0)] else None;
     clip := NoAudioTrack |}.

Definition uploads : gmap string Media := {[ "uploads/clip.mp4" := five_frames ]}.

(** The same clip with a frame that does not decode at position 2. *)
Definition damaged : Media :=
  {| isOpened := true;
     CAP_PROP_FRAME_COUNT := 5;
     read_at := fun idx =>
       if (0 <=? idx) && (idx <? 5) && negb (idx =? 2)
       then Some [(idx, 0, 0)] else None;
     clip := NoAudioTrack |}.

(** A processor whose OCR reader finds one text, with confidence exactly
    0.5, on every frame; it has no other model and no provider. *)
Definition threshold_reader : Processor :=
  {| whisper := fun _ _ => None;
     blip := fun _ => None;
     ocr_reader := fun _ => Some [([], "SALE", 0.5%float)];
     groq_client := None;
     gemini_model := None |}.

(** A processor whose captioner and OCR reader answer every frame, whose
    speech model raises, whose first provider raises and whose second
    provider answers. *)
Definition gemini_only : Processor :=
  {| whisper := fun _ _ => None;
     blip := fun _ => Some "a dog on grass";
     ocr_reader := fun _ => Some [([], "PARK", 0.75%float)];
     groq_client := Some Raises;
     gemini_model := Some (Returns "  A dog plays on the grass.  ") |}.

(** A file of [2^53 + 2] frames, each holding its position. *)
Definition long_film : Media :=
  {| isOpened := true;
     CAP_PROP_FRAME_COUNT := 2 ^ 53 + 2;
     read_at := fun idx =>
       if (0 <=? idx) && (idx <? 2 ^ 53 + 2) then Some [(idx, 0, 0)] else None;
     clip := NoAudioTrack |}.

(** A file that opens and reports no frame at all. *)
Definition no_frames : Media :=
  {| isOpened := true;
     CAP_PROP_FRAME_COUNT := 0;
     read_at := fun _ => None;
     clip := NoAudioTrack |}.

(** Stand-ins for the library functions of the upload handler: a decoder
    that accepts the empty object only, and [int] on decimal literals. *)
Definition json_loads (s : string) : option Json :=
  if String.eqb s "{}" then Some (JObject []) else None.

Definition int (s : string) : Py.result Z :=
  match NilZero.int_of_string s with
  | Some d => Py.Ok (Z.of_int d)
  | None =>
      Py.Raise (Py.ValueError
                  ("invalid literal for int() with base 10: '" +:+ s +:+ "'"))
  end.

Definition secure_filename (s : string) : string := s.

Definition empty : State :=
  {| jobs := ∅; db_jobs := ∅; db_users := ∅; disk := ∅ |}.

(** An upload of the five-frame clip whose [metadata] field is not JSON and
    that names no other parameter; the same upload of the frameless file. *)
Definition request : UploadRequest :=
  {| files := {[ "file" := {| filename := "clip.mp4"; stream := five_frames |} ]};
     form := {[ "metadata" := "{broken" ]};
     jwt_identity := "user-1" |}.

Definition blank_request : UploadRequest :=
  {| files := {[ "file" := {| filename := "blank.mp4"; stream := no_frames |} ]};
     form := ∅;
     jwt_identity := "user-1" |}.

(** The state after the upload, and after the worker has run. *)
Definition queued : State :=
  (upload_video json_loads int secure_filename "uploads" empty request
     "f0" "job-1" 100).1.2.

Definition finished : State :=
  (process_video_job (Some gemini_only) queued "job-1" "uploads/f0_clip.mp4" 10
     "default" "paragraph" None None 200).1.

Definition blank_queued : State :=
  (upload_video json_loads int secure_filename "uploads" empty blank_request
     "f1" "job-2" 100).1.2.

(** [finished] after a restart: the registry is empty again. *)
Definition restarted : State :=
  {| jobs := ∅; db_jobs := db_jobs finished; db_users := db_users finished;
     disk := disk finished |}.

End Sample.

(** * Words

    Predicates on text used to state what [str.split] returns. *)

Module Text.

(** No character of [s] is white space. *)
Fixpoint blank_free (s : string) : bool :=
  match s with
  | EmptyString => true
  | String c s' => negb (Py.isspace c) && blank_free s'
  end.

(** [w] is a word: not empty and free of white space. *)
Definition is_word (w : string) : bool := Py.truthy w && blank_free w.

End Text.

(** ** [app.py]: accounts and profiles *)

Module Accounts.

(** A key of a JSON request body that the handler stores as text: absent,
    [null], or a string. *)
Inductive Field :=
  | Absent
  | Null
  | Text (s : string).

(** [data.get(k)] and [data.get(k, default)]: Python's [None] is [None]. *)
Definition get (f : Field) : option string :=
  match f with
  | Text s => Some s
  | Null => None
  | Absent => None
  end.

Definition get_default (f : Field) (default : string) : option string :=
  match f with
  | Text s => Some s
  | Null => None
  | Absent => Some default
  end.

(** Truth value of a [str] or [None]. *)
Definition truthy (v : option string) : bool :=
  match v with
  | Some s => Py.truthy s
  | None => false
  end.

(** A row of table [users], column [k] being field [a_k]; the rows of the
    table are kept in the order of insertion. [expertise] and
    [summary_preferences] hold [json.dumps] of a value and are modelled by
    that value; [None] is NULL. The columns [id], [email] and
    [password_hash] are never NULL in a row that [signup] inserted. *)
Record User := {
  a_id : string;
  a_name : option string;
  a_email : string;
  a_password_hash : string;
  a_bio : option string;
  a_role : option string;
  a_expertise : option Data.Json;
  a_summary_preferences : option Data.Json;
  a_language : option string;
  a_created_at : Z }.

(** [PRIMARY KEY (id)] and [UNIQUE (email)]. *)
Definition constraints (users : list User) : Prop :=
  NoDup (a_id <$> users) /\ NoDup (a_email <$> users).

(** [SELECT ... FROM users WHERE email = ?] and [... WHERE id = ?],
    [fetchone]. *)
Definition by_email (users : list User) (email : string) : option User :=
  List.find (fun u => String.eqb (a_email u) email) users.

Definition by_id (users : list User) (user_id : string) : option User :=
  List.find (fun u => String.eqb (a_id u) user_id) users.

(** The columns the job handlers read, as the table [db_users] of the job
    state holds them. *)
Definition profile_columns (users : list User) : gmap string App.UserRow :=
  list_to_map
    ((fun u => (a_id u, {| App.u_expertise := a_expertise u;
                           App.u_summary_preferences := a_summary_preferences u |}))
       <$> users).

(** The JSON bodies of the handlers. *)
Inductive Reply :=
  | Error (error : string)
  | Session (id : string) (name : option string) (email : string)
      (role : option string) (token : string)
  | Profile (id : string) (name : option string) (email : string)
      (bio role : option string) (expertise summaryPreferences : Data.Json)
      (language : string)
  | Message (message : string).

Definition Response : Type := Reply * Z.

(** The bodies of [POST /auth/signup], [POST /auth/login] and
    [PUT /user/profile]; [None] in a JSON-valued key says the key is
    absent. *)
Record SignupData := {
  s_name : Field;
  s_email : Field;
  s_password : Field;
  s_role : Field;
  s_expertise : option Data.Json }.

Record LoginData := {
  l_email : Field;
  l_password : Field }.

Record ProfileData := {
  d_name : Field;
  d_bio : Field;
  d_role : Field;
  d_expertise : option Data.Json;
  d_summaryPreferences : option Data.Json;
  d_language : Field }.

(** [summary_prefs] of [signup]. *)
Definition default_preferences : Data.Json :=
  Data.JObject
    [("length", Data.JString "medium");
     ("focus", Data.JArray [Data.JString "technical"; Data.JString "highlevel"]);
     ("tone", Data.JString "professional")].

Section Handlers.

(** werkzeug's [generate_password_hash] (with the salt it draws) and
    [check_password_hash], and [create_access_token] of the identity. *)
Variable generate_password_hash : string -> string -> string.
Variable check_password_hash : string -> string -> bool.
Variable create_access_token : string -> string.

(** [signup]. [user_uuid] is the [uuid.uuid4()] draw, [salt] the salt of the
    hash, [now] the database clock. *)
Definition signup (users : list User) (data : SignupData)
    (user_uuid salt : string) (now : Z) : Response * list User :=
  let name := get (s_name data) in
  let email := get (s_email data) in
  let password := get (s_password data) in
  let role := get_default (s_role data) "user" in
  let expertise :=
    match s_expertise data with Some v => v | None => Data.JArray [] end in
  match name, email, password with
  | Some name', Some email', Some password' =>
      if negb (Py.truthy name') || negb (Py.truthy email')
         || negb (Py.truthy password')
      then ((Error "Missing required fields", 400), users)
      else
        match by_email users email' with
        | Some _ => ((Error "User already exists", 400), users)
        | None =>
            let user_id := user_uuid in
            let password_hash := generate_password_hash salt password' in
            match by_id users user_id with
            | Some _ => ((Error "UNIQUE constraint failed: users.id", 500), users)
            | None =>
                let row :=
                  {| a_id := user_id; a_name := Some name'; a_email := email';
                     a_password_hash := password_hash; a_bio := None;
                     a_role := role; a_expertise := Some expertise;
                     a_summary_preferences := Some default_preferences;
                     a_language := None; a_created_at := now |} in
                ((Session user_id (Some name') email' role
                    (create_access_token user_id), 201),
                 users ++ [row])
            end
        end
  | _, _, _ => ((Error "Missing required fields", 400), users)
  end.

(** [login] *)
Definition login (users : list User) (data : LoginData) : Response :=
  let email := get (l_email data) in
  let password := get (l_password data) in
  match email, password with
  | Some email', Some password' =>
      if negb (Py.truthy email') || negb (Py.truthy password')
      then (Error "Missing email or password", 400)
      else
        match by_email users email' with
        | None => (Error "Invalid credentials", 401)
        | Some user =>
            if negb (check_password_hash (a_password_hash user) password')
            then (Error "Invalid credentials", 401)
            else (Session (a_id user) (a_name user) (a_email user) (a_role user)
                    (create_access_token (a_id user)), 200)
        end
  | _, _ => (Error "Missing email or password", 400)
  end.

End Handlers.

(** The body that [get_current_user] and [get_profile] build from a row. *)
Definition profile_of (user : User) : Reply :=
  Profile (a_id user) (a_name user) (a_email user) (a_bio user) (a_role user)
    (match a_expertise user with Some v => v | None => Data.JArray [] end)
    (match a_summary_preferences user with Some v => v | None => Data.JObject [] end)
    (match a_language user with
     | Some l => if Py.truthy l then l else "en"
     | None => "en"
     end).

(** [get_current_user], for the identity of the token. *)
Definition get_current_user (users : list User) (user_id : string) : Response :=
  match by_id users user_id with
  | None => (Error "User not found", 404)
  | Some user => (profile_of user, 200)
  end.

(** [get_profile], for the identity of the token. *)
Definition get_profile (users : list User) (user_id : string) : Response :=
  match by_id users user_id with
  | None => (Error "User not found", 404)
  | Some user => (profile_of user, 200)
  end.

(** A text column after [col = ?] with [data[k]], when the key is there. *)
Definition set_text (f : Field) (old : option string) : option string :=
  match f with
  | Absent => old
  | Null => None
  | Text s => Some s
  end.

(** A JSON column after [col = ?] with [json.dumps(data[k])], when the key
    is there. *)
Definition set_json (v : option Data.Json) (old : option Data.Json)
    : option Data.Json :=
  match v with
  | Some new => Some new
  | None => old
  end.

(** ['k' in data] for one of the six keys. *)
Definition names_a_column (data : ProfileData) : bool :=
  negb (match d_name data, d_bio data, d_role data, d_expertise data,
              d_summaryPreferences data, d_language data with
        | Absent, Absent, Absent, None, None, Absent => true
        | _, _, _, _, _, _ => false
        end).

(** The row after [UPDATE users SET ... WHERE id = ?]. *)
Definition updated (data : ProfileData) (user : User) : User :=
  {| a_id := a_id user;
     a_name := set_text (d_name data) (a_name user);
     a_email := a_email user;
     a_password_hash := a_password_hash user;
     a_bio := set_text (d_bio data) (a_bio user);
     a_role := set_text (d_role data) (a_role user);
     a_expertise := set_json (d_expertise data) (a_expertise user);
     a_summary_preferences :=
       set_json (d_summaryPreferences data) (a_summary_preferences user);
     a_language := set_text (d_language data) (a_language user);
     a_created_at := a_created_at user |}.

(** [update_profile], for the identity of the token. *)
Definition update_profile (users : list User) (user_id : string)
    (data : ProfileData) : Response * list User :=
  if negb (names_a_column data)
  then ((Error "No fields to update", 400), users)
  else
    ((Message "Profile updated successfully", 200),
     (fun u => if String.eqb (a_id u) user_id then updated data u else u)
       <$> users).

End Accounts.

(** * More sample inputs *)

Module Demo.
Import Accounts.

(** Stand-ins for werkzeug's hash functions and for the token factory: the
    hash is the salt, a dollar sign and the password. *)
Definition generate_password_hash (salt password : string) : string :=
  salt +:+ "$" +:+ password.

Definition check_password_hash (pwhash password : string) : bool :=
  String.eqb (Py.split1_last "$" pwhash) password.

Definition create_access_token (identity : string) : string :=
  "token:" +:+ identity.

Definition ada : SignupData :=
  {| s_name := Text "Ada"; s_email := Text "ada@example.org";
     s_password := Text "s3cret"; s_role := Absent;
     s_expertise := Some (Data.JArray [Data.JString "optics"]) |}.

Definition bob : SignupData :=
  {| s_name := Text "Bob"; s_email := Text "bob@example.org";
     s_password := Text "hunter2"; s_role := Text "admin";
     s_expertise := None |}.

(** The table after Ada and then Bob have signed up. *)
Definition one_user : list User :=
  (signup generate_password_hash create_access_token [] ada "u-ada" "na" 10).2.

Definition two_users : list User :=
  (signup generate_password_hash create_access_token one_user bob "u-bob" "cl"
     20).2.


End Demo.

(** * The job list
    [list_jobs] of [backend/app.py]. *)

Module Listing.
Import Data App.

(** One element of ['jobs'] in the response, key [k] being field [l_k]. *)
Record Listed := {
  l_id : string;
  l_status : string;
  l_progress : Z;
  l_step : string;
  l_createdAt : Z;
  l_summaryStyle : string }.

Inductive Body :=
  | ErrorBody (error : string)
  | JobsBody (jobs : list Listed).

Definition Response : Type := Body * Z.

(** [WHERE user_id = ?]: the rows of the user, in the order of the scan. *)
Definition rows_of (st : State) (user_id : string) : list JobRow :=
  filter (fun r => r_user_id r = user_id) (map_to_list (db_jobs st)).*2.

(** [ORDER BY created_at DESC]. SQL leaves the order of rows with equal
    [created_at] open; the sort used here keeps them in scan order. *)
Definition newer_first (a b : JobRow) : Prop := r_created_at b <= r_created_at a.

#[global] Instance newer_first_dec : RelDecision newer_first.
Proof. intros a b. unfold newer_first. apply _. Defined.

(** [LIMIT ?]: SQLite reads a negative bound as no bound. *)
Definition sql_limit {A} (limit : Z) (rows : list A) : list A :=
  if limit <? 0 then rows else take (Z.to_nat limit) rows.

(** The [SELECT] of [list_jobs], [fetchall]. *)
Definition select_jobs (st : State) (user_id : string) (limit : Z)
    : list JobRow :=
  sql_limit limit (merge_sort newer_first (rows_of st user_id)).

(** The dict built from a fetched row. *)
Definition listed (job : JobRow) : Listed :=
  {| l_id := r_id job; l_status := r_status job; l_progress := r_progress job;
     l_step := r_step job; l_createdAt := r_created_at job;
     l_summaryStyle := r_summary_style job |}.

(** The primary key of a row is the key it is stored under. *)
Definition keyed_by_id (st : State) : Prop :=
  map_Forall (fun k r => r_id r = k) (db_jobs st).

Section Handler.

(** [int] on a [str], as in the upload handler. *)
Variable int : string -> Py.result Z.

(** [request.args.get('limit', 20, type=int)]: werkzeug returns the default
    both for a missing key and for a value that [int] rejects. *)
Definition limit_arg (args : gmap string string) : Z :=
  match args !! "limit" with
  | None => 20
  | Some v =>
      match int v with
      | Py.Ok n => n
      | Py.Raise _ => 20
      end
  end.

(** [list_jobs], for the identity of the token. *)
Definition list_jobs (st : State) (user_id : string)
    (args : gmap string string) : Response :=
  let limit := limit_arg args in
  if fits_int64 limit
  then (JobsBody (listed <$> select_jobs st user_id limit), 200)
  else (ErrorBody "Python int too large to convert to SQLite INTEGER", 500).

End Handler.

End Listing.

(** * A backlog of jobs *)

Module Backlog.
Import Data VideoProcessor App.

(** A second upload of the first user, in the casual style, and an upload
    of another user. *)
Definition second_request : UploadRequest :=
  {| files := {[ "file" := {| filename := "talk.mp4";
                              stream := Sample.five_frames |} ]};
     form := {[ "summary_style" := "casual" ]};
     jwt_identity := "user-1" |}.

Definition other_request : UploadRequest :=
  {| files := {[ "file" := {| filename := "demo.mp4";
                              stream := Sample.five_frames |} ]};
     form := ∅;
     jwt_identity := "user-2" |}.

(** The state after the first job is done and the two uploads came in. *)
Definition two_jobs : State :=
  (upload_video Sample.json_loads Sample.int Sample.secure_filename "uploads"
     Sample.finished second_request "f2" "job-2" 300).1.2.

Definition three_jobs : State :=
  (upload_video Sample.json_loads Sample.int Sample.secure_filename "uploads"
     two_jobs other_request "f3" "job-3" 400).1.2.

End Backlog.

(** * Sample profiles *)

Module Profiles.
Import Data App.

(** A stand-in for [str] on decoded values that is right on strings. *)
Definition str (v : Json) : string :=
  match v with
  | JString s => s
  | _ => "None"
  end.

(** A state whose table of users is [users], with no job and no file. *)
Definition with_users (users : list Accounts.User) : State :=
  {| jobs := ∅; db_jobs := ∅; db_users := Accounts.profile_columns users;
     disk := ∅ |}.

(** An upload of the five-frame clip by Ada. *)
Definition ada_request : UploadRequest :=
  {| files := {[ "file" := {| filename := "clip.mp4";
                              stream := Sample.five_frames |} ]};
     form := ∅;
     jwt_identity := "u-ada" |}.

(** A profile update that stores a list of numbers as expertise. *)
Definition numbers : Accounts.ProfileData :=
  {| Accounts.d_name := Accounts.Absent; Accounts.d_bio := Accounts.Absent;
     Accounts.d_role := Accounts.Absent;
     Accounts.d_expertise := Some (JArray [JInt 1; JInt 2]);
     Accounts.d_summaryPreferences := None;
     Accounts.d_language := Accounts.Absent |}.

End Profiles.

(** * Properties *)

(** ** The frame sampler *)

Section Sampler.
Import VideoProcessor.

Lemma range_length n : length (Py.range n) = Z.to_nat n.
Proof. unfold Py.range. by rewrite length_fmap, length_seq. Qed.

Lemma range_lookup n (k : nat) (i : Z) :
  Py.range n !! k = Some i -> i = Z.of_nat k /\ (k < Z.to_nat n)%nat.
Proof.
  unfold Py.range. rewrite list_lookup_fmap.
  destruct (seq 0 (Z.to_nat n) !! k) as [j|] eqn:E; simpl; [|done].
  apply lookup_seq in E as [-> ?]. intros [= <-]. split; [f_equal; lia | done].
Qed.

Lemma range_elem n i : i ∈ Py.range n <-> 0 <= i < n.
Proof.
  unfold Py.range. rewrite list_elem_of_fmap. split.
  - intros (k & -> & Hk). apply elem_of_seq in Hk. lia.
  - intros H. exists (Z.to_nat i). split; [lia|]. apply elem_of_seq. lia.
Qed.

(** *** The float division of the sampler *)

Lemma quotient_exponent_lower a b :
  0 < a -> 0 < b ->
  let e := Py.quotient_exponent a b in
  (0 <= e -> b * 2 ^ e <= a) /\ (e < 0 -> b <= a * 2 ^ (- e)).
Proof.
  intros Ha Hb. unfold Py.quotient_exponent.
  pose proof (Z.log2_spec a Ha) as [Ha1 Ha2].
  pose proof (Z.log2_spec b Hb) as [Hb1 Hb2].
  pose proof (Z.log2_nonneg a) as Hla. pose proof (Z.log2_nonneg b) as Hlb.
  rewrite Z.pow_succ_r in Ha2, Hb2 by done.
  set (la := Z.log2 a) in *. set (lb := Z.log2 b) in *.
  assert (Hpa : 0 < 2 ^ la) by (apply Z.pow_pos_nonneg; lia).
  assert (Hpb : 0 < 2 ^ lb) by (apply Z.pow_pos_nonneg; lia).
  destruct (Z.leb_spec 0 (la - lb)) as [Hd|Hd].
  - destruct (Z.leb_spec (b * 2 ^ (la - lb)) a) as [Hc|Hc]; cbv zeta.
    + split; [intros _; exact Hc|lia].
    + split.
      * intros He.
        assert (E : 2 ^ la = 2 * 2 ^ lb * 2 ^ (la - lb - 1)).
        { replace (2 * 2 ^ lb) with (2 ^ (lb + 1)) by (rewrite Z.pow_add_r; lia).
          rewrite <- Z.pow_add_r by lia. f_equal. lia. }
        assert (0 < 2 ^ (la - lb - 1)) by (apply Z.pow_pos_nonneg; lia).
        nia.
      * intros He. assert (E : la = lb) by lia.
        replace (- (la - lb - 1)) with 1 by lia. rewrite <- E in Hb2. lia.
  - destruct (Z.leb_spec b (a * 2 ^ (- (la - lb)))) as [Hc|Hc]; cbv zeta.
    + split; [lia|intros _; exact Hc].
    + split; [lia|]. intros _.
      assert (E : 2 * 2 ^ lb = 2 ^ la * 2 ^ (- (la - lb - 1))).
      { replace (2 * 2 ^ lb) with (2 ^ (lb + 1)) by (rewrite Z.pow_add_r; lia).
        rewrite <- Z.pow_add_r by lia. f_equal. lia. }
      assert (0 < 2 ^ (- (la - lb - 1))) by (apply Z.pow_pos_nonneg; lia).
      nia.
Qed.

Lemma quotient_exponent_small a b :
  0 < a < 2 ^ 53 -> 0 < b -> Py.quotient_exponent a b <= 52.
Proof.
  intros Ha Hb. unfold Py.quotient_exponent.
  assert (Z.log2 a < 53) by (apply Z.log2_lt_pow2; lia).
  pose proof (Z.log2_nonneg b).
  destruct (if 0 <=? _ then _ else _); lia.
Qed.

(** A dividend below 2^53: the float quotient, truncated, is the integer
    quotient. The nearest float lies below the next integer, since the
    quotient is at least [1 / b] away from it and half the spacing of the
    floats there is less. *)
Lemma int_true_div_exact a b :
  0 <= a < 2 ^ 53 -> 0 < b -> Py.int_true_div a b = a `div` b.
Proof.
  intros Ha Hb. unfold Py.int_true_div.
  destruct (Z.eqb_spec a 0) as [->|Hne]; [by rewrite Z.div_0_l by lia|].
  destruct (Z.eqb_spec b 0) as [->|_]; [lia|]. cbn [orb].
  rewrite (Z.abs_eq a), (Z.abs_eq b) by lia.
  rewrite (Z.sgn_pos a), (Z.sgn_pos b) by lia.
  pose proof (quotient_exponent_small a b ltac:(lia) Hb) as He.
  pose proof (quotient_exponent_lower a b ltac:(lia) Hb) as [Hlow1 Hlow2].
  set (e := Py.quotient_exponent a b) in *. cbv zeta in Hlow1, Hlow2.
  set (s := 52 - e).
  assert (Hs : 0 <= s) by lia.
  destruct (Z.leb_spec 0 s) as [_|]; [|lia].
  assert (Hpow : 0 < 2 ^ s) by (apply Z.pow_pos_nonneg; lia).
  assert (Hb2 : b < 2 * 2 ^ s).
  { destruct (Z.le_gt_cases 0 e) as [He0|He0].
    - specialize (Hlow1 He0).
      assert (E : 2 ^ 53 = 2 ^ e * (2 * 2 ^ s)).
      { replace (2 * 2 ^ s) with (2 ^ (s + 1)) by (rewrite Z.pow_add_r; lia).
        rewrite <- Z.pow_add_r by lia. f_equal. lia. }
      assert (0 < 2 ^ e) by (apply Z.pow_pos_nonneg; lia).
      nia.
    - specialize (Hlow2 He0).
      assert (E : 2 * 2 ^ s = 2 ^ 53 * 2 ^ (- e)).
      { replace (2 * 2 ^ s) with (2 ^ (s + 1)) by (rewrite Z.pow_add_r; lia).
        rewrite <- Z.pow_add_r by lia. f_equal. lia. }
      assert (0 < 2 ^ (- e)) by (apply Z.pow_pos_nonneg; lia).
      nia. }
  change (1 * 1) with 1. rewrite Z.mul_1_l.
  set (n := a `div` b). set (r := a `mod` b).
  assert (Hdiv : a = b * n + r) by (apply Z.div_mod; lia).
  assert (Hr : 0 <= r < b) by (apply Z.mod_pos_bound; lia).
  set (A := a * 2 ^ s).
  set (Q := A `div` b). set (R := A `mod` b).
  assert (HA : A = b * Q + R) by (apply Z.div_mod; lia).
  assert (HR : 0 <= R < b) by (apply Z.mod_pos_bound; lia).
  assert (Hn : 0 <= n) by (apply Z.div_pos; lia).
  assert (HQ1 : n * 2 ^ s <= Q).
  { apply Z.div_le_lower_bound; [lia|]. unfold A. nia. }
  assert (HQ2 : Q < (n + 1) * 2 ^ s).
  { apply Z.div_lt_upper_bound; [lia|]. unfold A. nia. }
  assert (Hm : n * 2 ^ s <= Py.div_nearest_even A b < (n + 1) * 2 ^ s).
  { unfold Py.div_nearest_even. fold Q R.
    assert (Hup : b <= 2 * R -> Q + 1 < (n + 1) * 2 ^ s).
    { intros HR2.
      destruct (Z.eq_dec Q ((n + 1) * 2 ^ s - 1)) as [EQ|]; [|lia].
      exfalso. unfold A in HA. nia. }
    destruct (Z.ltb_spec (2 * R) b); [lia|].
    destruct (Z.ltb_spec b (2 * R)); [lia|].
    destruct (Z.even Q); lia. }
  symmetry. apply Z.div_unique with (Py.div_nearest_even A b - n * 2 ^ s); lia.
Qed.

(** *** The selected positions *)

(** With fewer frames than requested, every position is selected. *)
Lemma frame_indices_all total_frames num_frames :
  total_frames < num_frames ->
  frame_indices total_frames num_frames = Py.range total_frames.
Proof. intros H. unfold frame_indices. by rewrite (proj2 (Z.ltb_lt _ _) H). Qed.

(** Otherwise position [i] is the floor of [i * total_frames / num_frames],
    as long as the products stay below 2^53. *)
Lemma frame_indices_spaced total_frames num_frames :
  num_frames <= total_frames ->
  (num_frames - 1) * total_frames < 2 ^ 53 ->
  frame_indices total_frames num_frames
  = (fun i => (i * total_frames) `div` num_frames) <$> Py.range num_frames.
Proof.
  intros H Hexact. unfold frame_indices.
  rewrite (proj2 (Z.ltb_ge _ _) H).
  apply list_fmap_ext. intros k i Hi.
  apply range_lookup in Hi as [-> Hk].
  apply int_true_div_exact; nia.
Qed.

Lemma frame_indices_length total_frames num_frames :
  length (frame_indices total_frames num_frames)
  = Z.to_nat (Z.min total_frames num_frames).
Proof.
  unfold frame_indices. destruct (Z.ltb_spec total_frames num_frames).
  - rewrite range_length. f_equal. lia.
  - rewrite length_fmap, range_length. f_equal. lia.
Qed.

(** The [k]-th selected position, in either case. *)
Lemma frame_indices_lookup total_frames num_frames (k : nat) idx :
  (num_frames <= total_frames -> (num_frames - 1) * total_frames < 2 ^ 53) ->
  frame_indices total_frames num_frames !! k = Some idx ->
  (total_frames < num_frames /\ idx = Z.of_nat k /\ Z.of_nat k < total_frames)
  \/ (0 < num_frames <= total_frames /\ Z.of_nat k < num_frames
      /\ idx = (Z.of_nat k * total_frames) `div` num_frames).
Proof.
  intros Hexact.
  destruct (Z.lt_ge_cases total_frames num_frames) as [H|H].
  - rewrite frame_indices_all by done. intros Hk.
    apply range_lookup in Hk as [-> Hk]. left. lia.
  - rewrite frame_indices_spaced by auto. rewrite list_lookup_fmap.
    destruct (Py.range num_frames !! k) as [i|] eqn:E; simpl; [|done].
    apply range_lookup in E as [-> Hk]. intros [= <-]. right. lia.
Qed.

(** Selected positions are positions of the video. *)
Lemma frame_indices_bounds total_frames num_frames idx :
  (num_frames <= total_frames -> (num_frames - 1) * total_frames < 2 ^ 53) ->
  idx ∈ frame_indices total_frames num_frames -> 0 <= idx < total_frames.
Proof.
  intros Hexact [k Hk]%list_elem_of_lookup.
  apply frame_indices_lookup in Hk as [(? & -> & ?)|(? & ? & ->)]; [lia| |done].
  split.
  - apply Z.div_pos; nia.
  - apply Z.div_lt_upper_bound; nia.
Qed.

(** Selected positions strictly increase. *)
Lemma frame_indices_increasing total_frames num_frames (j k : nat) a b :
  (num_frames <= total_frames -> (num_frames - 1) * total_frames < 2 ^ 53) ->
  (j < k)%nat ->
  frame_indices total_frames num_frames !! j = Some a ->
  frame_indices total_frames num_frames !! k = Some b ->
  a < b.
Proof.
  intros Hexact Hjk Hj Hk.
  apply frame_indices_lookup in Hj as [(? & -> & ?)|(? & ? & ->)]; [| |done];
    apply frame_indices_lookup in Hk as [(? & -> & ?)|(? & ? & ->)];
    try done; try lia.
  set (T := total_frames) in *. set (N := num_frames) in *.
  apply Z.lt_le_trans with ((Z.of_nat j * T + N) `div` N).
  - assert (E : Z.of_nat j * T + N = Z.of_nat j * T + 1 * N) by lia.
    rewrite E, Z.div_add by lia. lia.
  - apply Z.div_le_mono; nia.
Qed.

Lemma frame_indices_NoDup total_frames num_frames :
  (num_frames <= total_frames -> (num_frames - 1) * total_frames < 2 ^ 53) ->
  NoDup (frame_indices total_frames num_frames).
Proof.
  intros Hexact. apply NoDup_alt. intros j k x Hj Hk.
  destruct (Nat.lt_trichotomy j k) as [H|[H|H]]; [|done|].
  - pose proof (frame_indices_increasing _ _ _ _ _ _ Hexact H Hj Hk). lia.
  - pose proof (frame_indices_increasing _ _ _ _ _ _ Hexact H Hk Hj). lia.
Qed.

Lemma omap_all_some {A B} (f : A -> option B) (l : list A) :
  (forall x, x ∈ l -> is_Some (f x)) ->
  Forall2 (fun x y => f x = Some y) l (omap f l).
Proof.
  induction l as [|x l IH]; intros H; simpl; [constructor|].
  destruct (H x) as [y Hy]; [left|]. rewrite Hy.
  constructor; [done|]. apply IH. intros z Hz. apply H. by right.
Qed.

Lemma omap_length_le {A B} (f : A -> option B) (l : list A) :
  (length (omap f l) <= length l)%nat.
Proof.
  induction l as [|x l IH]; [done|].
  change (omap f (x :: l))
    with (match f x with Some y => y :: omap f l | None => omap f l end).
  destruct (f x); simpl; lia.
Qed.

(** Whatever decodes: on a file that opens the sampler returns the frames
    read at the selected positions, in order, leaving out each position
    whose read fails; so it may return fewer frames than positions. *)
Lemma extract_keyframes_skips_failed_reads
    (disk : gmap string Media) video_path cap num_frames :
  disk !! video_path = Some cap ->
  isOpened cap = true ->
  exists frames,
    extract_keyframes disk video_path num_frames = Py.Ok frames
    /\ frames
       = omap (fun idx => cvtColor_BGR2RGB <$> read_at cap idx)
           (frame_indices (CAP_PROP_FRAME_COUNT cap) num_frames)
    /\ (length frames
        <= Z.to_nat (Z.min (CAP_PROP_FRAME_COUNT cap) num_frames))%nat.
Proof.
  intros Hfile Hopen. unfold extract_keyframes. rewrite Hfile, Hopen.
  eexists. split; [reflexivity|]. split; [reflexivity|].
  rewrite <- frame_indices_length. apply omap_length_le.
Qed.

Lemma extract_keyframes_skips_failed_reads_witness :
  extract_keyframes (<["uploads/clip.mp4" := Sample.damaged]> Sample.uploads)
    "uploads/clip.mp4" 2
  = Py.Ok [[(0, 0, 0)]].
Proof.
  destruct (extract_keyframes_skips_failed_reads
              (<["uploads/clip.mp4" := Sample.damaged]> Sample.uploads)
              "uploads/clip.mp4" Sample.damaged 2)
    as (frames & -> & -> & _).
  - apply lookup_insert_eq.
  - reflexivity.
  - reflexivity.
Defined.

(** C4. A file that opens, reports [total_frames] frames and decodes at
    each of them, with [(num_frames - 1) * total_frames] below 2^53 when
    [num_frames <= total_frames]: in that case the sampler selects the
    [num_frames] positions [floor (i * total_frames / num_frames)] and
    returns the frames read there, one per position and in that order; with
    fewer frames than requested it returns all [total_frames] frames in
    their order. In both cases the positions strictly increase, so no frame
    is returned twice, and the call does not raise. *)
Theorem extract_keyframes_evenly_spaced
    (disk : gmap string Media) video_path cap num_frames :
  disk !! video_path = Some cap ->
  isOpened cap = true ->
  (forall idx, 0 <= idx < CAP_PROP_FRAME_COUNT cap -> is_Some (read_at cap idx)) ->
  (num_frames <= CAP_PROP_FRAME_COUNT cap ->
   (num_frames - 1) * CAP_PROP_FRAME_COUNT cap < 2 ^ 53) ->
  let total_frames := CAP_PROP_FRAME_COUNT cap in
  let positions := frame_indices total_frames num_frames in
  exists frames,
    extract_keyframes disk video_path num_frames = Py.Ok frames
    /\ Forall2 (fun idx frame => cvtColor_BGR2RGB <$> read_at cap idx = Some frame)
         positions frames
    /\ (num_frames <= total_frames ->
        positions
        = (fun i => (i * total_frames) `div` num_frames) <$> Py.range num_frames
        /\ length frames = Z.to_nat num_frames)
    /\ (total_frames < num_frames ->
        positions = Py.range total_frames
        /\ length frames = Z.to_nat total_frames)
    /\ NoDup positions
    /\ (forall (j k : nat) a b,
          (j < k)%nat -> positions !! j = Some a -> positions !! k = Some b ->
          a < b).
Proof.
  intros Hfile Hopen Hread Hexact total_frames positions.
  eexists. unfold extract_keyframes. rewrite Hfile, Hopen.
  split; [reflexivity|].
  assert (Hall : Forall2
            (fun idx frame => cvtColor_BGR2RGB <$> read_at cap idx = Some frame)
            positions
            (omap (fun idx => cvtColor_BGR2RGB <$> read_at cap idx) positions)).
  { apply omap_all_some. intros idx Hidx.
    apply frame_indices_bounds in Hidx; [|exact Hexact].
    destruct (Hread idx Hidx) as [f ->]. by eexists. }
  pose proof (Forall2_length _ _ _ Hall) as Hlen.
  pose proof (frame_indices_length total_frames num_frames) as Hpos.
  fold positions in Hpos.
  split; [exact Hall|].
  split; [|split; [|split]].
  - intros H. split; [by apply frame_indices_spaced; auto|].
    etrans; [symmetry; exact Hlen|]. rewrite Hpos. f_equal. lia.
  - intros H. split; [by apply frame_indices_all|].
    etrans; [symmetry; exact Hlen|]. rewrite Hpos. f_equal. lia.
  - by apply frame_indices_NoDup.
  - intros j k a b. by apply frame_indices_increasing.
Qed.

Lemma extract_keyframes_evenly_spaced_witness :
  exists frames,
    extract_keyframes Sample.uploads "uploads/clip.mp4" 2 = Py.Ok frames
    /\ length frames = 2%nat.
Proof.
  destruct (extract_keyframes_evenly_spaced Sample.uploads "uploads/clip.mp4"
              Sample.five_frames 2) as (frames & Hrun & _ & Hspaced & _).
  - reflexivity.
  - reflexivity.
  - intros idx Hidx. simpl.
    destruct (Z.leb_spec 0 idx); [|lia].
    destruct (Z.ltb_spec idx 5); [|simpl in *; lia].
    by eexists.
  - intros _. reflexivity.
  - exists frames. split; [exact Hrun|].
    apply Hspaced. simpl. lia.
Defined.

(** C4, the statement refuted. A film of [2^53 + 2] frames that decodes at
    each of them, sampled at three positions: the third frame returned is
    the one at position 6004799503160663, which the float division gives,
    and not the one at the floor of [2 * (2^53 + 2) / 3]. *)
Lemma extract_keyframes_rounds_large_positions :
  3 <= CAP_PROP_FRAME_COUNT Sample.long_film
  /\ (2 * CAP_PROP_FRAME_COUNT Sample.long_film) `div` 3 = 6004799503160662
  /\ read_at Sample.long_film 6004799503160662
     = Some [(6004799503160662, 0, 0)]
  /\ frame_indices (CAP_PROP_FRAME_COUNT Sample.long_film) 3
     = [0; 3002399751580331; 6004799503160663]
  /\ extract_keyframes {[ "film.mp4" := Sample.long_film ]} "film.mp4" 3
     = Py.Ok [ [(0, 0, 0)]; [(0, 0, 3002399751580331)];
               [(0, 0, 6004799503160663)] ].
Proof.
  split; [vm_compute; discriminate|].
  repeat split; vm_compute; reflexivity.
Qed.

End Sampler.

(** ** On-screen text *)

Section OnScreenText.
Import VideoProcessor.

Lemma SFleb_not_SFltb a b : SFleb a b = true -> SFltb b a = false.
Proof.
  unfold SFleb, SFltb, SFcompare.
  destruct a as [s1|s1| |s1 m1 e1], b as [s2|s2| |s2 m2 e2];
    try (repeat match goal with s : bool |- _ => destruct s end; simpl; congruence).
  fold (Pos.compare m1 m2). fold (Pos.compare m2 m1).
  rewrite (Z.compare_antisym e1 e2), (Pos.compare_antisym m1 m2).
  destruct s1, s2; simpl; try congruence;
    destruct (e1 ?= e2); simpl; try congruence;
    destruct (m1 ?= m2)%positive; simpl; congruence.
Qed.

(** A confidence at or below the threshold is not above it. *)
Lemma leb_not_ltb (x y : float) : (x <=? y)%float = true -> (y <? x)%float = false.
Proof. rewrite leb_spec, ltb_spec. apply SFleb_not_SFltb. Qed.

Lemma filter_sublist {A} (f : A -> bool) (l : list A) : List.filter f l `sublist_of` l.
Proof.
  induction l as [|x l IH]; simpl; [constructor|].
  destruct (f x); by constructor.
Qed.

Lemma elem_of_filter {A} (f : A -> bool) (l : list A) x :
  x ∈ List.filter f l <-> x ∈ l /\ f x = true.
Proof. rewrite !list_elem_of_In. apply filter_In. Qed.

(** C8 (as amended). Text extraction never raises: when the OCR call fails
    the collection is empty; otherwise it holds the texts of the kept
    detections, in the reader's order, where a detection is kept exactly
    when its confidence is strictly above 0.5. A detection at or below 0.5,
    the threshold itself included, is discarded. *)
Theorem extract_text_keeps_above_threshold (self : Processor) (frame : Frame) :
  match ocr_reader self frame with
  | None => extract_text_from_frame self frame = []
  | Some results =>
      exists kept : list Detection,
        extract_text_from_frame self frame = (fun d => d.1.2) <$> kept
        /\ kept `sublist_of` results
        /\ (forall d, d ∈ kept <-> d ∈ results /\ (0.5 <? d.2)%float = true)
        /\ (forall d, d ∈ results -> (d.2 <=? 0.5)%float = true -> d ∉ kept)
  end.
Proof.
  unfold extract_text_from_frame.
  destruct (ocr_reader self frame) as [results|]; [|reflexivity].
  exists (List.filter (fun text => (0.5 <? text.2)%float) results).
  split; [reflexivity|]. split; [apply filter_sublist|]. split.
  - intros d. apply (elem_of_filter (fun text => (0.5 <? text.2)%float)).
  - intros d _ Hle Hd.
    apply (elem_of_filter (fun text => (0.5 <? text.2)%float)) in Hd as [_ Hgt].
    apply leb_not_ltb in Hle. congruence.
Qed.

Lemma extract_text_keeps_above_threshold_witness :
  exists kept : list Detection,
    extract_text_from_frame Sample.gemini_only [] = (fun d => d.1.2) <$> kept
    /\ kept `sublist_of` [([], "PARK", 0.75%float)]
    /\ (forall d, d ∈ kept <->
                  d ∈ [(([] : BBox), "PARK", 0.75%float)]
                  /\ (0.5 <? d.2)%float = true)
    /\ (forall d, d ∈ [(([] : BBox), "PARK", 0.75%float)] ->
                  (d.2 <=? 0.5)%float = true -> d ∉ kept).
Proof. exact (extract_text_keeps_above_threshold Sample.gemini_only []). Defined.

(** C8, the statement refuted: a detection whose confidence is exactly 0.5
    is not below the threshold, and its text is dropped all the same. *)
Lemma extract_text_drops_threshold_confidence :
  ocr_reader Sample.threshold_reader [] = Some [([], "SALE", 0.5%float)]
  /\ (0.5 <? 0.5)%float = false
  /\ extract_text_from_frame Sample.threshold_reader [] = [].
Proof. repeat split. Qed.

End OnScreenText.

(** ** The summary composer *)

Section Composer.
Import Data VideoProcessor.

Lemma truthy_nonempty s : Py.truthy s = true <-> s <> "".
Proof. destruct s; simpl; split; congruence. Qed.

Lemma truthy_empty s : Py.truthy s = false <-> s = "".
Proof. destruct s; simpl; split; congruence. Qed.

Lemma append_nonempty_l s t : s <> "" -> s +:+ t <> "".
Proof. destruct s; simpl; [done|discriminate]. Qed.

Lemma append_nonempty_r s t : t <> "" -> s +:+ t <> "".
Proof. destruct s; simpl; [done|discriminate]. Qed.

Lemma append_cons x (a b : string) : String x a +:+ b = String x (a +:+ b).
Proof. reflexivity. Qed.

Lemma append_empty_l (a : string) : "" +:+ a = a.
Proof. reflexivity. Qed.

Lemma append_assoc (a b c : string) : (a +:+ b) +:+ c = a +:+ b +:+ c.
Proof. induction a as [|x a IH]; [done|]. rewrite !append_cons. by f_equal. Qed.

Lemma append_empty_r (a : string) : a +:+ "" = a.
Proof. induction a as [|x a IH]; [done|]. rewrite append_cons. by f_equal. Qed.

(** [s[:n]] is a prefix of [s], of [n] characters when [s] has as many. *)
Lemma str_take_prefix n s :
  exists rest,
    s = Py.str_take n s +:+ rest
    /\ String.length (Py.str_take n s) = Nat.min n (String.length s).
Proof.
  revert s. induction n as [|n IH]; intros s.
  - exists s. by destruct s.
  - destruct s as [|c s]; [by exists ""|].
    destruct (IH s) as (rest & Hrest & Hlen). exists rest.
    cbn [Py.str_take String.length]. rewrite append_cons, <- Hrest.
    split; [done|]. rewrite Hlen. by rewrite Nat.succ_min_distr.
Qed.

Lemma template_summary_nonempty audio_transcription scenes :
  template_summary audio_transcription scenes <> "".
Proof. unfold template_summary. destruct scenes; simpl; discriminate. Qed.

(** The text of the template, written out. *)
Lemma template_summary_text audio_transcription scenes :
  template_summary audio_transcription scenes
  = "This video contains: "
    +:+ (if decide (audio_transcription = "") then "visual content"
         else Py.str_take 200 audio_transcription)
    +:+ ". "
    +:+ match scenes with
        | [] => ""
        | _ :: _ => "Key scenes include: " +:+ Py.join ", " (take 3 scenes) +:+ "."
        end.
Proof.
  unfold template_summary.
  assert (Hwhat : (if Py.truthy audio_transcription
                   then Py.str_take 200 audio_transcription
                   else "visual content")
                  = if decide (audio_transcription = "") then "visual content"
                    else Py.str_take 200 audio_transcription).
  { destruct audio_transcription; [done|]. by destruct (decide _). }
  rewrite Hwhat. generalize (if decide (audio_transcription = "")
                             then "visual content"
                             else Py.str_take 200 audio_transcription).
  intros what. destruct scenes as [|scene scenes].
  - by rewrite append_empty_r.
  - by rewrite !append_assoc.
Qed.

(** The scenes [process_video] names in its own template. *)
Lemma offline_summary_text audio_transcription visual_analysis :
  offline_summary audio_transcription visual_analysis
  = "This video presents content covering multiple aspects. "
    +:+ (if Py.truthy audio_transcription
            && negb (Py.contains "No audio" audio_transcription)
         then "Audio narration discusses: "
              +:+ Py.str_take 200 audio_transcription +:+ "... "
         else "")
    +:+ match omap (fun caption =>
                      if Py.contains ": " caption
                      then Some (Py.strip
                                   (Py.split_first " | "
                                      (Py.split1_last ": " caption)))
                      else None)
                (take 3 (frame_captions visual_analysis)) with
        | [] => ""
        | key_scenes => "Visually shows: " +:+ Py.join ", " key_scenes +:+ "."
        end.
Proof.
  unfold offline_summary.
  generalize (Py.str_take 200 audio_transcription). intros prefix.
  destruct (Py.truthy audio_transcription
            && negb (Py.contains "No audio" audio_transcription)).
  - destruct (frame_captions visual_analysis) as [|caption captions].
    + by rewrite !append_assoc, append_empty_r.
    + destruct (omap _ (take 3 (caption :: captions))).
      * by rewrite !append_assoc, append_empty_r.
      * by rewrite !append_assoc.
  - destruct (frame_captions visual_analysis) as [|caption captions]; [done|].
    by destruct (omap _ (take 3 (caption :: captions))).
Qed.


(** The summary chosen before trimming, by cases on the providers. *)
Lemma choose_summary_groq self audio_transcription scenes c :
  groq_client self = Some (Returns c) -> Py.strip c <> "" ->
  choose_summary self audio_transcription scenes = Py.strip c.
Proof.
  intros Hg Hc. unfold choose_summary. rewrite Hg. simpl.
  apply truthy_nonempty in Hc. rewrite Hc. simpl. by rewrite Hc.
Qed.

Lemma choose_summary_gemini self audio_transcription scenes c :
  (forall c', groq_client self = Some (Returns c') -> Py.strip c' = "") ->
  gemini_model self = Some (Returns c) -> Py.strip c <> "" ->
  choose_summary self audio_transcription scenes = Py.strip c.
Proof.
  intros Hg Hm Hc. unfold choose_summary. rewrite Hm.
  apply truthy_nonempty in Hc.
  destruct (groq_client self) as [[|c']|]; simpl; [by rewrite Hc| |by rewrite Hc].
  rewrite (Hg c' eq_refl). simpl. by rewrite Hc.
Qed.

Lemma choose_summary_template self audio_transcription scenes :
  (forall c, groq_client self = Some (Returns c) -> Py.strip c = "") ->
  (forall c, gemini_model self = Some (Returns c) -> Py.strip c = "") ->
  choose_summary self audio_transcription scenes
  = template_summary audio_transcription scenes.
Proof.
  intros Hg Hm. unfold choose_summary.
  destruct (groq_client self) as [[|c]|], (gemini_model self) as [[|c']|];
    simpl; try reflexivity;
    repeat match goal with
           | H : forall c, Some (Returns ?x) = Some (Returns c) -> _ |- _ =>
               rewrite (H x eq_refl); clear H; simpl
           end; reflexivity.
Qed.

Lemma choose_summary_nonempty self audio_transcription scenes :
  choose_summary self audio_transcription scenes <> "".
Proof.
  unfold choose_summary.
  destruct (groq_client self) as [[|c]|], (gemini_model self) as [[|c']|]; simpl;
    repeat match goal with
           | |- context [Py.truthy ?s] =>
               let E := fresh in destruct (Py.truthy s) eqn:E; simpl
           end;
    try apply template_summary_nonempty;
    by apply truthy_nonempty.
Qed.

Lemma trim_summary_nonempty summary_length_words summary :
  summary <> "" -> trim_summary summary_length_words summary <> "".
Proof.
  intros H. unfold trim_summary.
  destruct (_ && _); [|done].
  destruct summary_length_words as [n|]; [|done].
  destruct (_ >? n); [|done].
  by apply append_nonempty_r.
Qed.

(** [generate_summary] returns the trimmed choice unless the profile block
    raises. *)
Lemma generate_summary_returns self audio_transcription visual_analysis
    summary_length_words user_profile :
  (forall profile,
     user_profile = Some profile -> Prompting.profile_exception profile = None) ->
  generate_summary self audio_transcription visual_analysis summary_length_words
    user_profile
  = Py.Ok (trim_summary summary_length_words
             (choose_summary self audio_transcription
                (visual_scenes (frame_captions visual_analysis)))).
Proof.
  intros Hprofile. unfold generate_summary.
  destruct user_profile as [profile|]; [|done]. by rewrite (Hprofile profile).
Qed.

Lemma generate_summary_inv self audio_transcription visual_analysis
    summary_length_words user_profile summary :
  generate_summary self audio_transcription visual_analysis summary_length_words
    user_profile = Py.Ok summary ->
  summary
  = trim_summary summary_length_words
      (choose_summary self audio_transcription
         (visual_scenes (frame_captions visual_analysis))).
Proof.
  unfold generate_summary.
  destruct (match user_profile with
            | Some profile => Prompting.profile_exception profile
            | None => None
            end); [done|]. by intros [= <-].
Qed.

(** C3. What [generate_summary] does, in full. When the profile block
    raises, the exception leaves [generate_summary] before a provider is
    asked: the block stands outside the [try] statements that guard the
    providers. Otherwise the call returns a summary that is not empty:
    Groq's answer when it is not empty (after [strip]); Gemini's non-empty
    answer when Groq is not configured, raises or answers nothing; and
    when neither gives an answer the template "This video contains: ",
    the first 200 characters of the transcription (or "visual content"),
    ". " and, when there is a scene, "Key scenes include: " with the first
    three scenes; each trimmed to the target. For a video whose frames
    were extracted, [process_video] goes through [generate_summary] when a
    provider is configured and [use_llm] is on, completing with its summary
    or raising with its exception, and completes with its own template
    otherwise. *)
Theorem generate_summary_provider_order
    (self : Processor) audio_transcription visual_analysis summary_length_words
    (user_profile : option UserProfile) :
  let scenes := visual_scenes (frame_captions visual_analysis) in
  let silent (client : option Call) :=
    forall c, client = Some (Returns c) -> Py.strip c = "" in
  let raised :=
    match user_profile with
    | Some profile => Prompting.profile_exception profile
    | None => None
    end in
  let result :=
    generate_summary self audio_transcription visual_analysis
      summary_length_words user_profile in
  (forall e, raised = Some e -> result = Py.Raise e)
  /\ (raised = None ->
      exists summary,
        result = Py.Ok summary
        /\ summary <> ""
        /\ (forall c, groq_client self = Some (Returns c) -> Py.strip c <> "" ->
              summary = trim_summary summary_length_words (Py.strip c))
        /\ (silent (groq_client self) ->
            forall c, gemini_model self = Some (Returns c) -> Py.strip c <> "" ->
              summary = trim_summary summary_length_words (Py.strip c))
        /\ (silent (groq_client self) -> silent (gemini_model self) ->
            exists prefix rest,
              audio_transcription = prefix +:+ rest
              /\ String.length prefix
                 = Nat.min 200 (String.length audio_transcription)
              /\ summary
                 = trim_summary summary_length_words
                     ("This video contains: "
                      +:+ (if decide (audio_transcription = "")
                           then "visual content" else prefix)
                      +:+ ". "
                      +:+ match scenes with
                          | [] => ""
                          | _ :: _ =>
                              "Key scenes include: "
                              +:+ Py.join ", " (take 3 scenes) +:+ "."
                          end)))
  /\ (forall (disk : gmap string Media) video_path num_frames use_llm frames,
        extract_keyframes disk video_path num_frames = Py.Ok frames ->
        frames <> [] ->
        let analysis := analyze_visual_content self frames in
        exists transcription prefix rest,
          transcription = prefix +:+ rest
          /\ String.length prefix = Nat.min 200 (String.length transcription)
          /\ process_video self disk video_path num_frames use_llm
               summary_length_words user_profile
             = if use_llm
                  && (configured (groq_client self)
                      || configured (gemini_model self))
               then
                 match generate_summary self transcription analysis
                         summary_length_words user_profile with
                 | Py.Ok final_summary =>
                     Py.Ok (Completed transcription analysis final_summary)
                 | Py.Raise e => Py.Raise e
                 end
               else
                 Py.Ok
                   (Completed transcription analysis
                      ("This video presents content covering multiple aspects. "
                       +:+ (if Py.truthy transcription
                               && negb (Py.contains "No audio" transcription)
                            then "Audio narration discusses: " +:+ prefix
                                 +:+ "... "
                            else "")
                       +:+ match omap (fun caption =>
                                         if Py.contains ": " caption
                                         then Some (Py.strip
                                                      (Py.split_first " | "
                                                         (Py.split1_last ": "
                                                            caption)))
                                         else None)
                                   (take 3 (frame_captions analysis)) with
                           | [] => ""
                           | key_scenes =>
                               "Visually shows: " +:+ Py.join ", " key_scenes
                               +:+ "."
                           end))).
Proof.
  intros scenes silent raised result. split; [|split].
  - intros e He. unfold result, generate_summary. fold raised. by rewrite He.
  - intros Hnone. unfold result, generate_summary. fold raised scenes.
    rewrite Hnone. eexists. split; [reflexivity|].
    split; [apply trim_summary_nonempty, choose_summary_nonempty|].
    split; [|split].
    + intros c Hg Hc. by rewrite (choose_summary_groq _ _ _ c).
    + intros Hg c Hm Hc. by rewrite (choose_summary_gemini _ _ _ c).
    + intros Hg Hm. rewrite choose_summary_template by done.
      destruct (str_take_prefix 200 audio_transcription) as (rest & Hrest & Hlen).
      exists (Py.str_take 200 audio_transcription), rest.
      split; [exact Hrest|]. split; [exact Hlen|].
      by rewrite template_summary_text.
  - intros disk video_path num_frames use_llm frames Hframes Hne analysis.
    unfold process_video. rewrite Hframes.
    destruct frames as [|frame frames]; [done|]. fold analysis.
    set (transcription :=
           match extract_audio disk video_path with
           | Some (audio_data, sample_rate) =>
               transcribe_audio self (Some audio_data) sample_rate
           | None => "No audio track found in video."
           end).
    destruct (str_take_prefix 200 transcription) as (rest & Hrest & Hlen).
    exists transcription, (Py.str_take 200 transcription), rest.
    split; [exact Hrest|]. split; [exact Hlen|].
    by rewrite offline_summary_text.
Qed.

(** The defect at work: a stored expertise of [[1, 2]] makes the call
    raise, whatever the providers would answer; without a profile the same
    call returns Gemini's answer. *)
Lemma generate_summary_provider_order_witness :
  generate_summary Sample.gemini_only "Hello there."
    (analyze_visual_content Sample.gemini_only [[(1, 2, 3)]]) None
    (Some {| p_id := "u-ada"; p_expertise := JArray [JInt 1; JInt 2];
             p_summaryPreferences := JObject [] |})
  = Py.Raise
      (Py.TypeError "sequence item 0: expected str instance, int found")
  /\ generate_summary Sample.gemini_only "Hello there."
       (analyze_visual_content Sample.gemini_only [[(1, 2, 3)]]) None None
     = Py.Ok "A dog plays on the grass.".
Proof.
  split.
  - destruct (generate_summary_provider_order Sample.gemini_only "Hello there."
                (analyze_visual_content Sample.gemini_only [[(1, 2, 3)]]) None
                (Some {| p_id := "u-ada"; p_expertise := JArray [JInt 1; JInt 2];
                         p_summaryPreferences := JObject [] |}))
      as (Hraise & _).
    apply Hraise. reflexivity.
  - destruct (generate_summary_provider_order Sample.gemini_only "Hello there."
                (analyze_visual_content Sample.gemini_only [[(1, 2, 3)]]) None
                None)
      as (_ & Hreturn & _).
    destruct (Hreturn eq_refl) as (summary & -> & _ & _ & Hgemini & _).
    rewrite (Hgemini ltac:(discriminate) "  A dog plays on the grass.  " eq_refl
               ltac:(discriminate)).
    reflexivity.
Defined.

(** C5. Let [S] be the summary the composer chose and [W >= 1] the
    requested target. If [S] has more than [W] words, the result is the
    first [W] words of [S] joined by single spaces, followed by "..."; if
    [S] has at most [W] words the result is [S]. When no target was
    requested ([None], or the value 0, which the code's test reads as
    none) the result is [S]. Nothing is ever added to a short summary. *)
Theorem generate_summary_truncates_to_target
    (self : Processor) audio_transcription visual_analysis (target : option Z)
    (user_profile : option UserProfile) :
  (forall profile,
     user_profile = Some profile -> Prompting.profile_exception profile = None) ->
  let S := choose_summary self audio_transcription
             (visual_scenes (frame_captions visual_analysis)) in
  let words := Py.split S in
  exists result,
    generate_summary self audio_transcription visual_analysis target user_profile
    = Py.Ok result
    /\ (forall W, target = Some W -> 0 < W -> W < Z.of_nat (length words) ->
          result = Py.join " " (take (Z.to_nat W) words) +:+ "...")
    /\ (forall W, target = Some W -> Z.of_nat (length words) <= W ->
          result = S)
    /\ (target = None \/ target = Some 0 -> result = S).
Proof.
  intros Hprofile S words. rewrite generate_summary_returns by done.
  eexists. split; [reflexivity|].
  unfold trim_summary. fold S. fold words.
  assert (HS : Py.truthy S = true)
    by apply truthy_nonempty, choose_summary_nonempty.
  rewrite HS, andb_true_r. repeat split.
  - intros W -> HW Hlong.
    assert (HWt : Py.truthy_int (Some W) = true).
    { simpl. destruct (Z.eqb_spec W 0); [lia|done]. }
    rewrite HWt.
    destruct (Z.gtb_spec (Z.of_nat (length words)) W); [|lia].
    unfold Py.slice_to. destruct (Z.leb_spec 0 W); [done|lia].
  - intros W -> Hshort.
    destruct (Z.gtb_spec (Z.of_nat (length words)) W); [lia|].
    by destruct (Py.truthy_int (Some W)).
  - by intros [-> | ->].
Qed.

Lemma generate_summary_truncates_to_target_witness :
  generate_summary Sample.gemini_only "Hello there."
    (analyze_visual_content Sample.gemini_only [[(1, 2, 3)]]) (Some 2) None
  = Py.Ok "A dog..."
  /\ generate_summary Sample.gemini_only "Hello there."
       (analyze_visual_content Sample.gemini_only [[(1, 2, 3)]]) (Some 50) None
     = Py.Ok "A dog plays on the grass.".
Proof.
  split.
  - destruct (generate_summary_truncates_to_target Sample.gemini_only
                "Hello there."
                (analyze_visual_content Sample.gemini_only [[(1, 2, 3)]])
                (Some 2) None) as (result & -> & Hlong & _); [done|].
    rewrite (Hlong 2 eq_refl); [reflexivity|lia|vm_compute; reflexivity].
  - destruct (generate_summary_truncates_to_target Sample.gemini_only
                "Hello there."
                (analyze_visual_content Sample.gemini_only [[(1, 2, 3)]])
                (Some 50) None) as (result & -> & _ & Hshort & _); [done|].
    rewrite (Hshort 50 eq_refl); [reflexivity|vm_compute; discriminate].
Defined.

(** C5, the statement refuted. With a requested target of 0 the chosen
    summary, which has more than 0 words, is returned as it is, and not
    cut to its first 0 words and the ellipsis. With a requested target of
    -2 the summary, which has more than -2 words, loses its last two words:
    the result is neither the ellipsis alone nor the summary. *)
Lemma generate_summary_keeps_summary_for_target_zero :
  let S := choose_summary Sample.gemini_only "Hello there."
             (visual_scenes
                (frame_captions
                   (analyze_visual_content Sample.gemini_only [[(1, 2, 3)]]))) in
  S = "A dog plays on the grass."
  /\ 0 < Z.of_nat (length (Py.split S))
  /\ generate_summary Sample.gemini_only "Hello there."
       (analyze_visual_content Sample.gemini_only [[(1, 2, 3)]]) (Some 0) None
     = Py.Ok S
  /\ S <> Py.join " " (take (Z.to_nat 0) (Py.split S)) +:+ "..."
  /\ generate_summary Sample.gemini_only "Hello there."
       (analyze_visual_content Sample.gemini_only [[(1, 2, 3)]]) (Some (-2))
       None
     = Py.Ok "A dog plays on..."
  /\ "A dog plays on..."
     <> Py.join " " (take (Z.to_nat (-2)) (Py.split S)) +:+ "...".
Proof. repeat split; vm_compute; (reflexivity || discriminate). Qed.



End Composer.

(** ** Captions in a job's result *)

Section Captions.
Import Data VideoProcessor App.

Lemma partition_cons sep c s :
  Py.partition sep (String c s)
  = match Py.strip_prefix sep (String c s) with
    | Some rest => Some ("", rest)
    | None =>
        match Py.partition sep s with
        | Some (before, rest) => Some (String c before, rest)
        | None => None
        end
    end.
Proof. reflexivity. Qed.

Lemma strip_prefix_cons a p b s :
  Py.strip_prefix (String a p) (String b s)
  = if Ascii.eqb a b then Py.strip_prefix p s else None.
Proof. reflexivity. Qed.

(** [":" in String c s], one character at a time. *)
Lemma contains_colon_step c s :
  Py.contains ":" (String c s) = Ascii.eqb ":" c || Py.contains ":" s.
Proof.
  unfold Py.contains. rewrite partition_cons, strip_prefix_cons.
  destruct (Ascii.eqb ":" c); [reflexivity|].
  by destruct (Py.partition ":" s) as [[? ?]|].
Qed.

(** A label without a colon ends at the first ": " of a labelled text. *)
Lemma partition_label label rest :
  Py.contains ":" label = false ->
  Py.partition ": " (label +:+ ": " +:+ rest) = Some (label, rest).
Proof.
  induction label as [|c label IH]; intros H.
  - reflexivity.
  - rewrite contains_colon_step in H. apply orb_false_elim in H as [Hc H].
    rewrite append_cons, partition_cons, strip_prefix_cons, Hc.
    by rewrite (IH H).
Qed.

Lemma digits_no_colon d : Py.contains ":" (NilEmpty.string_of_uint d) = false.
Proof.
  induction d; [reflexivity|..];
    cbn [NilEmpty.string_of_uint]; rewrite contains_colon_step, IHd; reflexivity.
Qed.

Lemma str_of_nat_no_colon n : Py.contains ":" (Py.str_of_nat n) = false.
Proof.
  unfold Py.str_of_nat, NilZero.string_of_uint.
  destruct (Nat.to_uint n); [reflexivity|..]; apply digits_no_colon.
Qed.

Lemma frame_label_no_colon n :
  Py.contains ":" ("Frame " +:+ Py.str_of_nat n) = false.
Proof.
  rewrite !append_cons, append_empty_l, !contains_colon_step, str_of_nat_no_colon.
  reflexivity.
Qed.

(** The text [analyze_visual_content] appends to a caption: the on-screen
    texts of the frame, if there are any. *)
Lemma caption_line_parts self i frame :
  caption_line self i frame
  = ("Frame " +:+ Py.str_of_nat (i + 1)) +:+ ": "
    +:+ (caption_frame self frame
         +:+ match extract_text_from_frame self frame with
             | [] => ""
             | ocr => " | On-screen text: " +:+ Py.join ", " ocr
             end).
Proof.
  unfold caption_line.
  destruct (extract_text_from_frame self frame) as [|t ocr].
  - by rewrite append_empty_r, !append_assoc.
  - by rewrite !append_assoc.
Qed.

Lemma analyze_loop_captions self frames : forall i captions texts,
  (analyze_loop self i frames captions texts).1
  = captions ++ imap (fun k => caption_line self (i + k)) frames.
Proof.
  induction frames as [|frame frames IH]; intros i captions texts; simpl.
  - by rewrite app_nil_r.
  - rewrite IH, <- app_assoc. simpl. do 2 f_equal.
    + f_equal. lia.
    + apply imap_ext. intros k x _. simpl. f_equal. lia.
Qed.

Lemma analyze_frame_captions self frames :
  frame_captions (analyze_visual_content self frames)
  = imap (caption_line self) frames.
Proof.
  unfold analyze_visual_content.
  pose proof (analyze_loop_captions self frames 0 [] []) as H.
  destruct (analyze_loop self 0 frames [] []) as [captions texts].
  simpl in *. rewrite H. by apply imap_ext.
Qed.

(** The analysis yields one caption per frame, in frame order. *)
Lemma analysis_captions_per_frame self frames :
  length (frame_captions (analyze_visual_content self frames)) = length frames
  /\ (forall (i : nat) frame,
        frames !! i = Some frame ->
        frame_captions (analyze_visual_content self frames) !! i
        = Some (caption_line self i frame)).
Proof.
  rewrite analyze_frame_captions. split.
  - apply length_imap.
  - intros i frame Hi. by rewrite list_lookup_imap, Hi.
Qed.

Lemma visual_caption_line self i frame :
  visual_caption i (caption_line self i frame)
  = (Z.of_nat i + 1,
     caption_frame self frame
     +:+ match extract_text_from_frame self frame with
         | [] => ""
         | ocr => " | On-screen text: " +:+ Py.join ", " ocr
         end).
Proof.
  unfold visual_caption, Py.contains, Py.split1_last.
  rewrite caption_line_parts, partition_label by apply frame_label_no_colon.
  reflexivity.
Qed.

End Captions.

(** ** The worker *)

Section Worker.
Import Data VideoProcessor App.

(** The worker of a registered job, by the outcome of the pipeline. No
    exception escapes it. *)
Lemma process_video_job_run video_processor st job_id video_path num_frames
    summary_style summary_format summary_length_words user_profile now e :
  jobs st !! job_id = Some e ->
  process_video_job video_processor st job_id video_path num_frames
    summary_style summary_format summary_length_words user_profile now
  = match run_pipeline video_processor (disk st) video_path num_frames
            summary_length_words user_profile with
    | Py.Ok results =>
        ({| jobs := <[job_id := set_progress "done" 100 "Complete" (Some results) e]>
                      (jobs st);
            db_jobs := alter (update_done results now) job_id (db_jobs st);
            db_users := db_users st;
            disk := delete video_path (disk st) |}, None)
    | Py.Raise ex =>
        ({| jobs := <[job_id := set_progress "failed" 10
                                  ("Error: " +:+ Py.str_exn ex) (j_result e) e]>
                      (jobs st);
            db_jobs := alter (update_failed ("Error: " +:+ Py.str_exn ex) now)
                         job_id (db_jobs st);
            db_users := db_users st;
            disk := disk st |}, None)
    end.
Proof.
  intros He. unfold process_video_job, try_block. rewrite He.
  cbn [disk jobs db_jobs db_users].
  destruct (run_pipeline video_processor (disk st) video_path num_frames
              summary_length_words user_profile) as [results|ex].
  - by rewrite insert_insert_eq.
  - unfold except_block. cbn [disk jobs db_jobs db_users].
    by rewrite lookup_insert_eq, insert_insert_eq.
Qed.

(** C7. The worker of a registered job ends in [done] or in [failed] and
    lets no exception escape. When it ends in [done] the media file is gone
    from the disk; when it ends in [failed] the disk is as it was. Either
    way no other file is touched, the job's parameters in the registry and
    in its database row are the ones it was created with, the row's
    [created_at] is unchanged and its status is the registry's, and no
    other job and no user row changes. *)
Theorem terminal_transition_effects video_processor st job_id video_path
    num_frames summary_style summary_format summary_length_words user_profile
    now e :
  jobs st !! job_id = Some e ->
  exists st' e',
    process_video_job video_processor st job_id video_path num_frames
      summary_style summary_format summary_length_words user_profile now
    = (st', None)
    /\ jobs st' !! job_id = Some e'
    /\ (j_status e' = "done" \/ j_status e' = "failed")
    /\ (j_status e' = "done" -> disk st' !! video_path = None)
    /\ (j_status e' = "failed" -> disk st' = disk st)
    /\ (forall path, path <> video_path -> disk st' !! path = disk st !! path)
    /\ (j_id e', j_user_id e', j_video_path e', j_num_frames e',
        j_summary_style e', j_summary_format e', j_summary_length_words e',
        j_metadata e')
       = (j_id e, j_user_id e, j_video_path e, j_num_frames e,
          j_summary_style e, j_summary_format e, j_summary_length_words e,
          j_metadata e)
    /\ (forall r, db_jobs st !! job_id = Some r ->
        exists r',
          db_jobs st' !! job_id = Some r'
          /\ r_status r' = j_status e'
          /\ (r_id r', r_user_id r', r_video_path r', r_num_frames r',
              r_summary_style r', r_summary_format r',
              r_summary_length_words r', r_metadata r', r_created_at r')
             = (r_id r, r_user_id r, r_video_path r, r_num_frames r,
                r_summary_style r, r_summary_format r,
                r_summary_length_words r, r_metadata r, r_created_at r))
    /\ (forall other, other <> job_id ->
        jobs st' !! other = jobs st !! other
        /\ db_jobs st' !! other = db_jobs st !! other)
    /\ db_users st' = db_users st.
Proof.
  intros He.
  rewrite (process_video_job_run _ _ _ _ _ _ _ _ _ _ e He).
  destruct (run_pipeline video_processor (disk st) video_path num_frames
              summary_length_words user_profile) as [results|ex];
    eexists _, _; (split; [reflexivity|]); cbn [disk jobs db_jobs db_users];
    (split; [apply lookup_insert_eq|]); cbn [set_progress j_status].
  - split; [by left|]. split; [intros _; apply lookup_delete_eq|].
    split; [discriminate|].
    split; [intros path Hp; by apply lookup_delete_ne|].
    split; [reflexivity|].
    split; [|split; [|reflexivity]].
    + intros r Hr. eexists. rewrite lookup_alter_eq, Hr. by repeat split.
    + intros other Ho. by rewrite lookup_insert_ne, lookup_alter_ne.
  - split; [by right|]. split; [discriminate|].
    split; [done|]. split; [done|].
    split; [reflexivity|].
    split; [|split; [|reflexivity]].
    + intros r Hr. eexists. rewrite lookup_alter_eq, Hr. by repeat split.
    + intros other Ho. by rewrite lookup_insert_ne, lookup_alter_ne.
Qed.

Lemma terminal_transition_effects_witness :
  exists st' e',
    process_video_job (Some Sample.gemini_only) Sample.queued "job-1"
      "uploads/f0_clip.mp4" 10 "default" "paragraph" None None 200
    = (st', None)
    /\ jobs st' !! "job-1" = Some e'
    /\ j_status e' = "done"
    /\ disk st' !! "uploads/f0_clip.mp4" = None.
Proof.
  destruct (terminal_transition_effects (Some Sample.gemini_only) Sample.queued
              "job-1" "uploads/f0_clip.mp4" 10 "default" "paragraph" None None
              200 _ ltac:(vm_compute; reflexivity))
    as (st' & e' & Hrun & He' & _ & Hdone & _).
  exists st', e'.
  assert (Hstatus : j_status e' = "done").
  { revert He'. injection Hrun as <- . vm_compute. by intros [= <-]. }
  auto.
Defined.

(** A file that cannot be opened fails the job, and the step label carries
    the reason: the sampler's message when the processor is loaded, and
    the [AttributeError] of the call on [None] when the models failed to
    load at start-up. *)
Lemma unopenable_video_job_fails video_processor st job_id video_path
    num_frames summary_style summary_format summary_length_words user_profile
    now e :
  jobs st !! job_id = Some e ->
  (forall cap, disk st !! video_path = Some cap -> isOpened cap = false) ->
  exists st' e',
    process_video_job video_processor st job_id video_path num_frames
      summary_style summary_format summary_length_words user_profile now
    = (st', None)
    /\ jobs st' !! job_id = Some e'
    /\ j_status e' = "failed"
    /\ j_step e'
       = match video_processor with
         | Some _ => "Error: Could not open video: " +:+ video_path
         | None => "Error: 'NoneType' object has no attribute 'process_video'"
         end
    /\ disk st' = disk st.
Proof.
  intros He Hcap.
  rewrite (process_video_job_run _ _ _ _ _ _ _ _ _ _ e He).
  assert (Hrun : run_pipeline video_processor (disk st) video_path num_frames
                   summary_length_words user_profile
                 = Py.Raise
                     match video_processor with
                     | Some _ =>
                         Py.ValueError ("Could not open video: " +:+ video_path)
                     | None =>
                         Py.AttributeError
                           "'NoneType' object has no attribute 'process_video'"
                     end).
  { destruct video_processor as [self|]; [|done].
    unfold run_pipeline, process_video, extract_keyframes.
    destruct (disk st !! video_path) as [cap|] eqn:E; [|done].
    by rewrite (Hcap cap eq_refl). }
  rewrite Hrun. eexists _, _. split; [reflexivity|].
  cbn [disk jobs]. split; [apply lookup_insert_eq|].
  by destruct video_processor.
Qed.

Lemma unopenable_video_job_fails_witness :
  exists st' e',
    process_video_job (Some Sample.gemini_only) Sample.queued "job-1"
      "uploads/missing.mp4" 10 "default" "paragraph" None None 200
    = (st', None)
    /\ jobs st' !! "job-1" = Some e'
    /\ j_status e' = "failed"
    /\ j_step e' = "Error: Could not open video: uploads/missing.mp4".
Proof.
  destruct (unopenable_video_job_fails (Some Sample.gemini_only) Sample.queued
              "job-1" "uploads/missing.mp4" 10 "default" "paragraph" None None
              200 _
              ltac:(vm_compute; reflexivity))
    as (st' & e' & Hrun & He' & Hstatus & Hstep & _).
  - intros cap Hcap. vm_compute in Hcap. discriminate.
  - by exists st', e'.
Defined.

(** C1, where the code departs from it. A file that opens and yields no
    frame makes [process_video] return its error dict instead of raising;
    the worker does not look at it, so the job ends in [done] with step
    "Complete", in the registry and in the database, and the error dict is
    stored as its result. *)
Theorem frameless_video_job_ends_done self st job_id video_path num_frames
    summary_style summary_format summary_length_words user_profile now e :
  jobs st !! job_id = Some e ->
  extract_keyframes (disk st) video_path num_frames = Py.Ok [] ->
  exists st' e',
    process_video_job (Some self) st job_id video_path num_frames
      summary_style summary_format summary_length_words user_profile now
    = (st', None)
    /\ jobs st' !! job_id = Some e'
    /\ j_status e' = "done"
    /\ j_progress e' = 100
    /\ j_step e' = "Complete"
    /\ j_result e' = Some (ErrorResult "Could not extract frames from video")
    /\ (forall r, db_jobs st !! job_id = Some r ->
        exists r',
          db_jobs st' !! job_id = Some r'
          /\ r_status r' = "done" /\ r_step r' = "Complete").
Proof.
  intros He Hframes.
  rewrite (process_video_job_run _ _ _ _ _ _ _ _ _ _ e He).
  unfold run_pipeline, process_video. rewrite Hframes.
  eexists _, _. split; [reflexivity|]. cbn [jobs db_jobs].
  split; [apply lookup_insert_eq|]. repeat split.
  intros r Hr. eexists. by rewrite lookup_alter_eq, Hr.
Qed.

Lemma frameless_video_job_ends_done_witness :
  exists st' e',
    process_video_job (Some Sample.gemini_only) Sample.blank_queued "job-2"
      "uploads/f1_blank.mp4" 10 "default" "paragraph" None None 200
    = (st', None)
    /\ jobs st' !! "job-2" = Some e'
    /\ j_status e' = "done"
    /\ j_step e' = "Complete".
Proof.
  destruct (frameless_video_job_ends_done Sample.gemini_only Sample.blank_queued
              "job-2" "uploads/f1_blank.mp4" 10 "default" "paragraph" None None
              200 _ ltac:(vm_compute; reflexivity) ltac:(vm_compute; reflexivity))
    as (st' & e' & Hrun & He' & Hstatus & _ & Hstep & _).
  by exists st', e'.
Defined.

End Worker.

(** ** The handlers *)

Section HandlerFacts.
Import Data VideoProcessor App.

Lemma select_job_row st job_id user_id job :
  select_job st job_id user_id = Some job <->
  db_jobs st !! job_id = Some job /\ r_user_id job = user_id.
Proof.
  unfold select_job. destruct (db_jobs st !! job_id) as [r|].
  - destruct (String.eqb_spec (r_user_id r) user_id) as [E|E]; split.
    + by intros [= <-].
    + by intros [[= <-] _].
    + done.
    + intros [[= <-] ?]. done.
  - split; [done|]. by intros [? _].
Qed.

Lemma eta_seconds_idle status progress :
  status <> "processing" -> eta_seconds status progress = 0.
Proof.
  intros H. unfold eta_seconds.
  by destruct (String.eqb_spec status "processing").
Qed.

(** C2. A status query for a job of the requesting user reports the
    registry's status, progress and step while the job has a registry entry,
    and the database row's status, progress and step, untouched, when it has
    none; [etaSeconds] is 0 for every status other than [processing]. In
    particular, once the worker has brought the job to [done], a query
    against any later state that keeps the database rows and has lost the
    registry entry reports [done] with progress 100 and [etaSeconds] 0. *)
Theorem status_prefers_live_cache st user_id job_id job :
  select_job st job_id user_id = Some job ->
  (forall job_data, jobs st !! job_id = Some job_data ->
     get_job_status st user_id job_id
     = (StatusBody job_id (j_status job_data) (j_progress job_data)
          (j_step job_data)
          (eta_seconds (j_status job_data) (j_progress job_data)), 200))
  /\ (jobs st !! job_id = None ->
      get_job_status st user_id job_id
      = (StatusBody job_id (r_status job) (r_progress job) (r_step job)
           (eta_seconds (r_status job) (r_progress job)), 200))
  /\ (forall status progress,
        status <> "processing" -> eta_seconds status progress = 0)
  /\ (forall video_processor video_path num_frames summary_style summary_format
             summary_length_words user_profile now st' job_data st'',
        process_video_job video_processor st job_id video_path num_frames
          summary_style summary_format summary_length_words user_profile now
        = (st', None) ->
        jobs st' !! job_id = Some job_data ->
        j_status job_data = "done" ->
        db_jobs st'' = db_jobs st' ->
        jobs st'' !! job_id = None ->
        get_job_status st'' user_id job_id
        = (StatusBody job_id "done" 100 "Complete" 0, 200)).
Proof.
  intros Hjob. unfold get_job_status at 1 2. rewrite Hjob. repeat split.
  - by intros job_data ->.
  - by intros ->.
  - apply eta_seconds_idle.
  - intros video_processor video_path num_frames summary_style summary_format
      summary_length_words user_profile now st' job_data st''
      Hrun Hentry Hdone Hdb Hgone.
    apply select_job_row in Hjob as [Hrow Huser].
    destruct (jobs st !! job_id) as [e|] eqn:He.
    + rewrite (process_video_job_run _ _ _ _ _ _ _ _ _ _ e He) in Hrun.
      destruct (run_pipeline video_processor (disk st) video_path num_frames
                  summary_length_words user_profile) as [results|ex];
        injection Hrun as <-; cbn [jobs db_jobs] in *;
        rewrite lookup_insert_eq in Hentry; injection Hentry as <-;
        [|discriminate].
      unfold get_job_status, select_job.
      rewrite Hdb, lookup_alter_eq, Hrow, Hgone.
      cbn [fmap option_fmap option_map update_done r_user_id].
      destruct (String.eqb_spec (r_user_id job) user_id); done.
    + unfold process_video_job, try_block in Hrun. rewrite He in Hrun.
      unfold except_block in Hrun. rewrite He in Hrun. discriminate.
Qed.

Lemma status_prefers_live_cache_witness :
  get_job_status Sample.restarted "user-1" "job-1"
  = (StatusBody "job-1" "done" 100 "Complete" 0, 200).
Proof.
  assert (Hrow : exists job,
             select_job Sample.queued "job-1" "user-1" = Some job)
    by (vm_compute; by eexists).
  destruct Hrow as (job & Hjob).
  assert (Hentry : exists job_data,
             jobs Sample.finished !! "job-1" = Some job_data
             /\ j_status job_data = "done")
    by (vm_compute; eexists; split; reflexivity).
  destruct Hentry as (job_data & Hentry & Hdone).
  destruct (status_prefers_live_cache Sample.queued "user-1" "job-1" job Hjob)
    as (_ & _ & _ & Hlater).
  apply (Hlater (Some Sample.gemini_only) "uploads/f0_clip.mp4" 10 "default"
           "paragraph" None None 200 Sample.finished job_data Sample.restarted).
  - vm_compute. reflexivity.
  - exact Hentry.
  - exact Hdone.
  - reflexivity.
  - reflexivity.
Defined.

(** A job of another user is not found, by the status query and by the
    result query alike, whatever the registry holds. *)
Lemma foreign_job_not_found st user_id job_id :
  (forall r, db_jobs st !! job_id = Some r -> r_user_id r <> user_id) ->
  get_job_status st user_id job_id = (ErrorBody "Job not found", 404)
  /\ get_job_result st user_id job_id = (ErrorBody "Job not found", 404).
Proof.
  intros Hforeign.
  assert (Hnone : select_job st job_id user_id = None).
  { destruct (select_job st job_id user_id) as [r|] eqn:E; [|done].
    apply select_job_row in E as [Hr Hu]. by destruct (Hforeign r Hr). }
  unfold get_job_status, get_job_result. by rewrite Hnone.
Qed.

Lemma foreign_job_not_found_witness :
  get_job_status Sample.finished "user-2" "job-1" = (ErrorBody "Job not found", 404)
  /\ get_job_result Sample.finished "user-2" "job-1"
     = (ErrorBody "Job not found", 404).
Proof.
  apply foreign_job_not_found. intros r Hr.
  vm_compute in Hr. injection Hr as <-. discriminate.
Defined.




(** C10. The result of a completed job lists one caption per analysed
    frame, numbered from 1 in frame order. Each is the frame's caption as
    the analysis stored it with only the "Frame k: " label removed: the
    captioner's text, followed by " | On-screen text: " and the frame's
    texts whenever the frame had on-screen text. *)
Theorem result_captions_keep_onscreen_text st user_id job_id job
    (self : Processor) frames transcription final_summary :
  select_job st job_id user_id = Some job ->
  r_status job = "done" ->
  r_result job
  = Some (Completed transcription (analyze_visual_content self frames)
            final_summary) ->
  get_job_result st user_id job_id
  = (ResultBody job_id final_summary transcription
       (imap (fun idx frame =>
                (Z.of_nat idx + 1,
                 caption_frame self frame
                 +:+ match extract_text_from_frame self frame with
                     | [] => ""
                     | ocr => " | On-screen text: " +:+ Py.join ", " ocr
                     end)) frames)
       transcription [] None "paragraph", 200).
Proof.
  intros Hjob Hdone Hresult. unfold get_job_result.
  rewrite Hjob, Hdone, Hresult. cbn [String.eqb negb].
  change (negb ("done" =? "done")%string) with false. cbv iota.
  unfold result_frame_captions, result_final_summary, result_audio_transcription.
  rewrite analyze_frame_captions. do 2 f_equal. clear Hresult.
  induction frames as [|frame frames IH] using rev_ind; [reflexivity|].
  rewrite !imap_app, IH. cbn [imap]. do 2 f_equal.
  rewrite length_imap, Nat.add_0_r. apply visual_caption_line.
Qed.

Lemma result_captions_keep_onscreen_text_witness :
  exists summary transcript captions,
    get_job_result Sample.finished "user-1" "job-1"
    = (ResultBody "job-1" summary transcript captions transcript [] None
         "paragraph", 200)
    /\ captions !! 0%nat = Some (1, "a dog on grass | On-screen text: PARK").
Proof.
  assert (Hrow : exists job,
             select_job Sample.finished "job-1" "user-1" = Some job
             /\ r_status job = "done"
             /\ r_result job
                = Some (Completed "No audio track found in video."
                          (analyze_visual_content Sample.gemini_only
                             [[(0, 0, 0)]; [(0, 0, 1)]; [(0, 0, 2)];
                              [(0, 0, 3)]; [(0, 0, 4)]])
                          "A dog plays on the grass."))
    by (vm_compute; eexists; repeat split).
  destruct Hrow as (job & Hjob & Hstatus & Hresult).
  eexists _, _, _. split.
  - exact (result_captions_keep_onscreen_text Sample.finished "user-1" "job-1"
             job Sample.gemini_only _ _ _ Hjob Hstatus Hresult).
  - reflexivity.
Defined.

End HandlerFacts.

(** ** Worked examples *)

Section Examples.
Import Data VideoProcessor App.

Example split_runs_of_blanks : Py.split "  a bc   d " = ["a"; "bc"; "d"].
Proof. reflexivity. Qed.

Example strip_both_ends : Py.strip "  a bc   d  " = "a bc   d".
Proof. reflexivity. Qed.

Example partition_first_separator :
  Py.partition ": " "Frame 1: a cat: b" = Some ("Frame 1", "a cat: b").
Proof. reflexivity. Qed.

Example slice_to_bounds :
  Py.slice_to 2 [1; 2; 3] = [1; 2] /\ Py.slice_to 5 [1; 2; 3] = [1; 2; 3]
  /\ Py.slice_to (-1) [1; 2; 3] = [1; 2] /\ Py.slice_to (-5) [1; 2; 3] = [].
Proof. repeat split. Qed.

Example join_and_str :
  Py.join ", " ["a"; "b"; "c"] = "a, b, c" /\ Py.join ", " ["a"] = "a"
  /\ Py.str_of_nat 12 = "12" /\ Py.str_of_nat 0 = "0".
Proof. repeat split. Qed.

Example path_join_upload : Py.path_join "./uploads" "x.mp4" = "./uploads/x.mp4".
Proof. reflexivity. Qed.

Example frame_indices_samples :
  frame_indices 10 3 = [0; 3; 6] /\ frame_indices 5 2 = [0; 2]
  /\ frame_indices 2 10 = [0; 1] /\ frame_indices 0 10 = [].
Proof. repeat split. Qed.

Example caption_with_text :
  caption_line Sample.gemini_only 0 []
  = "Frame 1: a dog on grass | On-screen text: PARK".
Proof. reflexivity. Qed.

Example scenes_without_suffix :
  visual_scenes ["Frame 1: a dog on grass | On-screen text: PARK"; "no label"]
  = ["a dog on grass"].
Proof. reflexivity. Qed.

Example template_text :
  template_summary "Hello there." ["a dog"; "a cat"; "a bird"; "a fish"]
  = "This video contains: Hello there.. Key scenes include: a dog, a cat, a bird.".
Proof. reflexivity. Qed.

Example status_while_queued :
  get_job_status Sample.queued "user-1" "job-1"
  = (StatusBody "job-1" "queued" 0 "Queued" 0, 200).
Proof. vm_compute. reflexivity. Qed.

Example result_of_finished_job :
  get_job_result Sample.finished "user-1" "job-1"
  = (ResultBody "job-1" "A dog plays on the grass."
       "No audio track found in video."
       [(1, "a dog on grass | On-screen text: PARK");
        (2, "a dog on grass | On-screen text: PARK");
        (3, "a dog on grass | On-screen text: PARK");
        (4, "a dog on grass | On-screen text: PARK");
        (5, "a dog on grass | On-screen text: PARK")]
       "No audio track found in video." [] None "paragraph", 200).
Proof. vm_compute. reflexivity. Qed.

End Examples.

(** ** Words of a summary *)

Section Words.
Import VideoProcessor.

Lemma split_cons c s :
  Py.split (String c s)
  = if Py.isspace c then Py.split s
    else match s with
         | EmptyString => [String c EmptyString]
         | String d _ =>
             if Py.isspace d then String c EmptyString :: Py.split s
             else match Py.split s with
                  | w :: ws => String c w :: ws
                  | [] => [String c EmptyString]
                  end
         end.
Proof. reflexivity. Qed.

Lemma is_word_cons c w :
  Text.is_word (String c w) = negb (Py.isspace c) && Text.blank_free w.
Proof. reflexivity. Qed.

Lemma blank_free_app a b :
  Text.blank_free (a +:+ b) = Text.blank_free a && Text.blank_free b.
Proof.
  induction a as [|c a IH]; [done|].
  rewrite append_cons. cbn [Text.blank_free]. rewrite IH. by rewrite andb_assoc.
Qed.

Lemma is_word_app w t :
  Text.is_word w = true -> Text.blank_free t = true -> Text.is_word (w +:+ t) = true.
Proof.
  destruct w as [|c w]; [done|]. rewrite append_cons, !is_word_cons.
  rewrite blank_free_app. intros [-> ->]%andb_true_iff ->. done.
Qed.

(** Every word that [split] returns is a word. *)
Lemma split_words s : Forall (fun w => Text.is_word w = true) (Py.split s).
Proof.
  induction s as [|c s IH]; [constructor|].
  rewrite split_cons. destruct (Py.isspace c) eqn:Hc; [exact IH|].
  assert (H1 : Text.is_word (String c EmptyString) = true)
    by (rewrite is_word_cons, Hc; reflexivity).
  destruct s as [|d s']; [by repeat constructor|].
  destruct (Py.isspace d).
  - by constructor.
  - destruct (Py.split (String d s')) as [|w ws]; [by repeat constructor|].
    inversion IH as [|? ? Hw Hws]; subst. constructor; [|done].
    rewrite is_word_cons, Hc. simpl.
    by apply andb_true_iff in Hw as [_ ->].
Qed.

(** A word is its own split. *)
Lemma split_word w : Text.is_word w = true -> Py.split w = [w].
Proof.
  induction w as [|c w IH]; [done|].
  rewrite is_word_cons. intros [Hc Hw]%andb_true_iff.
  apply negb_true_iff in Hc. rewrite split_cons, Hc.
  destruct w as [|d w']; [done|].
  assert (Hd : Text.is_word (String d w') = true).
  { rewrite is_word_cons. exact Hw. }
  cbn [Text.blank_free] in Hw. apply andb_true_iff in Hw as [Hd' _].
  apply negb_true_iff in Hd'. rewrite Hd', (IH Hd). done.
Qed.

(** A word followed by a blank is the first word of the split. *)
Lemma split_word_blank w s :
  Text.is_word w = true -> Py.split (w +:+ " " +:+ s) = w :: Py.split s.
Proof.
  induction w as [|c w IH]; [done|].
  rewrite is_word_cons. intros [Hc Hw]%andb_true_iff.
  apply negb_true_iff in Hc. rewrite append_cons, split_cons, Hc.
  destruct w as [|d w'].
  - rewrite append_empty_l, append_cons, append_empty_l.
    change (Py.isspace " ") with true. cbv iota.
    by rewrite split_cons.
  - assert (Hd : Text.is_word (String d w') = true).
    { rewrite is_word_cons. exact Hw. }
    rewrite (IH Hd). rewrite append_cons.
    cbn [Text.blank_free] in Hw. apply andb_true_iff in Hw as [Hd' _].
    apply negb_true_iff in Hd'. by rewrite Hd'.
Qed.

Lemma join_cons2 sep x y l :
  Py.join sep (x :: y :: l) = x +:+ sep +:+ Py.join sep (y :: l).
Proof. reflexivity. Qed.

(** Joining words by single blanks and gluing blank-free text to the end
    splits back into the words, the last one carrying the glued text. *)
Lemma split_join_tail ws w t :
  Forall (fun w => Text.is_word w = true) (ws ++ [w]) ->
  Text.blank_free t = true ->
  Py.split (Py.join " " (ws ++ [w]) +:+ t) = ws ++ [w +:+ t].
Proof.
  intros Hws Ht. induction ws as [|x ws IH].
  - cbn [app] in Hws. apply (Forall_singleton _ w) in Hws. cbn [app Py.join].
    apply split_word, is_word_app; done.
  - apply Forall_cons in Hws as [Hx Hws].
    change ((x :: ws) ++ [w]) with (x :: (ws ++ [w])).
    destruct (ws ++ [w]) as [|y l] eqn:E; [by destruct ws|].
    rewrite join_cons2, !append_assoc, (split_word_blank _ _ Hx).
    rewrite <- E in *. rewrite (IH Hws). done.
Qed.

End Words.

(** ** Trimming and the frame request at their bounds *)

Section Bounds.
Import VideoProcessor.

(** [trim_summary] on a summary that is not empty. *)
Lemma trim_summary_target n S :
  S <> "" ->
  trim_summary (Some n) S
  = if negb (n =? 0) && (Z.of_nat (length (Py.split S)) >? n)
    then Py.join " " (Py.slice_to n (Py.split S)) +:+ "..."
    else S.
Proof.
  intros HS. unfold trim_summary. apply truthy_nonempty in HS.
  rewrite HS, andb_true_r. cbn [Py.truthy_int].
  by destruct (negb (n =? 0)).
Qed.

(** A summary cut to a target of [W] words has exactly [W] words: the first
    [W - 1] words of the chosen summary, then its [W]-th word with "..."
    glued to it. (The profile, if there is one, is one the profile block
    does not raise on.) *)
Theorem truncated_summary_has_target_words
    (self : Processor) audio_transcription visual_analysis (W : Z)
    (user_profile : option Data.UserProfile) :
  let S := choose_summary self audio_transcription
             (visual_scenes (frame_captions visual_analysis)) in
  let words := Py.split S in
  (forall profile,
     user_profile = Some profile -> Prompting.profile_exception profile = None) ->
  0 < W -> W < Z.of_nat (length words) ->
  exists result w,
    generate_summary self audio_transcription visual_analysis (Some W)
      user_profile = Py.Ok result
    /\ words !! (Z.to_nat W - 1)%nat = Some w
    /\ Py.split result = take (Z.to_nat W - 1) words ++ [w +:+ "..."]
    /\ length (Py.split result) = Z.to_nat W.
Proof.
  intros S words Hprofile HW Hlong.
  rewrite generate_summary_returns by done. eexists.
  fold S. rewrite trim_summary_target by apply choose_summary_nonempty.
  fold words.
  destruct (Z.eqb_spec W 0) as [|_]; [lia|].
  destruct (Z.gtb_spec (Z.of_nat (length words)) W) as [_|]; [|lia].
  cbn [negb andb]. unfold Py.slice_to.
  destruct (Z.leb_spec 0 W) as [_|]; [|lia].
  destruct (lookup_lt_is_Some_2 words (Z.to_nat W - 1)%nat) as [w Hw]; [lia|].
  exists w. split; [reflexivity|]. split; [exact Hw|].
  assert (Htake : take (Z.to_nat W) words = take (Z.to_nat W - 1) words ++ [w]).
  { replace (Z.to_nat W) with (Datatypes.S (Z.to_nat W - 1)%nat) at 1 by lia.
    by apply take_S_r. }
  assert (Hsplit :
            Py.split (Py.join " " (take (Z.to_nat W) words) +:+ "...")
            = take (Z.to_nat W - 1) words ++ [w +:+ "..."]).
  { rewrite Htake. apply split_join_tail; [|reflexivity].
    rewrite <- Htake. apply Forall_take, split_words. }
  split; [exact Hsplit|].
  rewrite Hsplit, length_app, length_take. simpl. lia.
Qed.

Lemma truncated_summary_has_target_words_witness :
  generate_summary Sample.gemini_only "Hello there."
    (analyze_visual_content Sample.gemini_only [[(1, 2, 3)]]) (Some 3) None
  = Py.Ok "A dog plays..."
  /\ Py.split "A dog plays..." = ["A"; "dog"; "plays..."].
Proof.
  destruct (truncated_summary_has_target_words Sample.gemini_only "Hello there."
              (analyze_visual_content Sample.gemini_only [[(1, 2, 3)]]) 3 None)
    as (result & w & Hresult & Hw & Hsplit & _);
    [discriminate|lia|vm_compute; reflexivity|].
  split; [reflexivity|].
  vm_compute in Hresult. injection Hresult as <-.
  rewrite Hsplit. vm_compute in Hw. injection Hw as <-. reflexivity.
Defined.

(** A negative target [W] is taken for a target too: the last [-W] words
    are dropped and "..." is appended, whatever the length of the summary;
    once [-W] reaches the number of words nothing but "..." is left. (The
    profile, if there is one, is one the profile block does not raise
    on.) *)
Theorem negative_target_drops_trailing_words
    (self : Processor) audio_transcription visual_analysis (W : Z)
    (user_profile : option Data.UserProfile) :
  let S := choose_summary self audio_transcription
             (visual_scenes (frame_captions visual_analysis)) in
  let words := Py.split S in
  (forall profile,
     user_profile = Some profile -> Prompting.profile_exception profile = None) ->
  W < 0 ->
  exists result,
    generate_summary self audio_transcription visual_analysis (Some W)
      user_profile = Py.Ok result
    /\ result
       = Py.join " " (take (length words - Z.to_nat (- W))%nat words) +:+ "..."
    /\ (Z.of_nat (length words) <= - W -> result = "...").
Proof.
  intros S words Hprofile HW.
  rewrite generate_summary_returns by done. eexists. split; [reflexivity|].
  fold S. rewrite trim_summary_target by apply choose_summary_nonempty.
  fold words.
  destruct (Z.eqb_spec W 0) as [|_]; [lia|].
  destruct (Z.gtb_spec (Z.of_nat (length words)) W) as [_|]; [|lia].
  cbn [negb andb]. unfold Py.slice_to.
  destruct (Z.leb_spec 0 W) as [|_]; [lia|].
  split; [reflexivity|].
  intros Hall. replace (length words - Z.to_nat (- W))%nat with 0%nat by lia.
  reflexivity.
Qed.

Lemma negative_target_drops_trailing_words_witness :
  exists short all_gone,
    generate_summary Sample.gemini_only "Hello there."
      (analyze_visual_content Sample.gemini_only [[(1, 2, 3)]]) (Some (-2)) None
    = Py.Ok short
    /\ short = "A dog plays on..."
    /\ generate_summary Sample.gemini_only "Hello there."
         (analyze_visual_content Sample.gemini_only [[(1, 2, 3)]]) (Some (-9))
         None
       = Py.Ok all_gone
    /\ all_gone = "...".
Proof.
  destruct (negative_target_drops_trailing_words Sample.gemini_only
              "Hello there."
              (analyze_visual_content Sample.gemini_only [[(1, 2, 3)]]) (-2)
              None)
    as (short & Hshort & -> & _); [discriminate|lia|].
  destruct (negative_target_drops_trailing_words Sample.gemini_only
              "Hello there."
              (analyze_visual_content Sample.gemini_only [[(1, 2, 3)]]) (-9)
              None)
    as (all_gone & Hgone & _ & Hall); [discriminate|lia|].
  eexists _, _. split; [exact Hshort|]. split; [reflexivity|].
  split; [exact Hgone|]. apply Hall. vm_compute. discriminate.
Defined.

(** Without a configured provider, or with [use_llm] off, the summary is
    the offline template and neither the word target nor the user profile
    has an effect on the result of [process_video]. *)
Theorem offline_summary_ignores_target
    (self : Processor) (disk : gmap string Media) video_path num_frames
    use_llm target target' (user_profile user_profile' : option Data.UserProfile) :
  use_llm = false \/ (groq_client self = None /\ gemini_model self = None) ->
  process_video self disk video_path num_frames use_llm target user_profile
  = process_video self disk video_path num_frames use_llm target' user_profile'
  /\ (forall transcription analysis summary,
        process_video self disk video_path num_frames use_llm target
          user_profile
        = Py.Ok (Completed transcription analysis summary) ->
        summary = offline_summary transcription analysis).
Proof.
  intros Hoff.
  assert (Hcond : use_llm
                  && (configured (groq_client self)
                      || configured (gemini_model self)) = false).
  { destruct Hoff as [-> | [-> ->]]; [reflexivity|apply andb_false_r]. }
  unfold process_video. rewrite Hcond.
  split; [reflexivity|].
  intros transcription analysis summary.
  destruct (extract_keyframes disk video_path num_frames) as [[|f fs]|];
    [discriminate| |discriminate].
  by intros [= <- <- <-].
Qed.

Lemma offline_summary_ignores_target_witness :
  process_video Sample.threshold_reader Sample.uploads "uploads/clip.mp4" 2 true
    (Some 3) None
  = process_video Sample.threshold_reader Sample.uploads "uploads/clip.mp4" 2 true
      None None.
Proof.
  apply (offline_summary_ignores_target Sample.threshold_reader Sample.uploads
           "uploads/clip.mp4" 2 true (Some 3) None None None).
  right. split; reflexivity.
Defined.

(** A request for no frames, or a file that reports no frames, never
    divides by zero: the sampler selects nothing and [process_video] returns
    its error dict. *)
Theorem empty_selection_gives_error_dict
    (self : Processor) (disk : gmap string Media) video_path cap num_frames
    use_llm target (user_profile : option Data.UserProfile) :
  disk !! video_path = Some cap ->
  isOpened cap = true ->
  num_frames <= 0 \/ CAP_PROP_FRAME_COUNT cap <= 0 ->
  frame_indices (CAP_PROP_FRAME_COUNT cap) num_frames = []
  /\ extract_keyframes disk video_path num_frames = Py.Ok []
  /\ process_video self disk video_path num_frames use_llm target user_profile
     = Py.Ok (ErrorResult "Could not extract frames from video").
Proof.
  intros Hfile Hopen Hnone.
  assert (Hsel : frame_indices (CAP_PROP_FRAME_COUNT cap) num_frames = []).
  { apply length_zero_iff_nil. rewrite frame_indices_length. lia. }
  unfold process_video, extract_keyframes. rewrite Hfile, Hopen, Hsel.
  done.
Qed.

Lemma empty_selection_gives_error_dict_witness :
  process_video Sample.gemini_only Sample.uploads "uploads/clip.mp4" 0 true None
    None
  = Py.Ok (ErrorResult "Could not extract frames from video").
Proof.
  apply (empty_selection_gives_error_dict Sample.gemini_only Sample.uploads
           "uploads/clip.mp4" Sample.five_frames 0 true None None).
  - reflexivity.
  - reflexivity.
  - left. lia.
Defined.

End Bounds.

(** ** From the analysis to the composer *)

Section Scenes.
Import VideoProcessor.

Lemma contains_char_step ch c s :
  Py.contains (String ch EmptyString) (String c s)
  = Ascii.eqb ch c || Py.contains (String ch EmptyString) s.
Proof.
  unfold Py.contains. rewrite partition_cons, strip_prefix_cons.
  destruct (Ascii.eqb ch c); [reflexivity|].
  by destruct (Py.partition (String ch EmptyString) s) as [[? ?]|].
Qed.

(** The on-screen-text marker cannot start inside a text without "|". *)
Lemma marker_not_at_head c a rest :
  Py.contains "|" (String c a) = false ->
  Py.strip_prefix " | On-screen text:" (String c (a +:+ " | On-screen text:" +:+ rest))
  = None.
Proof.
  rewrite contains_char_step. intros [_ Ha]%orb_false_elim.
  rewrite strip_prefix_cons. destruct (Ascii.eqb " " c); [|done].
  destruct a as [|d a'].
  - reflexivity.
  - rewrite contains_char_step in Ha. apply orb_false_elim in Ha as [Hd _].
    rewrite append_cons, strip_prefix_cons, Hd. done.
Qed.

Lemma marker_absent a :
  Py.contains "|" a = false -> Py.partition " | On-screen text:" a = None.
Proof.
  induction a as [|c a IH]; [done|]. intros H.
  pose proof H as H'. rewrite contains_char_step in H'.
  apply orb_false_elim in H' as [_ Ha].
  rewrite partition_cons, (IH Ha), strip_prefix_cons.
  destruct (Ascii.eqb " " c); [|done].
  destruct a as [|d a']; [done|].
  rewrite contains_char_step in Ha. apply orb_false_elim in Ha as [Hd _].
  by rewrite strip_prefix_cons, Hd.
Qed.

Lemma marker_first a rest :
  Py.contains "|" a = false ->
  Py.partition " | On-screen text:" (a +:+ " | On-screen text:" +:+ rest)
  = Some (a, rest).
Proof.
  induction a as [|c a IH]; intros H; [reflexivity|].
  pose proof H as H'. rewrite contains_char_step in H'.
  apply orb_false_elim in H' as [_ Ha].
  rewrite append_cons, partition_cons, (marker_not_at_head _ _ _ H), (IH Ha).
  done.
Qed.

(** What [generate_summary] makes of one labelled caption. *)
Lemma visual_scene_of_line self i frame :
  Py.contains "|" (caption_frame self frame) = false ->
  visual_scenes [caption_line self i frame] = [Py.strip (caption_frame self frame)].
Proof.
  intros Hbar. unfold visual_scenes. cbn [omap list_omap].
  unfold Py.contains at 1. unfold Py.split1_last.
  rewrite caption_line_parts, partition_label by apply frame_label_no_colon.
  destruct (extract_text_from_frame self frame) as [|t ocr].
  - rewrite append_empty_r. unfold Py.contains.
    by rewrite (marker_absent _ Hbar).
  - change (" | On-screen text: " +:+ Py.join ", " (t :: ocr))
      with (" | On-screen text:" +:+ " " +:+ Py.join ", " (t :: ocr)).
    unfold Py.contains, Py.split_first.
    by rewrite (marker_first _ _ Hbar).
Qed.

Lemma visual_scenes_app l1 l2 :
  visual_scenes (l1 ++ l2) = visual_scenes l1 ++ visual_scenes l2.
Proof. unfold visual_scenes. apply omap_app. Qed.

(** The scenes the composer works with are the captioner's texts, stripped,
    one per frame and in frame order: the label and the on-screen-text
    suffix that the analysis added are taken off again, provided no caption
    contains "|". *)
Theorem scenes_are_the_captions (self : Processor) (frames : list Frame) :
  (forall frame, frame ∈ frames ->
                 Py.contains "|" (caption_frame self frame) = false) ->
  visual_scenes (frame_captions (analyze_visual_content self frames))
  = (fun frame => Py.strip (caption_frame self frame)) <$> frames.
Proof.
  rewrite analyze_frame_captions.
  induction frames as [|frame frames IH] using rev_ind; intros Hbar.
  - reflexivity.
  - rewrite imap_app, visual_scenes_app, fmap_app, IH.
    + cbn [imap fmap list_fmap]. f_equal.
      apply visual_scene_of_line, Hbar. set_solver.
    + intros f Hf. apply Hbar. set_solver.
Qed.

Lemma scenes_are_the_captions_witness :
  visual_scenes
    (frame_captions (analyze_visual_content Sample.gemini_only [[]; [(1, 2, 3)]]))
  = ["a dog on grass"; "a dog on grass"].
Proof.
  rewrite (scenes_are_the_captions Sample.gemini_only [[]; [(1, 2, 3)]]).
  - reflexivity.
  - intros frame _. reflexivity.
Defined.

Lemma analyze_loop_texts self frames : forall i captions texts,
  (analyze_loop self i frames captions texts).2
  = texts ++ concat (extract_text_from_frame self <$> frames).
Proof.
  induction frames as [|frame frames IH]; intros i captions texts; simpl.
  - by rewrite app_nil_r.
  - by rewrite IH, <- app_assoc.
Qed.

(** The texts the analysis collects are the texts of all frames, in frame
    order and with repetitions: a text is collected exactly when some frame
    has a detection of it whose confidence is above 0.5. *)
Theorem collected_texts_are_confident_detections
    (self : Processor) (frames : list Frame) :
  ocr_texts (analyze_visual_content self frames)
  = concat (extract_text_from_frame self <$> frames)
  /\ (forall t,
        t ∈ ocr_texts (analyze_visual_content self frames) <->
        exists frame results d,
          frame ∈ frames /\ ocr_reader self frame = Some results
          /\ d ∈ results /\ d.1.2 = t /\ (0.5 <? d.2)%float = true).
Proof.
  assert (Htexts : ocr_texts (analyze_visual_content self frames)
                   = concat (extract_text_from_frame self <$> frames)).
  { unfold analyze_visual_content.
    pose proof (analyze_loop_texts self frames 0 [] []) as H.
    by destruct (analyze_loop self 0 frames [] []) as [captions texts]. }
  split; [exact Htexts|]. intros t. rewrite Htexts.
  rewrite list_elem_of_In, in_concat. split.
  - intros (l & Hl & Ht). apply list_elem_of_In, list_elem_of_fmap in Hl
      as (frame & -> & Hframe).
    unfold extract_text_from_frame in Ht.
    destruct (ocr_reader self frame) as [results|] eqn:E; [|done].
    apply list_elem_of_In, list_elem_of_fmap in Ht as (d & -> & Hd).
    apply (elem_of_filter (fun text => (0.5 <? text.2)%float)) in Hd as [Hd Hc].
    by exists frame, results, d.
  - intros (frame & results & d & Hframe & Hocr & Hd & <- & Hc).
    exists (extract_text_from_frame self frame). split.
    + apply list_elem_of_In, list_elem_of_fmap. by exists frame.
    + unfold extract_text_from_frame. rewrite Hocr.
      apply list_elem_of_In, list_elem_of_fmap. exists d. split; [done|].
      by apply (elem_of_filter (fun text => (0.5 <? text.2)%float)).
Qed.

Lemma collected_texts_are_confident_detections_witness :
  ocr_texts (analyze_visual_content Sample.gemini_only [[]; [(1, 2, 3)]])
  = ["PARK"; "PARK"].
Proof.
  destruct (collected_texts_are_confident_detections Sample.gemini_only
              [[]; [(1, 2, 3)]]) as [-> _].
  reflexivity.
Defined.

End Scenes.

(** ** A job from upload to result *)

Section Lifecycle.
Import Data VideoProcessor App.

(** The worker of a job that the registry does not hold: the first
    assignment of the [try] block raises [KeyError], so does the first
    assignment of the handler, and the exception leaves the thread with
    nothing written; a database row of that job keeps its status. *)
Theorem worker_without_registry_entry video_processor st job_id video_path
    num_frames summary_style summary_format summary_length_words user_profile
    now :
  jobs st !! job_id = None ->
  process_video_job video_processor st job_id video_path num_frames
    summary_style summary_format summary_length_words user_profile now
  = (st, Some (Py.KeyError job_id))
  /\ forall user_id,
       get_job_status st user_id job_id
       = match select_job st job_id user_id with
         | Some job =>
             (StatusBody job_id (r_status job) (r_progress job) (r_step job)
                (eta_seconds (r_status job) (r_progress job)), 200)
         | None => (ErrorBody "Job not found", 404)
         end.
Proof.
  intros Hnone. split.
  - unfold process_video_job, try_block, except_block. by rewrite !Hnone.
  - intros user_id. unfold get_job_status. rewrite Hnone.
    by destruct (select_job st job_id user_id).
Qed.

Lemma worker_without_registry_entry_witness :
  process_video_job (Some Sample.gemini_only) Sample.restarted "job-1"
    "uploads/f0_clip.mp4" 10 "default" "paragraph" None None 300
  = (Sample.restarted, Some (Py.KeyError "job-1")).
Proof.
  apply (worker_without_registry_entry (Some Sample.gemini_only)
           Sample.restarted "job-1" "uploads/f0_clip.mp4" 10 "default"
           "paragraph" None None 300).
  reflexivity.
Defined.



(** [process_video] on a non-empty list of frames, when a provider is
    configured and the profile block raises. *)
Lemma process_video_raises (self : Processor) (disk : gmap string Media)
    video_path num_frames target profile frames e :
  extract_keyframes disk video_path num_frames = Py.Ok frames ->
  frames <> [] ->
  configured (groq_client self) || configured (gemini_model self) = true ->
  Prompting.profile_exception profile = Some e ->
  process_video self disk video_path num_frames true target (Some profile)
  = Py.Raise e.
Proof.
  intros Hframes Hne Hconfigured Hprofile.
  unfold process_video, generate_summary. rewrite Hframes.
  destruct frames as [|frame frames]; [done|].
  by rewrite Hconfigured, Hprofile.
Qed.




(** A profile the profile block raises on fails the job. For a registered
    job whose file gives at least one frame, run by a processor with a
    provider configured: the exception leaves [generate_summary] and
    [process_video], the worker ends without an exception of its own, the
    status query reports [failed] with the text of the exception in the step
    label, the result query answers 400, and the media file stays on
    disk. *)
Theorem malformed_profile_fails_job self st job_id video_path num_frames
    summary_style summary_format summary_length_words profile now e r frames ex :
  jobs st !! job_id = Some e ->
  db_jobs st !! job_id = Some r ->
  extract_keyframes (disk st) video_path num_frames = Py.Ok frames ->
  frames <> [] ->
  configured (groq_client self) || configured (gemini_model self) = true ->
  Prompting.profile_exception profile = Some ex ->
  exists st',
    process_video_job (Some self) st job_id video_path num_frames
      summary_style summary_format summary_length_words (Some profile) now
    = (st', None)
    /\ get_job_status st' (r_user_id r) job_id
       = (StatusBody job_id "failed" 10 ("Error: " +:+ Py.str_exn ex) 0, 200)
    /\ get_job_result st' (r_user_id r) job_id
       = (ErrorBody "Job not completed yet", 400)
    /\ disk st' = disk st.
Proof.
  intros He Hr Hframes Hne Hconfigured Hprofile.
  rewrite (process_video_job_run _ _ _ _ _ _ _ _ _ _ e He).
  unfold run_pipeline.
  rewrite (process_video_raises self _ _ _ _ profile frames ex) by done.
  eexists. split; [reflexivity|].
  unfold get_job_status, get_job_result, select_job. cbn [db_jobs jobs disk].
  rewrite lookup_alter_eq, Hr, lookup_insert_eq.
  cbn [fmap option_fmap option_map]. cbn [update_failed r_user_id r_status].
  by rewrite String.eqb_refl.
Qed.

Lemma malformed_profile_fails_job_witness :
  exists st',
    process_video_job (Some Sample.gemini_only) Sample.queued "job-1"
      "uploads/f0_clip.mp4" 10 "default" "paragraph" None
      (Some {| p_id := "user-1"; p_expertise := JArray [JInt 1; JInt 2];
               p_summaryPreferences := JObject [] |}) 200
    = (st', None)
    /\ get_job_status st' "user-1" "job-1"
       = (StatusBody "job-1" "failed" 10
            "Error: sequence item 0: expected str instance, int found" 0, 200).
Proof.
  assert (Hrow : exists r, db_jobs Sample.queued !! "job-1" = Some r
                           /\ r_user_id r = "user-1")
    by (vm_compute; eexists; split; reflexivity).
  destruct Hrow as (r & Hr & Hu).
  assert (Hframes : exists frames,
             extract_keyframes (disk Sample.queued) "uploads/f0_clip.mp4" 10
             = Py.Ok frames /\ frames <> [])
    by (eexists; split; [vm_compute; reflexivity|discriminate]).
  destruct Hframes as (frames & Hframes & Hne).
  destruct (malformed_profile_fails_job Sample.gemini_only Sample.queued "job-1"
              "uploads/f0_clip.mp4" 10 "default" "paragraph" None
              {| p_id := "user-1"; p_expertise := JArray [JInt 1; JInt 2];
                 p_summaryPreferences := JObject [] |} 200 _ r frames _
              ltac:(vm_compute; reflexivity) Hr Hframes Hne eq_refl eq_refl)
    as (st' & Hrun & Hstatus & _).
  exists st'. rewrite Hu in Hstatus. by split.
Defined.

(** What the owner sees of a job whose file gave no frame: the worker stores
    the error dict as the result, so the result query answers 200 with an
    empty summary, an empty transcript and no caption. *)
Theorem frameless_job_result_is_empty self st job_id video_path num_frames
    summary_style summary_format summary_length_words user_profile now e r :
  jobs st !! job_id = Some e ->
  db_jobs st !! job_id = Some r ->
  extract_keyframes (disk st) video_path num_frames = Py.Ok [] ->
  exists st',
    process_video_job (Some self) st job_id video_path num_frames
      summary_style summary_format summary_length_words user_profile now
    = (st', None)
    /\ get_job_result st' (r_user_id r) job_id
       = (ResultBody job_id "" "" [] "" [] None "paragraph", 200).
Proof.
  intros He Hr Hframes.
  rewrite (process_video_job_run _ _ _ _ _ _ _ _ _ _ e He).
  unfold run_pipeline, process_video. rewrite Hframes.
  eexists. split; [reflexivity|].
  unfold get_job_result, select_job. cbn [db_jobs].
  rewrite lookup_alter_eq, Hr. cbn [fmap option_fmap option_map].
  cbn [update_done r_user_id]. by rewrite String.eqb_refl.
Qed.

Lemma frameless_job_result_is_empty_witness :
  exists st',
    process_video_job (Some Sample.gemini_only) Sample.blank_queued "job-2"
      "uploads/f1_blank.mp4" 10 "default" "paragraph" None None 200
    = (st', None)
    /\ get_job_result st' "user-1" "job-2"
       = (ResultBody "job-2" "" "" [] "" [] None "paragraph", 200).
Proof.
  assert (Hrow : exists r, db_jobs Sample.blank_queued !! "job-2" = Some r
                           /\ r_user_id r = "user-1")
    by (vm_compute; eexists; split; reflexivity).
  destruct Hrow as (r & Hr & Hu).
  destruct (frameless_job_result_is_empty Sample.gemini_only Sample.blank_queued
              "job-2" "uploads/f1_blank.mp4" 10 "default" "paragraph" None None
              200 _ r ltac:(vm_compute; reflexivity) Hr
              ltac:(vm_compute; reflexivity)) as (st' & Hrun & Hres).
  exists st'. rewrite Hu in Hres. by split.
Defined.

(** What the owner sees of a job whose pipeline raised: the status query
    reports [failed] with the progress of the first stage, the exception
    text in the step label and no waiting time, and the result query is
    refused with 400. *)
Theorem failed_job_queries video_processor st job_id video_path num_frames
    summary_style summary_format summary_length_words user_profile now e r ex :
  jobs st !! job_id = Some e ->
  db_jobs st !! job_id = Some r ->
  run_pipeline video_processor (disk st) video_path num_frames
    summary_length_words user_profile = Py.Raise ex ->
  exists st',
    process_video_job video_processor st job_id video_path num_frames
      summary_style summary_format summary_length_words user_profile now
    = (st', None)
    /\ get_job_status st' (r_user_id r) job_id
       = (StatusBody job_id "failed" 10 ("Error: " +:+ Py.str_exn ex) 0, 200)
    /\ get_job_result st' (r_user_id r) job_id
       = (ErrorBody "Job not completed yet", 400)
    /\ disk st' = disk st.
Proof.
  intros He Hr Hrun.
  rewrite (process_video_job_run _ _ _ _ _ _ _ _ _ _ e He), Hrun.
  eexists. split; [reflexivity|].
  unfold get_job_status, get_job_result, select_job. cbn [db_jobs jobs disk].
  rewrite lookup_alter_eq, Hr, lookup_insert_eq.
  cbn [fmap option_fmap option_map]. cbn [update_failed r_user_id r_status].
  by rewrite String.eqb_refl.
Qed.

Lemma failed_job_queries_witness :
  exists st',
    process_video_job None Sample.queued "job-1" "uploads/f0_clip.mp4" 10
      "default" "paragraph" None None 200
    = (st', None)
    /\ get_job_result st' "user-1" "job-1"
       = (ErrorBody "Job not completed yet", 400).
Proof.
  assert (Hrow : exists r, db_jobs Sample.queued !! "job-1" = Some r
                           /\ r_user_id r = "user-1")
    by (vm_compute; eexists; split; reflexivity).
  destruct Hrow as (r & Hr & Hu).
  destruct (failed_job_queries None Sample.queued "job-1" "uploads/f0_clip.mp4"
              10 "default" "paragraph" None None 200 _ r _
              ltac:(vm_compute; reflexivity) Hr eq_refl)
    as (st' & Hrun & _ & Hres & _).
  exists st'. rewrite Hu in Hres. by split.
Defined.

End Lifecycle.

(** ** Rejected uploads *)

Section Rejections.
Import Data VideoProcessor App.

(** The upload handler answers 202, 400 or 500. It starts a worker exactly
    when it answers 202, and then the job is in the registry and in the
    database. It answers 400 exactly when the request has no file or a file
    without a name, and then it leaves the state as it was. Whenever it
    does not answer 202 the table of jobs is unchanged; a [num_frames]
    field that [int] rejects gives 500 with the state as it was. *)
Theorem upload_starts_worker_only_when_accepted
    (json_loads : string -> option Json) (int : string -> Py.result Z)
    (secure_filename : string -> string) (UPLOAD_FOLDER : string)
    st request file_uuid job_uuid now :
  let out :=
    upload_video json_loads int secure_filename UPLOAD_FOLDER st request
      file_uuid job_uuid now in
  let code := out.1.1.2 in
  (code = 202 \/ code = 400 \/ code = 500)
  /\ (is_Some out.2 <-> code = 202)
  /\ (code = 400 <->
      files request !! "file" = None
      \/ exists file, files request !! "file" = Some file /\ filename file = "")
  /\ (code = 400 -> out.1.2 = st)
  /\ (code = 202 ->
      is_Some (jobs out.1.2 !! job_uuid) /\ is_Some (db_jobs out.1.2 !! job_uuid))
  /\ (code <> 202 -> db_jobs out.1.2 = db_jobs st)
  /\ (forall file v e,
        files request !! "file" = Some file -> filename file <> "" ->
        form request !! "num_frames" = Some v -> int v = Py.Raise e ->
        out = ((ErrorBody (Py.str_exn e), 500), st, None)).
Proof.
  intros out code. subst code out. unfold upload_video.
  destruct (files request !! "file") as [file|] eqn:Hfile.
  2:{ cbn. repeat split; try done; try (intros; lia); try naive_solver. }
  destruct (Py.truthy (filename file)) eqn:Hname; cbn [negb].
  2:{ apply truthy_empty in Hname. cbn. repeat split; try done;
        try (intros; lia); try naive_solver. }
  apply truthy_nonempty in Hname.
  assert (Hnot400 :
            ~ (Some file = None
               \/ exists file0, Some file = Some file0 /\ filename file0 = ""))
    by (intros [|(? & [= <-] & ?)]; done).
  destruct (match form request !! "num_frames" with
            | Some v => int v
            | None => Py.Ok 10
            end) as [num_frames|e] eqn:Hn.
  2:{ cbn. repeat split; try done; try (intros; lia); try naive_solver.
      intros file0 v e0 [= <-] _ Hv He0. rewrite Hv, He0 in Hn.
      by injection Hn as <-. }
  cbv zeta.
  destruct (negb _).
  { cbn. repeat split; try done; try (intros; lia); try naive_solver.
    intros file0 v e0 [= <-] _ Hv He0. rewrite Hv, He0 in Hn. done. }
  destruct (db_jobs st !! job_uuid) as [taken|] eqn:Hrow; cbn.
  - repeat split; try done; try (intros; lia); try naive_solver.
    intros file0 v e0 [= <-] _ Hv He0. rewrite Hv, He0 in Hn. done.
  - repeat split; try done; try (intros; lia); try naive_solver;
      try (rewrite lookup_insert_eq; by eexists).
    intros file0 v e0 [= <-] _ Hv He0. rewrite Hv, He0 in Hn. done.
Qed.

Lemma upload_starts_worker_only_when_accepted_witness :
  upload_video Sample.json_loads Sample.int Sample.secure_filename "uploads"
    Sample.queued
    {| files := Sample.request.(files); form := {[ "num_frames" := "ten" ]};
       jwt_identity := "user-1" |} "f2" "job-3" 300
  = ((ErrorBody "invalid literal for int() with base 10: 'ten'", 500),
     Sample.queued, None).
Proof.
  destruct (upload_starts_worker_only_when_accepted Sample.json_loads Sample.int
              Sample.secure_filename "uploads" Sample.queued
              {| files := Sample.request.(files);
                 form := {[ "num_frames" := "ten" ]};
                 jwt_identity := "user-1" |} "f2" "job-3" 300)
    as (_ & _ & _ & _ & _ & _ & Hbad).
  apply (Hbad {| filename := "clip.mp4"; stream := Sample.five_frames |} "ten"
           (Py.ValueError "invalid literal for int() with base 10: 'ten'")).
  - reflexivity.
  - discriminate.
  - reflexivity.
  - reflexivity.
Defined.

End Rejections.

(** ** Accounts and profiles *)

Section AccountFacts.
Import Accounts.

Lemma by_email_None users email :
  by_email users email = None <-> email ∉ a_email <$> users.
Proof.
  unfold by_email. induction users as [|u users IH]; simpl.
  - split; [intros _; apply not_elem_of_nil|done].
  - rewrite not_elem_of_cons. destruct (String.eqb_spec (a_email u) email).
    + split; [done|]. intros [? _]. congruence.
    + rewrite IH. split; [|tauto]. intros H. split; [congruence|done].
Qed.

Lemma by_id_None users user_id :
  by_id users user_id = None <-> user_id ∉ a_id <$> users.
Proof.
  unfold by_id. induction users as [|u users IH]; simpl.
  - split; [intros _; apply not_elem_of_nil|done].
  - rewrite not_elem_of_cons. destruct (String.eqb_spec (a_id u) user_id).
    + split; [done|]. intros [? _]. congruence.
    + rewrite IH. split; [|tauto]. intros H. split; [congruence|done].
Qed.

Lemma by_email_Some users email u :
  by_email users email = Some u -> u ∈ users /\ a_email u = email.
Proof.
  unfold by_email. intros [H1 H2]%find_some.
  split; [by apply list_elem_of_In|by apply String.eqb_eq].
Qed.

Lemma by_id_Some users user_id u :
  by_id users user_id = Some u -> u ∈ users /\ a_id u = user_id.
Proof.
  unfold by_id. intros [H1 H2]%find_some.
  split; [by apply list_elem_of_In|by apply String.eqb_eq].
Qed.

Lemma find_snoc {A} (f : A -> bool) l x :
  List.find f (l ++ [x])
  = match List.find f l with
    | Some y => Some y
    | None => if f x then Some x else None
    end.
Proof.
  induction l as [|y l IH]; simpl; [done|]. by destruct (f y).
Qed.

Lemma find_fmap_same {A} (f : A -> bool) (g : A -> A) l :
  (forall x, f (g x) = f x) ->
  List.find f (g <$> l) = g <$> List.find f l.
Proof.
  intros Hfg. induction l as [|y l IH]; simpl; [done|].
  rewrite Hfg. by destruct (f y).
Qed.

(** What [signup] returns, by cases. *)
Lemma signup_cases (generate_password_hash : string -> string -> string)
    (create_access_token : string -> string) users data user_uuid salt now :
  signup generate_password_hash create_access_token users data user_uuid salt now
  = match get (s_name data), get (s_email data), get (s_password data) with
    | Some name, Some email, Some password =>
        if Py.truthy name && Py.truthy email && Py.truthy password
        then match by_email users email with
             | Some _ => ((Error "User already exists", 400), users)
             | None =>
                 match by_id users user_uuid with
                 | Some _ =>
                     ((Error "UNIQUE constraint failed: users.id", 500), users)
                 | None =>
                     ((Session user_uuid (Some name) email
                         (get_default (s_role data) "user")
                         (create_access_token user_uuid), 201),
                      users
                      ++ [{| a_id := user_uuid; a_name := Some name;
                             a_email := email;
                             a_password_hash :=
                               generate_password_hash salt password;
                             a_bio := None;
                             a_role := get_default (s_role data) "user";
                             a_expertise :=
                               Some (match s_expertise data with
                                     | Some v => v
                                     | None => Data.JArray []
                                     end);
                             a_summary_preferences := Some default_preferences;
                             a_language := None; a_created_at := now |}])
                 end
             end
        else ((Error "Missing required fields", 400), users)
    | _, _, _ => ((Error "Missing required fields", 400), users)
    end.
Proof.
  unfold signup.
  destruct (get (s_name data)) as [name|]; [|done].
  destruct (get (s_email data)) as [email|]; [|done].
  destruct (get (s_password data)) as [password|]; [|done].
  by destruct (Py.truthy name), (Py.truthy email), (Py.truthy password).
Qed.

(** The primary key and the unique email survive every [signup] and every
    [update_profile], whatever the request. *)
Theorem handlers_keep_constraints
    (generate_password_hash : string -> string -> string)
    (create_access_token : string -> string) users :
  constraints users ->
  (forall data user_uuid salt now,
      constraints
        (signup generate_password_hash create_access_token users data
           user_uuid salt now).2)
  /\ (forall user_id data, constraints (update_profile users user_id data).2).
Proof.
  intros [Hids Hemails]. split.
  - intros data user_uuid salt now. rewrite signup_cases.
    destruct (get (s_name data)) as [name|]; [|done].
    destruct (get (s_email data)) as [email|]; [|done].
    destruct (get (s_password data)) as [password|]; [|done].
    destruct (_ && _); [|done].
    destruct (by_email users email) eqn:Hemail; [done|].
    destruct (by_id users user_uuid) eqn:Hid; [done|].
    apply by_email_None in Hemail. apply by_id_None in Hid.
    cbn [snd]. unfold constraints. rewrite !fmap_app. cbn [fmap list_fmap].
    split; apply NoDup_app; (split; [done|]);
      (split; [|apply NoDup_singleton]);
      intros x Hx ->%list_elem_of_singleton; done.
  - intros user_id data. unfold update_profile.
    destruct (negb (names_a_column data)); [done|]. cbn [snd].
    unfold constraints. rewrite <- !list_fmap_compose.
    assert (Hsame : forall (proj : User -> string),
               (forall u, proj (updated data u) = proj u) ->
               (proj ∘ (fun u => if String.eqb (a_id u) user_id
                                 then updated data u else u)) <$> users
               = proj <$> users).
    { intros proj Hproj. apply list_fmap_ext. intros i u _. simpl.
      destruct (String.eqb (a_id u) user_id); [apply Hproj|done]. }
    rewrite !Hsame by done. done.
Qed.

Lemma handlers_keep_constraints_witness :
  constraints
    (signup Demo.generate_password_hash Demo.create_access_token Demo.one_user
       Demo.bob "u-bob" "cl" 20).2.
Proof.
  apply (handlers_keep_constraints Demo.generate_password_hash
           Demo.create_access_token Demo.one_user).
  split; vm_compute; apply NoDup_singleton.
Defined.

End AccountFacts.

Section AccountFlows.
Import Accounts.

Lemma login_cases (check_password_hash : string -> string -> bool)
    (create_access_token : string -> string) users email password :
  email <> "" -> password <> "" ->
  login check_password_hash create_access_token users
    {| l_email := Text email; l_password := Text password |}
  = match by_email users email with
    | None => (Error "Invalid credentials", 401)
    | Some user =>
        if check_password_hash (a_password_hash user) password
        then (Session (a_id user) (a_name user) (a_email user) (a_role user)
                (create_access_token (a_id user)), 200)
        else (Error "Invalid credentials", 401)
    end.
Proof.
  intros He Hp. apply truthy_nonempty in He, Hp.
  unfold login. cbn [get l_email l_password]. rewrite He, Hp. cbn [negb orb].
  destruct (by_email users email) as [user|]; [|done].
  by destruct (check_password_hash _ _).
Qed.

(** Sign-up round trip. A sign-up with a name, a new email and a password
    answers 201; after it the same email and password log in as the new
    user (same id, name, role and token identity), a password that the hash
    check rejects gets 401, the new user's profile shows the stored
    expertise, the default preferences, no bio and language "en", and a
    log-in with any other email answers as it did before. *)
Theorem signup_then_login
    (generate_password_hash : string -> string -> string)
    (check_password_hash : string -> string -> bool)
    (create_access_token : string -> string)
    users data user_uuid salt now name email password :
  s_name data = Text name -> s_email data = Text email ->
  s_password data = Text password ->
  name <> "" -> email <> "" -> password <> "" ->
  by_email users email = None ->
  by_id users user_uuid = None ->
  check_password_hash (generate_password_hash salt password) password = true ->
  let role := get_default (s_role data) "user" in
  let session := Session user_uuid (Some name) email role
                   (create_access_token user_uuid) in
  exists users',
    signup generate_password_hash create_access_token users data user_uuid
      salt now
    = ((session, 201), users')
    /\ login check_password_hash create_access_token users'
         {| l_email := Text email; l_password := Text password |}
       = (session, 200)
    /\ (forall wrong,
          wrong <> "" ->
          check_password_hash (generate_password_hash salt password) wrong
          = false ->
          login check_password_hash create_access_token users'
            {| l_email := Text email; l_password := Text wrong |}
          = (Error "Invalid credentials", 401))
    /\ get_profile users' user_uuid
       = (Profile user_uuid (Some name) email None role
            (match s_expertise data with Some v => v | None => Data.JArray [] end)
            default_preferences "en", 200)
    /\ (forall other,
          get (l_email other) <> Some email ->
          login check_password_hash create_access_token users' other
          = login check_password_hash create_access_token users other).
Proof.
  intros Hn He Hp Hname Hemail Hpassword Hnew Hfresh Hcheck role session.
  rewrite signup_cases, Hn, He, Hp. cbn [get].
  pose proof Hname as Tn. pose proof Hemail as Te. pose proof Hpassword as Tp.
  apply truthy_nonempty in Tn, Te, Tp. rewrite Tn, Te, Tp. cbn [andb].
  rewrite Hnew, Hfresh. eexists. split; [reflexivity|].
  split; [|split; [|split]].
  - rewrite login_cases by done. unfold by_email. rewrite find_snoc.
    fold (by_email users email). rewrite Hnew. cbn [a_email].
    rewrite String.eqb_refl. cbn [a_password_hash]. by rewrite Hcheck.
  - intros wrong Hw Hbad. rewrite login_cases by done.
    unfold by_email. rewrite find_snoc.
    fold (by_email users email). rewrite Hnew. cbn [a_email].
    rewrite String.eqb_refl. cbn [a_password_hash]. by rewrite Hbad.
  - unfold get_profile, by_id. rewrite find_snoc.
    fold (by_id users user_uuid). rewrite Hfresh. cbn [a_id].
    by rewrite String.eqb_refl.
  - intros other Hother. unfold login.
    destruct (get (l_email other)) as [email'|]; [|done].
    destruct (get (l_password other)) as [password'|]; [|done].
    destruct (_ || _); [done|].
    unfold by_email. rewrite find_snoc. fold (by_email users email').
    destruct (by_email users email'); [done|]. cbn [a_email].
    destruct (String.eqb_spec email email'); [congruence|done].
Qed.

Lemma signup_then_login_witness :
  login Demo.check_password_hash Demo.create_access_token Demo.one_user
    {| l_email := Text "ada@example.org"; l_password := Text "s3cret" |}
  = (Session "u-ada" (Some "Ada") "ada@example.org" (Some "user") "token:u-ada",
     200).
Proof.
  destruct (signup_then_login Demo.generate_password_hash
              Demo.check_password_hash Demo.create_access_token [] Demo.ada
              "u-ada" "na" 10 "Ada" "ada@example.org" "s3cret")
    as (users' & Hsignup & Hlogin & _);
    [reflexivity|reflexivity|reflexivity|discriminate|discriminate|discriminate
    |reflexivity|reflexivity|reflexivity|].
  unfold Demo.one_user. rewrite Hsignup. exact Hlogin.
Defined.

(** [signup] only ever appends: it answers 201 exactly when it has added
    one row, which carries the drawn id and an email that no row had; in
    every other case the table is as it was. A request whose name, email
    and password are all texts that are not empty, and whose email is
    taken, gets 400 "User already exists" and leaves the table as it
    was. *)
Theorem signup_only_appends
    (generate_password_hash : string -> string -> string)
    (create_access_token : string -> string)
    users data user_uuid salt now :
  let out :=
    signup generate_password_hash create_access_token users data user_uuid
      salt now in
  ((out.1.2 = 201
    /\ exists row, out.2 = users ++ [row] /\ a_id row = user_uuid
                   /\ get (s_email data) = Some (a_email row)
                   /\ by_email users (a_email row) = None)
   \/ (out.1.2 <> 201 /\ out.2 = users))
  /\ (forall name email password taken,
        get (s_name data) = Some name -> get (s_email data) = Some email ->
        get (s_password data) = Some password ->
        name <> "" -> email <> "" -> password <> "" ->
        by_email users email = Some taken ->
        out = ((Error "User already exists", 400), users)).
Proof.
  intros out. subst out. rewrite signup_cases. split.
  - destruct (get (s_name data)) as [name|]; [|by right].
    destruct (get (s_email data)) as [email|]; [|by right].
    destruct (get (s_password data)) as [password|]; [|by right].
    destruct (_ && _); [|by right].
    destruct (by_email users email) eqn:Hemail; [by right|].
    destruct (by_id users user_uuid) eqn:Hid; [by right|].
    left. split; [done|]. eexists. by repeat split.
  - intros name email password taken -> -> -> Hn He Hp Htaken.
    apply truthy_nonempty in Hn, He, Hp. by rewrite Hn, He, Hp, Htaken.
Qed.

Lemma signup_only_appends_witness :
  signup Demo.generate_password_hash Demo.create_access_token Demo.two_users
    {| s_name := Text "Eve"; s_email := Text "ada@example.org";
       s_password := Text "x"; s_role := Absent; s_expertise := None |}
    "u-eve" "zz" 30
  = ((Error "User already exists", 400), Demo.two_users).
Proof.
  destruct (signup_only_appends Demo.generate_password_hash
              Demo.create_access_token Demo.two_users
              {| s_name := Text "Eve"; s_email := Text "ada@example.org";
                 s_password := Text "x"; s_role := Absent;
                 s_expertise := None |} "u-eve" "zz" 30) as [_ Htaken].
  assert (Hrow : exists taken,
             by_email Demo.two_users "ada@example.org" = Some taken)
    by (vm_compute; by eexists).
  destruct Hrow as [taken Hrow].
  apply (Htaken "Eve" "ada@example.org" "x" taken); try reflexivity;
    try discriminate.
  exact Hrow.
Defined.

(** A log-in that fails on the email and one that fails on the password
    get the same answer: with both fields filled in, [login] answers 401
    "Invalid credentials" exactly when no row has the email or the hash
    check rejects the password, and 200 otherwise. *)
Theorem login_hides_which_part_failed
    (check_password_hash : string -> string -> bool)
    (create_access_token : string -> string) users email password :
  email <> "" -> password <> "" ->
  let answer :=
    login check_password_hash create_access_token users
      {| l_email := Text email; l_password := Text password |} in
  (by_email users email = None -> answer = (Error "Invalid credentials", 401))
  /\ (forall user,
        by_email users email = Some user ->
        check_password_hash (a_password_hash user) password = false ->
        answer = (Error "Invalid credentials", 401))
  /\ (answer.2 = 200 <->
      exists user, by_email users email = Some user
                   /\ check_password_hash (a_password_hash user) password = true)
  /\ (answer.2 = 200 \/ answer = (Error "Invalid credentials", 401)).
Proof.
  intros He Hp answer. subst answer. rewrite login_cases by done.
  destruct (by_email users email) as [user|].
  - destruct (check_password_hash (a_password_hash user) password) eqn:Hc.
    + split; [done|]. split; [intros user0 [= <-] Hf; congruence|].
      split; [split; [by eexists|done]|by left].
    + split; [done|]. split; [done|].
      split; [split; [done|intros (? & [= <-] & ?); congruence]|by right].
  - split; [done|]. split; [done|].
    split; [split; [done|by intros (? & ? & _)]|by right].
Qed.

Lemma login_hides_which_part_failed_witness :
  login Demo.check_password_hash Demo.create_access_token Demo.two_users
    {| l_email := Text "nobody@example.org"; l_password := Text "s3cret" |}
  = login Demo.check_password_hash Demo.create_access_token Demo.two_users
      {| l_email := Text "ada@example.org"; l_password := Text "guess" |}.
Proof.
  destruct (login_hides_which_part_failed Demo.check_password_hash
              Demo.create_access_token Demo.two_users "nobody@example.org"
              "s3cret") as (Hnone & _); [discriminate|discriminate|].
  destruct (login_hides_which_part_failed Demo.check_password_hash
              Demo.create_access_token Demo.two_users "ada@example.org"
              "guess") as (_ & Hbad & _); [discriminate|discriminate|].
  rewrite Hnone by reflexivity.
  assert (Hrow : exists user,
             by_email Demo.two_users "ada@example.org" = Some user
             /\ Demo.check_password_hash (a_password_hash user) "guess" = false)
    by (vm_compute; eexists; split; reflexivity).
  destruct Hrow as (user & Hrow & Hcheck).
  by rewrite (Hbad user Hrow Hcheck).
Defined.

End AccountFlows.

Section ProfileFlows.
Import Accounts.

Lemma by_id_updated users user_id data k :
  by_id ((fun u => if String.eqb (a_id u) user_id then updated data u else u)
           <$> users) k
  = (fun u => if String.eqb (a_id u) user_id then updated data u else u)
      <$> by_id users k.
Proof.
  unfold by_id. apply find_fmap_same. intros u.
  by destruct (String.eqb (a_id u) user_id).
Qed.






Lemma profile_columns_lookup users user_id :
  profile_columns users !! user_id
  = (fun u => {| App.u_expertise := a_expertise u;
                 App.u_summary_preferences := a_summary_preferences u |})
      <$> by_id users user_id.
Proof.
  unfold profile_columns, by_id. induction users as [|u users IH]; [done|].
  cbn [fmap list_fmap list_to_map foldr List.find fst snd].
  destruct (String.eqb_spec (a_id u) user_id) as [<-|Hne].
  - by rewrite lookup_insert_eq.
  - by rewrite lookup_insert_ne.
Qed.



End ProfileFlows.

(** ** The job list *)

Section Listings.
Import Data VideoProcessor App Listing.

#[local] Instance newer_first_total : Total newer_first.
Proof. intros a b. unfold newer_first. lia. Qed.

#[local] Instance newer_first_trans : Transitive newer_first.
Proof. intros a b c. unfold newer_first. lia. Qed.

Lemma rows_of_spec st user_id r :
  r ∈ rows_of st user_id
  <-> r_user_id r = user_id /\ exists k, db_jobs st !! k = Some r.
Proof.
  unfold rows_of.
  rewrite (list_elem_of_filter (fun r => r_user_id r = user_id)).
  rewrite list_elem_of_fmap. split.
  - intros (Hu & [k r'] & -> & Hin). apply elem_of_map_to_list in Hin. eauto.
  - intros (Hu & k & Hk). split; [done|]. exists (k, r). split; [done|].
    by apply elem_of_map_to_list.
Qed.

Lemma sorted_rows_sorted l :
  StronglySorted newer_first (merge_sort newer_first l).
Proof. apply StronglySorted_merge_sort; apply _. Qed.

(** [LIMIT] keeps a prefix. *)
Lemma sql_limit_split {A} limit (l : list A) :
  exists rest, l = sql_limit limit l ++ rest.
Proof.
  unfold sql_limit. destruct (limit <? 0).
  - exists []. by rewrite app_nil_r.
  - exists (drop (Z.to_nat limit) l). by rewrite take_drop.
Qed.

Lemma sql_limit_length {A} limit (l : list A) :
  length (sql_limit limit l)
  = if limit <? 0 then length l else (Z.to_nat limit `min` length l)%nat.
Proof.
  unfold sql_limit. destruct (limit <? 0); [done|]. apply length_take.
Qed.

Lemma sql_limit_fmap {A B} (f : A -> B) limit (l : list A) :
  f <$> sql_limit limit l = sql_limit limit (f <$> l).
Proof. unfold sql_limit. destruct (limit <? 0); [done|]. apply fmap_take. Qed.

(** Under [keyed_by_id] the ids of the rows of a user are distinct. *)
Lemma rows_of_NoDup st user_id :
  keyed_by_id st -> NoDup (r_id <$> rows_of st user_id).
Proof.
  intros Hkeys. unfold rows_of.
  apply (sublist_NoDup _ (r_id <$> (map_to_list (db_jobs st)).*2)).
  2:{ apply fmap_sublist, sublist_filter. }
  assert (Hfst : r_id <$> (map_to_list (db_jobs st)).*2
                 = (map_to_list (db_jobs st)).*1).
  { rewrite <- list_fmap_compose. apply Forall_fmap_ext_1, Forall_forall.
    intros [k r] Hin. apply elem_of_map_to_list in Hin.
    by apply Hkeys in Hin. }
  rewrite Hfst. apply NoDup_fst_map_to_list.
Qed.

(** In a sorted list an earlier element is at least as new as a later
    one. *)
Lemma sorted_lookup (rows : list JobRow) (i j : nat) a b :
  StronglySorted newer_first rows ->
  (i < j)%nat -> rows !! i = Some a -> rows !! j = Some b ->
  r_created_at b <= r_created_at a.
Proof.
  intros Hsorted Hij Ha Hb.
  rewrite <- (take_drop j rows) in Hsorted.
  apply (StronglySorted_app_1_elem_of _ _ _ a b) in Hsorted; [done| |].
  - apply list_elem_of_lookup. exists i. by rewrite lookup_take_lt.
  - apply list_elem_of_lookup. exists 0%nat. by rewrite lookup_drop, Nat.add_0_r.
Qed.

(** The list of a user holds rows of that user only, each job once,
    newest first, as many as the limit allows; a job of the user that the
    limit cut off is no newer than any job listed. *)
Theorem list_jobs_newest_of_user (int : string -> Py.result Z) st user_id args :
  let limit := limit_arg int args in
  fits_int64 limit = true ->
  keyed_by_id st ->
  exists rows,
    list_jobs int st user_id args = (JobsBody (listed <$> rows), 200)
    /\ (forall r, r ∈ rows ->
                  r_user_id r = user_id /\ db_jobs st !! r_id r = Some r)
    /\ NoDup (l_id <$> (listed <$> rows))
    /\ (forall (i j : nat) a b,
          (i < j)%nat -> rows !! i = Some a -> rows !! j = Some b ->
          r_created_at b <= r_created_at a)
    /\ length rows
       = (if limit <? 0 then length (rows_of st user_id)
          else (Z.to_nat limit `min` length (rows_of st user_id))%nat)
    /\ (forall r,
          db_jobs st !! r_id r = Some r -> r_user_id r = user_id ->
          r ∈ rows
          \/ forall r', r' ∈ rows -> r_created_at r <= r_created_at r').
Proof.
  intros limit Hfits Hkeys.
  exists (select_jobs st user_id limit).
  unfold list_jobs. fold limit. rewrite Hfits. split; [done|].
  unfold select_jobs.
  set (sorted := merge_sort newer_first (rows_of st user_id)).
  assert (Hperm : sorted ≡ₚ rows_of st user_id) by apply merge_sort_Permutation.
  assert (Hsorted : StronglySorted newer_first sorted) by apply sorted_rows_sorted.
  destruct (sql_limit_split limit sorted) as (rest & Hsplit).
  clearbody sorted.
  assert (Hpre : StronglySorted newer_first (sql_limit limit sorted)).
  { rewrite Hsplit in Hsorted. by apply StronglySorted_app_1_l in Hsorted. }
  assert (Hin : forall r, r ∈ sql_limit limit sorted -> r ∈ rows_of st user_id).
  { intros r Hr. rewrite <- Hperm, Hsplit. apply elem_of_app. by left. }
  split.
  { intros r Hr. apply Hin, rows_of_spec in Hr as (Hu & k & Hk).
    split; [done|]. by rewrite (Hkeys k r Hk). }
  split.
  { rewrite <- list_fmap_compose.
    apply (sublist_NoDup _ (r_id <$> sorted)).
    - rewrite Hperm. by apply rows_of_NoDup.
    - rewrite Hsplit at 2. rewrite fmap_app. by apply sublist_inserts_r. }
  split.
  { intros i j a b. by apply sorted_lookup. }
  split.
  { rewrite sql_limit_length. by rewrite (Permutation_length Hperm). }
  intros r Hk Hu.
  assert (Hr : r ∈ sorted).
  { rewrite Hperm. apply rows_of_spec. eauto. }
  rewrite Hsplit in Hr. apply elem_of_app in Hr as [Hr|Hr]; [by left|].
  right. intros r' Hr'. rewrite Hsplit in Hsorted.
  by apply (StronglySorted_app_1_elem_of _ _ _ r' r) in Hsorted.
Qed.

Lemma list_jobs_newest_of_user_witness :
  exists rows,
    list_jobs Sample.int Backlog.three_jobs "user-1" {[ "limit" := "5" ]}
    = (JobsBody (listed <$> rows), 200)
    /\ length rows = 2%nat.
Proof.
  destruct (list_jobs_newest_of_user Sample.int Backlog.three_jobs "user-1"
              {[ "limit" := "5" ]})
    as (rows & Hlist & _ & _ & _ & Hlen & _).
  - reflexivity.
  - unfold keyed_by_id. apply map_Forall_to_list. vm_compute.
    repeat constructor.
  - exists rows. split; [exact Hlist|]. rewrite Hlen. reflexivity.
Defined.

(** *** The list over the life of a job *)

(** Two sorted lists of the same rows are the same list when no two of
    the rows were created at the same time. *)
Lemma NoDup_fmap_eq {A B} (f : A -> B) (l : list A) x y :
  NoDup (f <$> l) -> x ∈ l -> y ∈ l -> f x = f y -> x = y.
Proof.
  induction l as [|a l IH]; [by intros _ ?%elem_of_nil|].
  rewrite fmap_cons, NoDup_cons. intros [Ha Hl] Hx Hy Hf.
  apply elem_of_cons in Hx as [->|Hx]; apply elem_of_cons in Hy as [->|Hy].
  - done.
  - exfalso. apply Ha. rewrite Hf. apply list_elem_of_fmap. eauto.
  - exfalso. apply Ha. rewrite <- Hf. apply list_elem_of_fmap. eauto.
  - by apply IH.
Qed.

Lemma sorted_unique (l1 l2 : list JobRow) :
  NoDup (r_created_at <$> l1) -> l1 ≡ₚ l2 ->
  StronglySorted newer_first l1 -> StronglySorted newer_first l2 -> l1 = l2.
Proof.
  intros Hdistinct Hperm H1 H2.
  apply (StronglySorted_unique_strong newer_first); [|done..].
  intros x1 x2 Hx1 Hx2 Ha Hb. unfold newer_first in *.
  rewrite <- Hperm in Hx2.
  apply (NoDup_fmap_eq r_created_at l1); [done..|lia].
Qed.

Lemma sorted_fmap (g : JobRow -> JobRow) l :
  (forall r, r_created_at (g r) = r_created_at r) ->
  StronglySorted newer_first l -> StronglySorted newer_first (g <$> l).
Proof.
  intros Hg. induction 1 as [|r l Hl IH Hr]; [constructor|].
  rewrite fmap_cons. constructor; [done|].
  apply Forall_fmap. eapply Forall_impl; [exact Hr|].
  intros r'. unfold newer_first. cbn. by rewrite !Hg.
Qed.

(** The rows of a user among the rows of a table. *)
Lemma rows_insert (m : gmap string JobRow) k row user_id :
  m !! k = None ->
  filter (fun r => r_user_id r = user_id) (map_to_list (<[k := row]> m)).*2
  ≡ₚ filter (fun r => r_user_id r = user_id) (row :: (map_to_list m).*2).
Proof. intros Hk. by rewrite (map_to_list_insert m k row Hk). Qed.

Lemma rows_alter (m : gmap string JobRow) k (f : JobRow -> JobRow) user_id :
  map_Forall (fun k r => r_id r = k) m ->
  (forall r, r_user_id (f r) = r_user_id r) ->
  filter (fun r => r_user_id r = user_id) (map_to_list (alter f k m)).*2
  ≡ₚ (fun r => if String.eqb (r_id r) k then f r else r)
       <$> filter (fun r => r_user_id r = user_id) (map_to_list m).*2.
Proof.
  intros Hkeys Hf.
  set (g := fun r => if String.eqb (r_id r) k then f r else r).
  assert (Hrest : forall (m' : gmap string JobRow),
             map_Forall (fun k' r => r_id r = k' /\ k' <> k) m' ->
             g <$> filter (fun r => r_user_id r = user_id) (map_to_list m').*2
             = filter (fun r => r_user_id r = user_id) (map_to_list m').*2).
  { intros m' Hm'. rewrite <- (list_fmap_id (filter _ _)) at 2.
    apply Forall_fmap_ext_1, Forall_forall. intros r Hr.
    apply (list_elem_of_filter (fun r => r_user_id r = user_id)) in Hr as [_ Hr].
    apply list_elem_of_fmap in Hr as ([k' r'] & -> & Hr).
    apply elem_of_map_to_list, Hm' in Hr as [Hid Hne]. cbn in *.
    unfold g. destruct (String.eqb_spec (r_id r') k); [congruence|done]. }
  destruct (m !! k) as [r0|] eqn:Hk.
  - assert (Hid : r_id r0 = k) by exact (Hkeys k r0 Hk).
    assert (Hdel : map_Forall (fun k' r => r_id r = k' /\ k' <> k) (delete k m)).
    { intros k' r Hr. apply lookup_delete_Some in Hr as [Hne Hr].
      split; [exact (Hkeys k' r Hr)|done]. }
    assert (Hm : m = <[k := r0]> (delete k m)).
    { by rewrite insert_delete_eq, insert_id. }
    assert (Halter : alter f k m = <[k := f r0]> (delete k m)).
    { apply map_eq. intros k'. destruct (decide (k = k')) as [<-|Hne].
      - by rewrite lookup_alter_eq, Hk, lookup_insert_eq.
      - by rewrite lookup_alter_ne, lookup_insert_ne, lookup_delete_ne. }
    assert (Hfresh : delete k m !! k = None) by apply lookup_delete_eq.
    rewrite Halter. clear Halter.
    generalize dependent (delete k m). intros m0 Hdel -> Hfresh.
    rewrite (rows_insert _ k (f r0)) by done.
    rewrite (rows_insert _ k r0) by done.
    rewrite !filter_cons, Hf.
    destruct (decide (r_user_id r0 = user_id)).
    + rewrite fmap_cons, (Hrest _ Hdel). unfold g at 1.
      by rewrite Hid, String.eqb_refl.
    + by rewrite (Hrest _ Hdel).
  - assert (Halter : alter f k m = m).
    { apply map_eq. intros k'. rewrite lookup_alter.
      destruct (decide (k = k')) as [<-|]; [by rewrite Hk|done]. }
    rewrite Halter, Hrest; [done|].
    intros k' r Hr. split; [exact (Hkeys k' r Hr)|]. intros ->. congruence.
Qed.

(** Sorting is determined by the rows when their creation times differ. *)
Lemma merge_sort_unique (l1 l2 : list JobRow) :
  NoDup (r_created_at <$> l2) -> l1 ≡ₚ l2 -> StronglySorted newer_first l2 ->
  merge_sort newer_first l1 = l2.
Proof.
  intros Hdistinct Hperm Hsorted.
  apply sorted_unique.
  - by rewrite merge_sort_Permutation, Hperm.
  - by rewrite merge_sort_Permutation.
  - apply sorted_rows_sorted.
  - done.
Qed.

(** What an upload does to the jobs table. *)
Lemma upload_video_rows json_loads int secure_filename UPLOAD_FOLDER st
    request file_uuid job_uuid now resp st' thread :
  upload_video json_loads int secure_filename UPLOAD_FOLDER st request
    file_uuid job_uuid now = (resp, st', thread) ->
  (resp.2 <> 202 /\ db_jobs st' = db_jobs st)
  \/ (resp.2 = 202 /\ db_jobs st !! job_uuid = None
      /\ exists row,
           db_jobs st' = <[job_uuid := row]> (db_jobs st)
           /\ r_id row = job_uuid /\ r_user_id row = jwt_identity request
           /\ r_created_at row = now
           /\ listed row
              = {| l_id := job_uuid; l_status := "queued"; l_progress := 0;
                   l_step := "Queued"; l_createdAt := now;
                   l_summaryStyle :=
                     str_default (form request !! "summary_style") "default" |}).
Proof.
  unfold upload_video. intros Hup.
  destruct (files request !! "file") as [file|].
  2:{ injection Hup as <- <- <-. left. by split. }
  destruct (negb (Py.truthy (filename file))).
  { injection Hup as <- <- <-. left. by split. }
  destruct (match form request !! "num_frames" with
            | Some v => int v
            | None => Py.Ok 10
            end) as [num_frames|e].
  2:{ injection Hup as <- <- <-. left. by split. }
  cbv zeta in Hup. destruct (negb _).
  { injection Hup as <- <- <-. left. by split. }
  destruct (db_jobs st !! job_uuid) eqn:Hrow.
  { injection Hup as <- <- <-. left. by split. }
  injection Hup as <- <- <-. right. split; [done|]. split; [done|].
  eexists. split; [reflexivity|]. by repeat split.
Qed.

(** A new upload goes to the top of its owner's list, as a queued
    job, when it is newer than the owner's other jobs; it changes the list
    of nobody else, and an upload that is not accepted changes no list. *)
Theorem upload_goes_on_top (json_loads : string -> option Json)
    (int : string -> Py.result Z) (secure_filename : string -> string)
    (UPLOAD_FOLDER : string) st request file_uuid job_uuid now resp st' thread :
  upload_video json_loads int secure_filename UPLOAD_FOLDER st request
    file_uuid job_uuid now = (resp, st', thread) ->
  let owner := jwt_identity request in
  (forall user_id args,
     user_id <> owner -> NoDup (r_created_at <$> rows_of st user_id) ->
     list_jobs int st' user_id args = list_jobs int st user_id args)
  /\ (resp.2 <> 202 ->
      forall user_id args,
        list_jobs int st' user_id args = list_jobs int st user_id args)
  /\ (resp.2 = 202 ->
      NoDup (r_created_at <$> rows_of st owner) ->
      (forall r, r ∈ rows_of st owner -> r_created_at r < now) ->
      forall limit,
        listed <$> select_jobs st' owner limit
        = sql_limit limit
            ({| l_id := job_uuid; l_status := "queued"; l_progress := 0;
                l_step := "Queued"; l_createdAt := now;
                l_summaryStyle :=
                  str_default (form request !! "summary_style") "default" |}
               :: (listed <$> select_jobs st owner (-1))))
  /\ (keyed_by_id st -> keyed_by_id st').
Proof.
  intros Hup owner. unfold owner.
  destruct (upload_video_rows _ _ _ _ _ _ _ _ _ _ _ _ Hup)
    as [[Hcode Hsame]|(Hcode & Hfresh & row & Hrows & Hid & Huser & Htime & Hlisted)].
  - assert (Hlist : forall user_id args,
               list_jobs int st' user_id args = list_jobs int st user_id args).
    { intros user_id args. unfold list_jobs, select_jobs, rows_of.
      by rewrite Hsame. }
    split; [by intros|]. split; [by intros|]. split; [by intros|].
    unfold keyed_by_id. by rewrite Hsame.
  - split.
    { intros user_id args Hother Hdistinct.
      unfold list_jobs, select_jobs. f_equal.
      destruct (fits_int64 (limit_arg int args)); [|done].
      do 2 f_equal. unfold sql_limit.
      assert (Hsame : merge_sort newer_first (rows_of st' user_id)
                      = merge_sort newer_first (rows_of st user_id));
        [|by rewrite Hsame].
      apply merge_sort_unique.
      - by rewrite merge_sort_Permutation.
      - rewrite merge_sort_Permutation. unfold rows_of. rewrite Hrows.
        rewrite rows_insert by done. rewrite filter_cons.
        destruct (decide (r_user_id row = user_id)); [congruence|done].
      - apply sorted_rows_sorted. }
    split; [intros; congruence|].
    split.
    { intros _ Hdistinct Hnewer limit.
      unfold select_jobs at 1. rewrite sql_limit_fmap. f_equal.
      rewrite <- Hlisted, <- fmap_cons. f_equal.
      unfold select_jobs, sql_limit. cbn [Z.ltb Z.compare].
      assert (Hall : forall r, r ∈ merge_sort newer_first (rows_of st owner) ->
                               r_created_at r < now).
      { intros r Hr. apply Hnewer. by rewrite <- (merge_sort_Permutation newer_first). }
      apply merge_sort_unique.
      - rewrite fmap_cons. apply NoDup_cons. split.
        + rewrite Htime. intros Hin.
          apply list_elem_of_fmap in Hin as (r & Hr & Hin).
          apply Hall in Hin. lia.
        + by rewrite merge_sort_Permutation.
      - rewrite merge_sort_Permutation. unfold rows_of. rewrite Hrows.
        rewrite rows_insert by done. rewrite filter_cons.
        destruct (decide (r_user_id row = jwt_identity request)); [done|congruence].
      - constructor; [apply sorted_rows_sorted|].
        apply Forall_forall. intros r Hr. apply Hall in Hr.
        unfold newer_first. lia. }
    intros Hkeys. unfold keyed_by_id. rewrite Hrows.
    apply map_Forall_insert_2; [done|exact Hkeys].
Qed.

Lemma upload_goes_on_top_witness :
  list_jobs Sample.int Backlog.three_jobs "user-1" ∅
  = list_jobs Sample.int Backlog.two_jobs "user-1" ∅
  /\ listed <$> select_jobs Backlog.three_jobs "user-2" 1
     = [ {| l_id := "job-3"; l_status := "queued"; l_progress := 0;
            l_step := "Queued"; l_createdAt := 400;
            l_summaryStyle := "default" |} ].
Proof.
  assert (Hup : upload_video Sample.json_loads Sample.int
                  Sample.secure_filename "uploads" Backlog.two_jobs
                  Backlog.other_request "f3" "job-3" 400
                = ((AcceptedBody "job-3", 202), Backlog.three_jobs,
                   (upload_video Sample.json_loads Sample.int
                      Sample.secure_filename "uploads" Backlog.two_jobs
                      Backlog.other_request "f3" "job-3" 400).2))
    by (vm_compute; reflexivity).
  destruct (upload_goes_on_top _ _ _ _ _ _ _ _ _ _ _ _ Hup)
    as (Hothers & _ & Hown & _).
  split.
  - apply Hothers; [discriminate|].
    apply (bool_decide_unpack _). vm_compute. reflexivity.
  - assert (Hnone : rows_of Backlog.two_jobs "user-2" = [])
      by (vm_compute; reflexivity).
    rewrite Hown.
    + vm_compute. reflexivity.
    + reflexivity.
    + cbn [jwt_identity Backlog.other_request]. rewrite Hnone. constructor.
    + cbn [jwt_identity Backlog.other_request]. rewrite Hnone.
      intros r Hr. apply elem_of_nil in Hr. destruct Hr.
Defined.

(** The worker of a registered job changes the lists in place: the
    entry of its job shows [done], 100 and "Complete" when the pipeline
    returned, and [failed], its old progress and the error text when the
    pipeline raised; every other entry, the order and the creation times
    stay as they were. *)
Theorem worker_relabels_its_entry video_processor st job_id video_path
    num_frames summary_style summary_format summary_length_words user_profile
    now e :
  jobs st !! job_id = Some e ->
  keyed_by_id st ->
  let st' :=
    (process_video_job video_processor st job_id video_path num_frames
       summary_style summary_format summary_length_words user_profile now).1 in
  let relabel x :=
    match run_pipeline video_processor (disk st) video_path num_frames
            summary_length_words user_profile with
    | Py.Ok _ =>
        {| l_id := l_id x; l_status := "done"; l_progress := 100;
           l_step := "Complete"; l_createdAt := l_createdAt x;
           l_summaryStyle := l_summaryStyle x |}
    | Py.Raise ex =>
        {| l_id := l_id x; l_status := "failed"; l_progress := l_progress x;
           l_step := "Error: " +:+ Py.str_exn ex;
           l_createdAt := l_createdAt x;
           l_summaryStyle := l_summaryStyle x |}
    end in
  keyed_by_id st'
  /\ forall user_id limit,
       NoDup (r_created_at <$> rows_of st user_id) ->
       listed <$> select_jobs st' user_id limit
       = (fun x => if String.eqb (l_id x) job_id then relabel x else x)
           <$> (listed <$> select_jobs st user_id limit).
Proof.
  intros He Hkeys st' relabel.
  assert (Halter : exists f : JobRow -> JobRow,
             db_jobs st' = alter f job_id (db_jobs st)
             /\ (forall r, r_id (f r) = r_id r)
             /\ (forall r, r_user_id (f r) = r_user_id r)
             /\ (forall r, r_created_at (f r) = r_created_at r)
             /\ (forall r, listed (f r) = relabel (listed r))).
  { unfold st', relabel.
    rewrite (process_video_job_run _ _ _ _ _ _ _ _ _ _ e He).
    destruct (run_pipeline video_processor (disk st) video_path num_frames
                summary_length_words user_profile) as [results|ex].
    - by exists (update_done results now).
    - by exists (update_failed ("Error: " +:+ Py.str_exn ex) now). }
  destruct Halter as (f & Hrows & Hid & Huser & Htime & Hlisted).
  clearbody st' relabel. split.
  { unfold keyed_by_id. rewrite Hrows. intros k r Hr.
    apply lookup_alter_Some in Hr as [(-> & r0 & Hr0 & ->)|[_ Hr]].
    - rewrite Hid. exact (Hkeys _ _ Hr0).
    - exact (Hkeys _ _ Hr). }
  intros user_id limit Hdistinct.
  set (g := fun r => if String.eqb (r_id r) job_id then f r else r).
  assert (Hg : forall r, r_created_at (g r) = r_created_at r).
  { intros r. unfold g. by destruct (String.eqb (r_id r) job_id). }
  assert (Hsorted : merge_sort newer_first (rows_of st' user_id)
                    = g <$> merge_sort newer_first (rows_of st user_id)).
  { apply merge_sort_unique.
    - rewrite <- list_fmap_compose.
      rewrite (list_fmap_ext (r_created_at ∘ g) r_created_at)
        by (intros; apply Hg).
      by rewrite merge_sort_Permutation.
    - rewrite merge_sort_Permutation. unfold rows_of. rewrite Hrows.
      by apply rows_alter.
    - by apply sorted_fmap, sorted_rows_sorted. }
  unfold select_jobs. rewrite Hsorted, <- sql_limit_fmap.
  rewrite <- !list_fmap_compose. apply list_fmap_ext. intros _ r _.
  unfold g. cbn. destruct (String.eqb (r_id r) job_id); [apply Hlisted|done].
Qed.

Lemma worker_relabels_its_entry_witness :
  let st' :=
    (process_video_job (Some Sample.gemini_only) Backlog.three_jobs "job-2"
       "uploads/f2_talk.mp4" 10 "casual" "paragraph" None None 500).1 in
  listed <$> select_jobs st' "user-1" 20
  = [ {| l_id := "job-2"; l_status := "done"; l_progress := 100;
         l_step := "Complete"; l_createdAt := 300;
         l_summaryStyle := "casual" |};
      {| l_id := "job-1"; l_status := "done"; l_progress := 100;
         l_step := "Complete"; l_createdAt := 100;
         l_summaryStyle := "default" |} ].
Proof.
  intros st'.
  assert (He : exists e, jobs Backlog.three_jobs !! "job-2" = Some e)
    by (eexists; vm_compute; reflexivity).
  destruct He as (e & He).
  destruct (worker_relabels_its_entry (Some Sample.gemini_only)
              Backlog.three_jobs "job-2" "uploads/f2_talk.mp4" 10 "casual"
              "paragraph" None None 500 e He)
    as (_ & Hlist).
  { unfold keyed_by_id. apply map_Forall_to_list. vm_compute.
    repeat constructor. }
  unfold st'.
  rewrite Hlist by (apply (bool_decide_unpack _); vm_compute; reflexivity).
  vm_compute. reflexivity.
Defined.

End Listings.

(** ** The profile part of the prompt *)

Section PromptFacts.
Import Data VideoProcessor App Prompting.

Lemma join_value_joins sep v : is_Some (join_value sep v) <-> joins v.
Proof.
  destruct v as [| | | | |items|]; cbn [join_value joins];
    try (split; [by intros [? [=]]|done]); try (split; [done|by eexists]).
  rewrite fmap_is_Some, mapM_is_Some. apply Forall_iff. intros item.
  split.
  - intros [s Hs]. destruct item; try discriminate. by eexists.
  - intros [s ->]. by eexists.
Qed.

Lemma join_value_strings sep tags :
  join_value sep (JArray (JString <$> tags)) = Some (Py.join sep tags).
Proof. cbn [join_value]. by rewrite (mapM_fmap_Some str_item JString). Qed.

(** Building the profile context raises exactly when a value that is
    true is not of the kind the code expects: an expertise that [join]
    rejects, preferences that are no object, or a focus that [join]
    rejects. *)
Lemma profile_context_builds (str : Json -> string) p :
  is_Some (profile_context str p)
  <-> (truthy (p_expertise p) = false \/ joins (p_expertise p))
      /\ (truthy (p_summaryPreferences p) = false
          \/ exists fields,
               p_summaryPreferences p = JObject fields
               /\ joins (dict_get fields "focus" (JArray []))).
Proof.
  unfold profile_context.
  assert (Hfirst :
    is_Some (if truthy (p_expertise p)
             then (fun s => "Expertise: " +:+ s +:+ nl)
                    <$> join_value ", " (p_expertise p)
             else Some "")
    <-> truthy (p_expertise p) = false \/ joins (p_expertise p)).
  { destruct (truthy (p_expertise p)).
    - rewrite fmap_is_Some, join_value_joins. split; [by right|].
      by intros [|].
    - split; [by left|by eexists]. }
  assert (Hsecond :
    is_Some (if truthy (p_summaryPreferences p)
             then match p_summaryPreferences p with
                  | JObject fields =>
                      (fun focus =>
                         "Preferences: Length="
                         +:+ str (dict_get fields "length" (JString "medium"))
                         +:+ ", Focus=" +:+ focus +:+ nl)
                        <$> join_value ", " (dict_get fields "focus" (JArray []))
                  | _ => None
                  end
             else Some "")
    <-> truthy (p_summaryPreferences p) = false
        \/ exists fields,
             p_summaryPreferences p = JObject fields
             /\ joins (dict_get fields "focus" (JArray []))).
  { destruct (truthy (p_summaryPreferences p)).
    - destruct (p_summaryPreferences p) as [| | | | | |fields];
        try (split; [by intros [? [=]]|by intros [[=]|(? & [=] & _)]]).
      rewrite fmap_is_Some, join_value_joins. split.
      + intros Hj. right. by exists fields.
      + by intros [[=]|(fields' & [= <-] & Hj)].
    - split; [by left|by eexists]. }
  rewrite <- Hfirst, <- Hsecond.
  destruct (if truthy (p_expertise p) then _ else _) as [line1|].
  - destruct (if truthy (p_summaryPreferences p) then _ else _) as [line2|].
    + split; [by split; eexists|by eexists].
    + split; [by intros [? [=]]|by intros [_ [? [=]]]].
  - split; [by intros [? [=]]|by intros [[? [=]] _]].
Qed.

Lemma first_non_str_None i items :
  first_non_str i items = None
  <-> Forall (fun item => exists s, item = JString s) items.
Proof.
  revert i. induction items as [|item items IH]; intros i; [done|].
  rewrite Forall_cons.
  destruct item; cbn [first_non_str];
    try (split; [done|by intros [[? [=]] _]]).
  rewrite IH. split; [|by intros [_ ?]]. intros ?. split; [by eexists|done].
Qed.

Lemma join_error_joins v : join_error v = None <-> joins v.
Proof.
  destruct v as [| | | | |items|]; cbn [join_error joins]; try done.
  rewrite <- (first_non_str_None 0).
  by destruct (first_non_str 0 items) as [[i item]|].
Qed.

(** The profile block raises exactly when the profile context cannot be
    built. *)
Lemma profile_exception_None (str : Json -> string) p :
  profile_exception p = None <-> is_Some (profile_context str p).
Proof.
  rewrite profile_context_builds. unfold profile_exception.
  destruct (truthy (p_expertise p)).
  - destruct (join_error (p_expertise p)) as [e|] eqn:He.
    + split; [done|]. intros [[|Hj] _]; [done|].
      apply join_error_joins in Hj. congruence.
    + apply join_error_joins in He.
      destruct (truthy (p_summaryPreferences p)).
      * destruct (p_summaryPreferences p) as [| | | | | |fields];
          try (split; [done|by intros [_ [|(? & [=] & _)]]]).
        rewrite join_error_joins. split.
        -- intros Hj. split; [by right|]. right. by exists fields.
        -- by intros [_ [|(fields' & [= <-] & Hj)]].
      * split; [|done]. intros _. split; [by right|by left].
  - destruct (truthy (p_summaryPreferences p)).
    + destruct (p_summaryPreferences p) as [| | | | | |fields];
        try (split; [done|by intros [_ [|(? & [=] & _)]]]).
      rewrite join_error_joins. split.
      * intros Hj. split; [by left|]. right. by exists fields.
      * by intros [_ [|(fields' & [= <-] & Hj)]].
    + split; [|done]. intros _. split; by left.
Qed.

(** The profile an upload hands to its worker, by the row of its user. *)
Lemma upload_video_profile (json_loads : string -> option Json)
    (int : string -> Py.result Z) (secure_filename : string -> string)
    (UPLOAD_FOLDER : string) st request file_uuid job_uuid now resp st' args
    users :
  upload_video json_loads int secure_filename UPLOAD_FOLDER st request
    file_uuid job_uuid now = (resp, st', Some args) ->
  db_users st = Accounts.profile_columns users ->
  t_user_profile args
  = (fun user =>
       {| p_id := jwt_identity request;
          p_expertise := default (JArray []) (Accounts.a_expertise user);
          p_summaryPreferences :=
            default (JObject []) (Accounts.a_summary_preferences user) |})
      <$> Accounts.by_id users (jwt_identity request).
Proof.
  unfold upload_video. intros Hup Husers.
  destruct (files request !! "file") as [file|]; [|done].
  destruct (negb (Py.truthy (filename file))); [done|].
  destruct (match form request !! "num_frames" with
            | Some v => int v
            | None => Py.Ok 10
            end) as [num_frames|e]; [|done].
  cbv zeta in Hup. destruct (negb _); [done|].
  destruct (db_jobs st !! job_uuid); [done|].
  injection Hup as _ _ <-. cbn [t_user_profile].
  rewrite Husers, profile_columns_lookup.
  by destruct (Accounts.by_id users (jwt_identity request)).
Qed.

(** From sign-up to prompt. [signup] stores whatever value the request
    gives as expertise, and the first upload of the new user hands it to the
    worker with the default preferences. Building the profile context from
    it succeeds exactly when the value is false or one [join] accepts; for
    a list of strings the context is the header, the expertise line when
    the list is not empty, and the line of the default preferences. *)
Theorem signup_expertise_reaches_prompt
    (generate_password_hash : string -> string -> string)
    (create_access_token : string -> string)
    (json_loads : string -> option Json) (int : string -> Py.result Z)
    (secure_filename : string -> string) (UPLOAD_FOLDER : string)
    (str : Json -> string)
    users data user_uuid salt now reply users'
    st request file_uuid job_uuid later resp st' args :
  Accounts.signup generate_password_hash create_access_token users data
    user_uuid salt now = ((reply, 201), users') ->
  db_users st = Accounts.profile_columns users' ->
  jwt_identity request = user_uuid ->
  upload_video json_loads int secure_filename UPLOAD_FOLDER st request
    file_uuid job_uuid later = (resp, st', Some args) ->
  let expertise := default (JArray []) (Accounts.s_expertise data) in
  let p := {| p_id := user_uuid; p_expertise := expertise;
              p_summaryPreferences := Accounts.default_preferences |} in
  t_user_profile args = Some p
  /\ (is_Some (profile_context str p)
      <-> truthy expertise = false \/ joins expertise)
  /\ (forall tags,
        expertise = JArray (JString <$> tags) ->
        profile_context str p
        = Some ("USER PROFILE:" +:+ nl
                +:+ match tags with
                    | [] => ""
                    | _ :: _ => "Expertise: " +:+ Py.join ", " tags +:+ nl
                    end
                +:+ "Preferences: Length=" +:+ str (JString "medium")
                +:+ ", Focus=technical, highlevel" +:+ nl)).
Proof.
  intros Hsignup Husers Hid Hup expertise p.
  assert (Hrow : exists user,
             Accounts.by_id users' user_uuid = Some user
             /\ Accounts.a_expertise user = Some expertise
             /\ Accounts.a_summary_preferences user
                = Some Accounts.default_preferences).
  { rewrite signup_cases in Hsignup.
    destruct (Accounts.get (Accounts.s_name data)) as [name|]; [|done].
    destruct (Accounts.get (Accounts.s_email data)) as [email|]; [|done].
    destruct (Accounts.get (Accounts.s_password data)) as [password|]; [|done].
    destruct (Py.truthy name && Py.truthy email && Py.truthy password); [|done].
    destruct (Accounts.by_email users email); [done|].
    destruct (Accounts.by_id users user_uuid) eqn:Hfresh; [done|].
    injection Hsignup as _ <-. eexists. split.
    { unfold Accounts.by_id in *. rewrite find_snoc, Hfresh.
      cbn [Accounts.a_id]. by rewrite String.eqb_refl. }
    by split. }
  destruct Hrow as (user & Hrow & Hexp & Hprefs).
  split.
  { rewrite (upload_video_profile _ _ _ _ _ _ _ _ _ _ _ _ _ Hup Husers).
    rewrite Hid, Hrow. cbn [fmap option_fmap option_map].
    by rewrite Hexp, Hprefs. }
  split.
  { rewrite profile_context_builds. cbn [p p_expertise p_summaryPreferences].
    split; [by intros [? _]|]. intros Hexpertise. split; [done|].
    right. eexists. split; [reflexivity|]. cbn.
    repeat constructor; by eexists. }
  intros tags Htags. unfold profile_context.
  cbn [p p_expertise p_summaryPreferences]. rewrite Htags.
  rewrite join_value_strings. destruct tags as [|tag tags]; reflexivity.
Qed.

Lemma signup_expertise_reaches_prompt_witness :
  profile_context Profiles.str
    {| p_id := "u-ada"; p_expertise := JArray [JString "optics"];
       p_summaryPreferences := Accounts.default_preferences |}
  = Some ("USER PROFILE:" +:+ nl +:+ "Expertise: optics" +:+ nl
          +:+ "Preferences: Length=medium, Focus=technical, highlevel" +:+ nl).
Proof.
  assert (Hsignup :
    Accounts.signup Demo.generate_password_hash Demo.create_access_token []
      Demo.ada "u-ada" "na" 10
    = ((Accounts.Session "u-ada" (Some "Ada") "ada@example.org" (Some "user")
          "token:u-ada", 201), Demo.one_user))
    by (vm_compute; reflexivity).
  assert (Hup :
    upload_video Sample.json_loads Sample.int Sample.secure_filename "uploads"
      (Profiles.with_users Demo.one_user) Profiles.ada_request "f9" "job-9" 50
    = ((AcceptedBody "job-9", 202),
       (upload_video Sample.json_loads Sample.int Sample.secure_filename
          "uploads" (Profiles.with_users Demo.one_user) Profiles.ada_request
          "f9" "job-9" 50).1.2,
       Some {| t_job_id := "job-9"; t_video_path := "uploads/f9_clip.mp4";
               t_num_frames := 10; t_summary_style := "default";
               t_summary_format := "paragraph";
               t_summary_length_words := None;
               t_user_profile :=
                 Some {| p_id := "u-ada";
                         p_expertise := JArray [JString "optics"];
                         p_summaryPreferences :=
                           Accounts.default_preferences |} |}))
    by (vm_compute; reflexivity).
  destruct (signup_expertise_reaches_prompt _ _ _ _ _ _ Profiles.str
              _ _ _ _ _ _ _ (Profiles.with_users Demo.one_user)
              Profiles.ada_request _ _ _ _ _ _ Hsignup eq_refl eq_refl Hup)
    as (_ & _ & Htext).
  exact (Htext ["optics"] eq_refl).
Defined.

(** From a profile update to the prompt. [update_profile] stores whatever
    values the request gives as expertise and as preferences, and the next
    upload of the user hands them to the worker. Building the profile
    context then succeeds exactly when each value is false or of the kind
    the code expects; an expertise that is true and that [join] rejects, a
    list of numbers say, makes it raise. *)
Theorem update_profile_reaches_prompt
    (json_loads : string -> option Json) (int : string -> Py.result Z)
    (secure_filename : string -> string) (UPLOAD_FOLDER : string)
    (str : Json -> string)
    users user_id data user reply users'
    st request file_uuid job_uuid now resp st' args :
  Accounts.by_id users user_id = Some user ->
  Accounts.update_profile users user_id data = ((reply, 200), users') ->
  db_users st = Accounts.profile_columns users' ->
  jwt_identity request = user_id ->
  upload_video json_loads int secure_filename UPLOAD_FOLDER st request
    file_uuid job_uuid now = (resp, st', Some args) ->
  let expertise :=
    default (JArray [])
      (Accounts.set_json (Accounts.d_expertise data) (Accounts.a_expertise user)) in
  let prefs :=
    default (JObject [])
      (Accounts.set_json (Accounts.d_summaryPreferences data)
         (Accounts.a_summary_preferences user)) in
  let p := {| p_id := user_id; p_expertise := expertise;
              p_summaryPreferences := prefs |} in
  t_user_profile args = Some p
  /\ (is_Some (profile_context str p)
      <-> (truthy expertise = false \/ joins expertise)
          /\ (truthy prefs = false
              \/ exists fields,
                   prefs = JObject fields
                   /\ joins (dict_get fields "focus" (JArray []))))
  /\ (forall v,
        Accounts.d_expertise data = Some v -> truthy v = true -> ~ joins v ->
        profile_context str p = None).
Proof.
  intros Huser Hupdate Husers Hid Hup expertise prefs p.
  assert (Hrow : Accounts.by_id users' user_id = Some (Accounts.updated data user)).
  { unfold Accounts.update_profile in Hupdate.
    destruct (negb (Accounts.names_a_column data)); [done|].
    injection Hupdate as _ <-. rewrite by_id_updated, Huser.
    cbn [fmap option_fmap option_map].
    apply by_id_Some in Huser as [_ ->]. by rewrite String.eqb_refl. }
  assert (Hp : t_user_profile args = Some p).
  { rewrite (upload_video_profile _ _ _ _ _ _ _ _ _ _ _ _ _ Hup Husers).
    by rewrite Hid, Hrow. }
  split; [exact Hp|]. split; [apply profile_context_builds|].
  intros v Hv Htrue Hjoins.
  apply eq_None_not_Some. rewrite profile_context_builds.
  cbn [p p_expertise]. unfold expertise. rewrite Hv.
  cbn [Accounts.set_json default from_option]. unfold id.
  intros [[Hfalse|Hj] _]; [congruence|done].
Qed.

Lemma update_profile_reaches_prompt_witness :
  profile_context Profiles.str
    {| p_id := "u-ada"; p_expertise := JArray [JInt 1; JInt 2];
       p_summaryPreferences := Accounts.default_preferences |}
  = None.
Proof.
  assert (Huser : exists user, Accounts.by_id Demo.two_users "u-ada" = Some user
                               /\ Accounts.a_summary_preferences user
                                  = Some Accounts.default_preferences)
    by (eexists; split; vm_compute; reflexivity).
  destruct Huser as (user & Huser & Hprefs).
  assert (Hupdate :
    Accounts.update_profile Demo.two_users "u-ada" Profiles.numbers
    = ((Accounts.Message "Profile updated successfully", 200),
       (Accounts.update_profile Demo.two_users "u-ada" Profiles.numbers).2))
    by (vm_compute; reflexivity).
  assert (Hup : exists st' args,
    upload_video Sample.json_loads Sample.int Sample.secure_filename "uploads"
      (Profiles.with_users
         (Accounts.update_profile Demo.two_users "u-ada" Profiles.numbers).2)
      Profiles.ada_request "f9" "job-9" 50
    = ((AcceptedBody "job-9", 202), st', Some args))
    by (eexists _, _; vm_compute; reflexivity).
  destruct Hup as (st' & args & Hup).
  destruct (update_profile_reaches_prompt _ _ _ _ Profiles.str
              _ _ _ _ _ _
              (Profiles.with_users
                 (Accounts.update_profile Demo.two_users "u-ada"
                    Profiles.numbers).2)
              Profiles.ada_request _ _ _ _ _ _ Huser Hupdate eq_refl eq_refl
              Hup)
    as (_ & _ & Hbreaks).
  specialize (Hbreaks (JArray [JInt 1; JInt 2]) eq_refl eq_refl).
  cbn [Profiles.numbers Accounts.d_expertise Accounts.d_summaryPreferences
       Accounts.set_json default from_option] in Hbreaks. unfold id in Hbreaks.
  rewrite Hprefs in Hbreaks. apply Hbreaks.
  intros Hj. apply Forall_cons in Hj as [[s Hs] _]. discriminate Hs.
Defined.

End PromptFacts.
